(** * TmPy: nearest-neighbour thermodynamics of DNA duplexes

    A shallow embedding of the Python sources [utilSeq.py], [thermo.py],
    [Tm.py] (function [getOligoPair] and the header lines of [main]) and
    [util.py] (the entry [readFileToDict] makes of a line), the
    properties of the specification proved over it, and further
    properties of the code.

    Modelling conventions.

    - Python [str] values are Rocq [string]s (sequences of 8-bit
      characters); [list(s)] is the [list ascii] of its characters.
    - A Python [dict] with string keys is a [gmap string _]; the one
      with float keys that [getMelting] fills is an association list in
      insertion order.
    - Exceptions and [sys.exit] are values of an error monad [result].
    - Python [float]s are idealised as real numbers [R]: no rounding, no
      overflow, no NaN.  The partial operations keep their Python
      behaviour: a division by zero raises [ZeroDivisionError], and
      [math.log] / [math.sqrt] outside their domain raise [ValueError].
      Module [Binary64] gives the bit-exact IEEE 754 version of the one
      function, [_perBcal], where rounding decides a property. *)

From Stdlib Require Import ZArith List String Ascii Bool Lia.
From Stdlib Require Import Reals Lra Sorted.
From Stdlib Require PrimFloat.
From stdpp Require Import base option list strings gmap fin_maps.

Local Open Scope string_scope.

(** ** Python runtime: exceptions and results *)

Module Py.

(** The exception classes of [error.py]. *)
Inductive error : Type :=
| NotDNAError (duplex : string)
| DuplexNotFlushError (duplex : string)
| ConcentrationZeroError (variable : string)
| ConcentrationOrderError
| TemperatureRangeError
| NNnotExistError (nn : string) (top bottom : list ascii)
| NNFileNotFoundError.

(** What ends a computation abnormally: a custom exception that
    propagates to the caller, a custom exception that is caught, printed
    and followed by [sys.exit(1)], or a built-in exception that nothing
    catches. *)
Inductive exn : Type :=
| Raised (e : error)
| SysExit (e : error)
| IndexError
| KeyError
| ValueError
| ZeroDivisionError.

(** The outcome of a call: a value, an exception, or [OutOfFuel] when a
    [while] loop of the model was not given enough iterations (shown
    below never to happen for the loops of this program). *)
Inductive result (A : Type) : Type :=
| Ok (a : A)
| Raise (x : exn)
| OutOfFuel.
Arguments Ok {A} a.
Arguments Raise {A} x.
Arguments OutOfFuel {A}.

Definition bind {A B : Type} (m : result A) (k : A → result B) : result B :=
  match m with
  | Ok a => k a
  | Raise x => Raise x
  | OutOfFuel => OutOfFuel
  end.

(** The value of a call that returned, [d] otherwise. *)
Definition value_of {A : Type} (d : A) (r : result A) : A :=
  match r with
  | Ok a => a
  | _ => d
  end.

(** [l[i]] for a non-negative index. *)
Definition index {A : Type} (l : list A) (i : nat) : result A :=
  match l !! i with
  | Some a => Ok a
  | None => Raise IndexError
  end.

(** [l[-1]]. *)
Definition index_last {A : Type} (l : list A) : result A :=
  match last l with
  | Some a => Ok a
  | None => Raise IndexError
  end.

(** A [for] loop over [xs] threading an accumulator; an exception in
    the body ends the loop. *)
Fixpoint for_each {A S : Type} (xs : list A) (body : S → A → result S)
    (s : S) : result S :=
  match xs with
  | [] => Ok s
  | x :: xs' => bind (body s x) (for_each xs' body)
  end.

(** [range(a, b)] *)
Definition range (a b : nat) : list nat := seq a (b - a).

(** [sorted(l)] for the order [leb]: a stable sort, here by insertion
    from the right end. *)
Fixpoint sorted_insert {A : Type} (leb : A → A → bool) (x : A) (l : list A)
    : list A :=
  match l with
  | [] => [x]
  | y :: l' => if leb x y then x :: y :: l' else y :: sorted_insert leb x l'
  end.

Definition sorted {A : Type} (leb : A → A → bool) (l : list A) : list A :=
  foldr (sorted_insert leb) [] l.

End Py.

Import Py.

#[global] Instance result_ret : MRet result := @Ok.
#[global] Instance result_bind : MBind result := fun A B k m => Py.bind m k.

(** ** Python strings *)

Module Str.

(** [s.split(sep)] and [re.split("[...]", s)] for a class of single
    characters: the pieces between separators, empty pieces included. *)
Fixpoint split_chars (is_sep : ascii → bool) (cur : list ascii)
    (s : list ascii) : list string :=
  match s with
  | [] => [string_of_list_ascii (rev cur)]
  | c :: s' =>
      if is_sep c
      then string_of_list_ascii (rev cur) :: split_chars is_sep [] s'
      else split_chars is_sep (c :: cur) s'
  end.

Definition split (sep : ascii) (s : string) : list string :=
  split_chars (Ascii.eqb sep) [] (list_ascii_of_string s).

Definition tab : ascii := "009"%char.

(** [re.split("[\t,]", s)] *)
Definition re_split_tab_comma (s : string) : list string :=
  split_chars (fun c => Ascii.eqb c tab || Ascii.eqb c ","%char) []
              (list_ascii_of_string s).

(** [''.join(reversed(s))] *)
Definition reversed (s : string) : string :=
  string_of_list_ascii (rev (list_ascii_of_string s)).

(** [str.maketrans(be, af)]: the character map sending the i-th
    character of [be] to the i-th of [af] (the last occurrence wins) and
    leaving the others as they are. *)
Definition maketrans (be af : string) (c : ascii) : ascii :=
  let table := zip (list_ascii_of_string be) (list_ascii_of_string af) in
  match find (fun p => Ascii.eqb p.1 c) (rev table) with
  | Some p => p.2
  | None => c
  end.

(** [s.translate(f)] for a character map. *)
Definition translate (f : ascii → ascii) (s : string) : string :=
  string_of_list_ascii (map f (list_ascii_of_string s)).

Definition upper_char (c : ascii) : ascii :=
  let n := nat_of_ascii c in
  if (97 <=? n)%nat && (n <=? 122)%nat then ascii_of_nat (n - 32) else c.

(** [s.upper()] on the ASCII letters. *)
Definition upper (s : string) : string := translate upper_char s.

(** The string made of the characters [cs]. *)
Definition of_chars (cs : list ascii) : string := string_of_list_ascii cs.

(** [sep.join(l)] *)
Fixpoint join (sep : string) (l : list string) : string :=
  match l with
  | [] => ""
  | a :: l' =>
      match l' with
      | [] => a
      | _ :: _ => a +:+ sep +:+ join sep l'
      end
  end.

End Str.

(** ** utilSeq.py *)

Definition seqComp_be : string := "ACGTUacgtu".
Definition seqComp_af : string := "TGCAAtgcaa".

Definition seqRev (s : string) : string := Str.reversed s.

Definition seqComp (s : string) : string :=
  Str.translate (Str.maketrans seqComp_be seqComp_af) s.

Definition seqRC (s : string) : string := seqComp (seqRev s).

(** ** thermo.py: the nearest-neighbour parameter loader *)

(** The file system as [_readNN] sees it: for each of the two parameter
    files, [None] when [Path(name).exists()] is false, and otherwise the
    list that [util.readFileToList(name)] returns (the lines of the file,
    stripped, without the blank and the comment lines). *)
Record World : Type := {
  nnSH_csv : option (list string);
  nnSS_csv : option (list string)
}.

Section Loader.

(** The numeric type of the table, its [0.0], and [float(s)]. *)
Context {V : Type}.
Variable zero : V.
Variable py_float : string → option V.

(** [float(s)]: a [ValueError] when [s] is no number. *)
Definition float_of (s : string) : result V :=
  match py_float s with
  | Some x => Ok x
  | None => Raise ValueError
  end.

(** Body of [for j in range(1, 6)]. *)
Definition _readNN_cell (top bottom : list string)
    (NN : gmap string V) (j : nat) : result (gmap string V) :=
  tj ← index top j;
  value ← (if (0 <? String.length tj)%nat then float_of tj else Ok zero);
  t0 ← index top 0;
  bj ← index bottom j;
  let NN := <[t0 +:+ "/" +:+ bj := value]> NN in
  let nn_t := Str.reversed bj +:+ "/" +:+ Str.reversed t0 in
  Ok (<[nn_t := value]> NN).

(** Body of [for i in range(5)], on the state [(index, NN)]. *)
Definition _readNN_row (ls : list string) (bottom : list string)
    (st : nat * gmap string V) (i : nat) : result (nat * gmap string V) :=
  let index := (st.1 + 1)%nat in
  line ← Py.index ls index;
  let top := Str.re_split_tab_comma line in
  NN ← for_each (range 1 6) (_readNN_cell top bottom) st.2;
  Ok (index, NN).

(** Body of [while index < len(ls)]: one block of six rows. *)
Definition _readNN_block (ls : list string)
    (st : nat * gmap string V) : result (nat * gmap string V) :=
  line ← Py.index ls st.1;
  let bottom := Str.re_split_tab_comma line in
  st' ← for_each (range 0 5) (_readNN_row ls bottom) st;
  Ok ((st'.1 + 1)%nat, st'.2).

Fixpoint _readNN_while (fuel : nat) (ls : list string)
    (st : nat * gmap string V) : result (gmap string V) :=
  if (st.1 <? length ls)%nat then
    match fuel with
    | O => OutOfFuel
    | S fuel' => st' ← _readNN_block ls st; _readNN_while fuel' ls st'
    end
  else Ok st.2.

(** The parsing part of [_readNN], from [index=0; NN={}] on. *)
Definition _readNN_lines (ls : list string) : result (gmap string V) :=
  _readNN_while (length ls) ls (0%nat, ∅).

Definition _readNN (w : World) (HorS : string) : result (gmap string V) :=
  let file := if String.eqb HorS "dH" then nnSH_csv w else nnSS_csv w in
  match file with
  | None => Raise (SysExit NNFileNotFoundError)
  | Some ls => _readNN_lines ls
  end.

End Loader.

(** ** thermo.py: arithmetic on (idealised) floats *)

Local Open Scope R_scope.

(** [x / y] *)
Definition py_div (x y : R) : result R :=
  if Req_dec_T y 0 then Raise ZeroDivisionError else Ok (x / y).

(** [math.sqrt(x)] *)
Definition math_sqrt (x : R) : result R :=
  if Rlt_dec x 0 then Raise ValueError else Ok (sqrt x).

(** [math.log(x)] *)
Definition math_log (x : R) : result R :=
  if Rlt_dec 0 x then Ok (ln x) else Raise ValueError.

(** [a <= x <= b] as a Python condition *)
Definition between (a x b : R) : bool :=
  (if Rle_dec a x then true else false) && (if Rle_dec x b then true else false).

(** ** thermo.py: class Thermo *)

(** The gas constant [_R_]. *)
Definition _R_ : R := 1.987.

Record Thermo : Type := {
  _temper : R;
  _cp : R;
  _ct : R;
  _na : R;
  _mg : R;
  _nndH : gmap string R;
  _nndS : gmap string R
}.

Definition _perBcal (k cp ct : R) : result R :=
  c ← py_div cp ct;
  k1 ← py_div 1 k;
  kct ← py_div k1 ct;
  let b := - (c + 1 + kct) in
  x ← math_sqrt (b * b - 4.0 * c);
  let p1 := (- b + x) / 2.0 in
  p2 ← py_div c p1;
  Ok (if between 0.0 p1 1.0 then p1 else p2).

(** [re.search("[^ACGT/]", pair)] *)
Definition not_DNA (pair : string) : bool :=
  existsb (fun c => negb (existsb (Ascii.eqb c)
                            ["A"; "C"; "G"; "T"; "/"]%char))
          (list_ascii_of_string pair).

(** Body of the propagation loop [for b in range(len(top)-1)]. *)
Definition _get_dHdS_step (nndH nndS : gmap string R)
    (top bottom : list ascii) (acc : R * R) (b : nat) : result (R * R) :=
  tb ← index top b;
  tb1 ← index top (b + 1);
  bb ← index bottom b;
  bb1 ← index bottom (b + 1);
  let nn := Str.of_chars [tb; tb1; "/"%char; bb; bb1] in
  match nndH !! nn, nndS !! nn with
  | Some h, Some s => Ok (acc.1 + h, acc.2 + s)
  | _, _ => Raise (SysExit (NNnotExistError nn top bottom))
  end.

(** [top[i]+bottom[i] != 'GC' and top[i]+bottom[i] != 'CG'] *)
Definition not_GC_CG (t b : ascii) : bool :=
  negb (String.eqb (Str.of_chars [t; b]) "GC")
  && negb (String.eqb (Str.of_chars [t; b]) "CG").

(** The terminal AT correction of one end. *)
Definition terminal_AT (t b : ascii) (acc : R * R) : R * R :=
  if not_GC_CG t b then (acc.1 + 2.2, acc.2 + 6.9) else acc.

Definition _get_dHdS (nndH nndS : gmap string R) (pair : string)
    : result (R * R) :=
  let pair := Str.upper pair in
  if not_DNA pair then Raise (SysExit (NotDNAError pair)) else
  let temp := Str.split "/" pair in
  temp0 ← index temp 0;
  let isSymm := String.eqb temp0 (seqRC temp0) in
  let top := list_ascii_of_string temp0 in
  temp1 ← index temp 1;
  let bottom := list_ascii_of_string temp1 in
  if negb (length top =? length bottom)%nat
  then Raise (SysExit (DuplexNotFlushError pair)) else
  (* initiation, then propagation *)
  acc ← for_each (range 0 (length top - 1))
                 (_get_dHdS_step nndH nndS top bottom) (0.2, -5.7);
  (* symmetry correction *)
  let acc := (acc.1, acc.2 + (if isSymm then -1.4 else 0.0)) in
  (* terminal AT correction *)
  t0 ← index top 0;
  b0 ← index bottom 0;
  let acc := terminal_AT t0 b0 acc in
  tn ← index_last top;
  bn ← index_last bottom;
  let acc := terminal_AT tn bn acc in
  Ok acc.

(** The value returned by [thermoCal0] is the tab-separated string made
    of [pair] and of numbers printed with a fixed format; the model keeps
    the numbers, in the order of the columns. *)
Definition thermoCal0 (self : Thermo) (pair : string) (verbose : Z)
    : result (string * list R) :=
  let temper := _temper self in
  let cp := _cp self in
  let ct := _ct self in
  let na := _na self in
  let mg := _mg self in
  '(dH, dS) ← _get_dHdS (_nndH self) (_nndS self) pair;
  (* effective monovalent concentration *)
  sq ← math_sqrt (mg * 1000);
  let na_eff := na + 0.12 * sq in
  (* salt correction for dS *)
  let n := (INR (String.length pair) - 1) / 2 - 1 in
  lna ← math_log na_eff;
  let dSeff := dS + 0.368 * n * lna in
  let dG := dH - temper * dSeff / 1000 in
  (* at melting temperature *)
  ktm ← py_div 1 (cp - ct / 2);
  lktm ← math_log ktm;
  q ← py_div (dH * 1000) (dSeff - _R_ * lktm);
  let Tm := q - 273.15 in
  verb_unit ←
    (if (0 <? verbose)%Z then
       e ← py_div (- dG * 1000 / _R_) temper;
       let k := exp e in
       perB ← _perBcal k cp ct;
       Ok ([perB * 100.0; dG; dH; dSeff; temper - 273.15],
           [cp * 1e9; ct * 1e9; na * 1e3; mg * 1e3])
     else Ok ([], []));
  let out := [Tm] in
  let out :=
    if (verbose =? 1)%Z then (out ++ verb_unit.1 ++ verb_unit.2)%list
    else out in
  if (2 <=? verbose)%Z then
    let dGs := dH - 310.15 * dS / 1000 in
    let ks := 1e4 in
    lks ← math_log ks;
    qs ← py_div (dH * 1000) (dS - _R_ * lks);
    let Tms := qs - 273.15 in
    Ok (pair, (out ++ verb_unit.1 ++ [Tms; dGs; dS] ++ verb_unit.2)%list)
  else Ok (pair, out).

(** A call of [_readNN] made by the constructor. *)
Inductive event : Type :=
| ReadNN (HorS : string).

Section Constructor.

(** [float(s)] on the cells of the parameter files. *)
Variable py_float : string → option R.

(** [Thermo(temper, cp, ct, na, mg)] in the file system [w]: the calls
    of [_readNN] made, in order, and the object or the exception. *)
Definition __init__ (w : World) (temper cp ct na mg : R)
    : list event * result Thermo :=
  if Req_dec_T cp 0
  then ([], Raise (Raised (ConcentrationZeroError "cp")))
  else if Req_dec_T ct 0
  then ([], Raise (Raised (ConcentrationZeroError "ct")))
  else if Rlt_dec cp ct
  then ([], Raise (Raised ConcentrationOrderError))
  else if (if Rlt_dec 200 temper then true else false)
          || (if Rlt_dec temper (-100) then true else false)
  then ([], Raise (Raised TemperatureRangeError))
  else
    match _readNN 0.0 py_float w "dH" with
    | Ok nndH =>
        match _readNN 0.0 py_float w "dS" with
        | Ok nndS =>
            ([ReadNN "dH"; ReadNN "dS"],
             Ok {| _cp := cp * 1e-9;
                   _ct := ct * 1e-9;
                   _temper := temper + 273.15;
                   _na := na * 1e-3;
                   _mg := mg * 1e-3;
                   _nndH := nndH;
                   _nndS := nndS |})
        | Raise x => ([ReadNN "dH"; ReadNN "dS"], Raise x)
        | OutOfFuel => ([ReadNN "dH"; ReadNN "dS"], OutOfFuel)
        end
    | Raise x => ([ReadNN "dH"], Raise x)
    | OutOfFuel => ([ReadNN "dH"], OutOfFuel)
    end.

End Constructor.

(** The default arguments of the constructor. *)
Definition _temper_ : R := 65.0.
Definition _cp_ : R := 300.0.
Definition _ct_ : R := 1.38e-15.
Definition _na_ : R := 100.0.
Definition _mg_ : R := 0.0.

(** ** thermo.py: [_perBcal] on IEEE 754 binary64 numbers

    The same function on the floats Python computes with: every
    operation rounds to nearest-even, as [PrimFloat] does. *)

Module Binary64.

Import PrimFloat.
Local Open Scope float_scope.

Definition py_div (x y : float) : result float :=
  if y =? 0 then Raise ZeroDivisionError else Ok (x / y).

Definition math_sqrt (x : float) : result float :=
  if x <? 0 then Raise ValueError else Ok (sqrt x).

Definition _perBcal (k cp ct : float) : result float :=
  c ← py_div cp ct;
  k1 ← py_div 1 k;
  kct ← py_div k1 ct;
  let b := - (c + 1 + kct) in
  x ← math_sqrt (b * b - 4.0 * c);
  let p1 := (- b + x) / 2.0 in
  p2 ← py_div c p1;
  Ok (if (0.0 <=? p1) && (p1 <=? 1.0) then p1 else p2).

End Binary64.

(** ** Tm.py: [getOligoPair] *)

(** Body of [for item in oligo]. *)
Definition getOligoPair_item (r : bool) (oligoO : gmap string string)
    (entry : string * string) : gmap string string :=
  let item := entry.1 in
  let temp := Str.split Str.tab entry.2 in
  if (length temp =? 1)%nat then
    match temp with
    | value_t :: _ => <[item := value_t +:+ "/" +:+ seqComp value_t]> oligoO
    | [] => oligoO
    end
  else if (length temp =? 2)%nat then
    match temp with
    | temp0 :: temp1 :: _ =>
        let value_t := if r then seqRev temp1 else temp1 in
        <[item := temp0 +:+ "/" +:+ value_t]> oligoO
    | _ => oligoO
    end
  else oligoO.

Definition getOligoPair (oligo : gmap string string) (r : bool)
    : gmap string string :=
  foldl (getOligoPair_item r) ∅ (map_to_list oligo).

(** ** Reading a block of the parameter file

    The cell of row [i] and column [j] (both from 1 to 5) of the block
    whose header is line [index] of [ls]: its forward key and its mirror
    key, and the number in it. *)
Definition block_keys (ls : list string) (index i j : nat)
    : option (string * string) :=
  header ← ls !! index;
  row ← ls !! (index + i)%nat;
  rowLabel ← Str.re_split_tab_comma row !! 0%nat;
  hdr ← Str.re_split_tab_comma header !! j;
  Some (rowLabel +:+ "/" +:+ hdr,
        Str.reversed hdr +:+ "/" +:+ Str.reversed rowLabel).

Definition cell_value {V : Type} (zero : V) (py_float : string → option V)
    (cell : string) : option V :=
  if (0 <? String.length cell)%nat then py_float cell else Some zero.

(** Cell [(i', j')] is written after cell [(i, j)]. *)
Definition later_cell (i j i' j' : nat) : Prop :=
  (i < i')%nat ∨ (i = i' ∧ j < j')%nat.

(** A table is closed under mirroring when every key read backwards is
    a key with the same value. *)
Definition mirror_closed {V : Type} (NN : gmap string V) : Prop :=
  ∀ k v, NN !! k = Some v → NN !! Str.reversed k = Some v.

(** The cell of column [j] in the row [top] under the header [bottom]
    writes neither [key] nor a key whose mirror is [key]. *)
Definition cell_avoids (key : string) (top bottom : list string) (j : nat)
    : Prop :=
  ∀ t0 bj, top !! 0%nat = Some t0 → bottom !! j = Some bj →
    t0 +:+ "/" +:+ bj ≠ key ∧ Str.reversed (t0 +:+ "/" +:+ bj) ≠ key.

(** The duplex [getOligoPair] stores for an entry with the value [v];
    [None] when the entry has more than two strands and is left out. *)
Definition entry_duplex (r : bool) (v : string) : option string :=
  match Str.split Str.tab v with
  | [top] => Some (top +:+ "/" +:+ seqComp top)
  | [top; givenBottom] =>
      Some (top +:+ "/" +:+ (if r then seqRev givenBottom else givenBottom))
  | _ => None
  end.

(** The entry [key ↦ v] of a table is the one of a cell of [ls]: of
    row [i] and column [j] (1 to 5 each) of the block that starts at a
    line [index], a multiple of 6. *)
Definition from_cell {V : Type} (zero : V) (py_float : string → option V)
    (ls : list string) (key : string) (v : V) : Prop :=
  ∃ index i j fwd mir row cell,
    (index mod 6 = 0)%nat ∧ (1 ≤ i ≤ 5)%nat ∧ (1 ≤ j ≤ 5)%nat
    ∧ block_keys ls index i j = Some (fwd, mir)
    ∧ (key = fwd ∨ key = mir)
    ∧ ls !! (index + i)%nat = Some row
    ∧ Str.re_split_tab_comma row !! j = Some cell
    ∧ cell_value zero py_float cell = Some v.

(** ** The terms of the nearest-neighbour sum

    The key of the step at position [b] of a duplex, the values a table
    gives to the steps 0 to [len(top) - 2], and the sum of a list of
    numbers. *)
Definition nn_at (top bottom : list ascii) (b : nat) : option string :=
  tb ← top !! b;
  tb1 ← top !! (b + 1)%nat;
  bb ← bottom !! b;
  bb1 ← bottom !! (b + 1)%nat;
  Some (Str.of_chars [tb; tb1; "/"%char; bb; bb1]).

Definition nn_values (nn_table : gmap string R) (top bottom : list ascii)
    (steps : list nat) (vs : list R) : Prop :=
  Forall2 (fun b v => ∃ nn, nn_at top bottom b = Some nn
                            ∧ nn_table !! nn = Some v) steps vs.

Definition sum_R (vs : list R) : R := foldr Rplus 0 vs.

(** The terminal corrections of a base pair at an end of the duplex. *)
Definition terminal_dH (t b : ascii) : R := if not_GC_CG t b then 2.2 else 0.
Definition terminal_dS (t b : ascii) : R := if not_GC_CG t b then 6.9 else 0.

(** The reverse complement in the words of the specification: the
    strand read backwards, with every base replaced by its Watson-Crick
    partner (A with T, C with G); and a strand that equals its own
    reverse complement. *)
Definition base_pairs : list (ascii * ascii) :=
  [("A", "T"); ("T", "A"); ("C", "G"); ("G", "C")]%char.

Definition paired_base (c : ascii) : ascii :=
  match find (fun p : ascii * ascii => Ascii.eqb p.1 c) base_pairs with
  | Some p => p.2
  | None => c
  end.

Definition reverse_complement (strand : list ascii) : list ascii :=
  map paired_base (rev strand).

Definition self_complementary (top : string) : Prop :=
  list_ascii_of_string top = reverse_complement (list_ascii_of_string top).

(** The symmetry correction of a top strand. *)
Definition symmetry_dS (top : string) : R :=
  if String.eqb top (seqRC top) then -1.4 else 0.



(** ** Concrete inputs

    [float(s)] is a built-in of Python; the loader takes it as a
    parameter.  To run the model on concrete files, [decimal] reads the
    plain decimal literals (an optional sign, digits, an optional
    fraction) as a mantissa and a number of fraction digits; [float()]
    accepts more (exponents, [inf], [nan], blanks around the number). *)

Fixpoint digits_value (acc : Z) (cs : list ascii) : option Z :=
  match cs with
  | [] => Some acc
  | c :: cs' =>
      match Ascii.is_nat c with
      | Some d => digits_value (10 * acc + Z.of_nat d) cs'
      | None => None
      end
  end.

Definition decimal (s : string) : option (Z * nat) :=
  let cs := list_ascii_of_string s in
  let signed :=
    match cs with
    | "-"%char :: cs' => (true, cs')
    | "+"%char :: cs' => (false, cs')
    | _ => (false, cs)
    end in
  let parts :=
    match Str.split "." (string_of_list_ascii signed.2) with
    | [int] => Some (list_ascii_of_string int, [])
    | [int; frac] => Some (list_ascii_of_string int, list_ascii_of_string frac)
    | _ => None
    end in
  '(int, frac) ← parts;
  if (length int + length frac =? 0)%nat then None else
  m ← digits_value 0 (int ++ frac)%list;
  Some (if signed.1 then (- m)%Z else m, length frac).

Definition decimal_float (s : string) : option R :=
  (fun d : Z * nat => IZR d.1 / IZR (10 ^ Z.of_nat d.2)) <$> decimal s.

(** A parameter file of one block, in the layout [_readNN] expects, for
    the enthalpies and for the entropies; the blank cells read as 0.0. *)
Definition sample_nnSH : list string :=
  [ ",TT,TA,GC,CT,CG";
    "AA,-7.9,1.2,,,";
    "AT,,-7.2,,,";
    "CG,,,-10.6,,";
    "GA,,,,-8.2,";
    "GC,,,0.5,,-9.8" ].

Definition sample_nnSS : list string :=
  [ ",TT,TA,GC,CT,CG";
    "AA,-22.2,3.1,,,";
    "AT,,-20.4,,,";
    "CG,,,-27.2,,";
    "GA,,,,-22.2,";
    "GC,,,1.6,,-24.4" ].

Definition sample_world : World :=
  {| nnSH_csv := Some sample_nnSH; nnSS_csv := Some sample_nnSS |}.

(** The tables the constructor reads from the sample files. *)
Definition sample_nndH : gmap string R :=
  value_of ∅ (_readNN 0.0 decimal_float sample_world "dH").

Definition sample_nndS : gmap string R :=
  value_of ∅ (_readNN 0.0 decimal_float sample_world "dS").

(** The object [Thermo()] builds from the default arguments and the
    sample files, and the one [Thermo(na=0)] builds. *)
Definition sample_self : Thermo :=
  {| _cp := _cp_ * 1e-9; _ct := _ct_ * 1e-9; _temper := _temper_ + 273.15;
     _na := _na_ * 1e-3; _mg := _mg_ * 1e-3;
     _nndH := sample_nndH; _nndS := sample_nndS |}.

Definition salt_free_self : Thermo :=
  {| _cp := _cp_ * 1e-9; _ct := _ct_ * 1e-9; _temper := _temper_ + 273.15;
     _na := 0 * 1e-3; _mg := _mg_ * 1e-3;
     _nndH := sample_nndH; _nndS := sample_nndS |}.

(** ** util.py: the entry [readFileToDict] makes of a line

    Body of [for line in ls] for the arguments [main] leaves at their
    defaults, [keyC=1] and [valueC=0]; [line] is the line after
    [line.strip()]. *)
Definition readFileToDict_item (lso : gmap string string) (line : string)
    : result (gmap string string) :=
  let temp := Str.re_split_tab_comma line in
  key ← index temp 0;
  Ok (<[key := Str.join (String Str.tab "") (drop 1 temp)]> lso).

(** ** utilSeq.py: [isWC] and [matchUp] *)

Definition isWC (b1 b2 : string) : bool :=
  let pair :=
    Str.of_chars (sorted Ascii.leb
                    (list_ascii_of_string (Str.upper (b1 +:+ b2)))) in
  if String.eqb pair "CG" || String.eqb pair "AT" then true else false.

Definition newline : ascii := "010"%char.

(** Body of the comprehension [... for i in range(len(top))]. *)
Definition matchUp_item (top bottom : list ascii) (match_ : list ascii)
    (i : nat) : result (list ascii) :=
  ti ← index top i;
  bi ← index bottom i;
  Ok (match_ ++ [if isWC (String ti "") (String bi "")
                 then "|"%char else "x"%char])%list.

Definition matchUp (top bottom : string) : result string :=
  match_ ← for_each (range 0 (String.length top))
                    (matchUp_item (list_ascii_of_string top)
                                  (list_ascii_of_string bottom)) [];
  Ok ("5'" +:+ top +:+ "3'" +:+ String newline "  "
      +:+ Str.of_chars match_ +:+ "  " +:+ String newline "3'"
      +:+ bottom +:+ "5'").

(** The mark under one base pair, and the three lines of text. *)
Definition match_mark (t b : ascii) : ascii :=
  if isWC (String t "") (String b "") then "|"%char else "x"%char.

Definition matchUp_text (top match_ bottom : string) : string :=
  "5'" +:+ top +:+ "3'" +:+ String newline "  "
  +:+ match_ +:+ "  " +:+ String newline "3'" +:+ bottom +:+ "5'".

(** ** thermo.py: [getMelting] and [thermoCal] *)

(** A [dict] with float keys, in insertion order: [d[k]=v] and
    [d.get(k)]. *)
Fixpoint dict_set (k v : R) (d : list (R * R)) : list (R * R) :=
  match d with
  | [] => [(k, v)]
  | (k', v') :: d' =>
      if Req_dec_T k' k then (k', v) :: d' else (k', v') :: dict_set k v d'
  end.

Fixpoint dict_get (k : R) (d : list (R * R)) : option R :=
  match d with
  | [] => None
  | (k', v') :: d' => if Req_dec_T k' k then Some v' else dict_get k d'
  end.

(** Body of [for k in kelvin]. *)
Definition getMelting_step (self : Thermo) (dH dS : R)
    (melt : list (R * R)) (k : R) : result (list (R * R)) :=
  let dG := dH - k * dS / 1000 in
  e ← py_div (- dG * 1000 / _R_) k;
  let keq := exp e in
  perB ← _perBcal keq (_cp self) (_ct self);
  Ok (dict_set (k - 273.15) perB melt).

Definition getMelting (self : Thermo) (pair : string) (temp : list R)
    : result (list (R * R)) :=
  '(dH, dS) ← _get_dHdS (_nndH self) (_nndS self) pair;
  let kelvin := map (fun t => t + 273.15) temp in
  for_each kelvin (getMelting_step self dH dS) [].

(** Body of [for o in oligo_order]; a row is the name and what
    [thermoCal0] returns. *)
Definition thermoCal_item (self : Thermo) (oligo : gmap string string)
    (verbose : Z) (myThermo : list (string * (string * list R)))
    (o : string) : result (list (string * (string * list R))) :=
  match oligo !! o with
  | Some duplex =>
      out ← thermoCal0 self duplex verbose;
      Ok (myThermo ++ [(o, out)])%list
  | None => Raise KeyError
  end.

Definition thermoCal (self : Thermo) (oligo : gmap string string)
    (verbose : Z) : result (list (string * (string * list R))) :=
  let oligo_order := sorted String.leb (map fst (map_to_list oligo)) in
  for_each oligo_order (thermoCal_item self oligo verbose) [].

(** The equilibrium constant [getMelting] uses at [k] kelvin. *)
Definition melting_keq (dH dS k : R) : R :=
  exp (- (dH - k * dS / 1000) * 1000 / _R_ / k).

(** The object [Thermo(na=1000)] builds from the sample files: one molar
    monovalent salt, for which the salt correction vanishes. *)
Definition molar_self : Thermo :=
  {| _cp := _cp_ * 1e-9; _ct := _ct_ * 1e-9; _temper := _temper_ + 273.15;
     _na := 1000 * 1e-3; _mg := _mg_ * 1e-3;
     _nndH := sample_nndH; _nndS := sample_nndS |}.


(** The row of the name [o]: the name and what [thermoCal0] returns
    for its duplex. *)
Definition thermoCal_row (self : Thermo) (oligo : gmap string string)
    (verbose : Z) (o : string) (row : string * (string * list R)) : Prop :=
  row.1 = o
  ∧ ∃ duplex, oligo !! o = Some duplex
              ∧ thermoCal0 self duplex verbose = Ok row.2.

(** ** Tm.py: the header [main] puts above the rows of [thermoCal] *)

Definition header1 : list string := ["Name"; "Duplex"; "Tm(C)"].
Definition header2 : list string :=
  ["PerBound (%)"; "dG(kcal/mol)"; "dH(kcal/mol)"; "dS(e.u.)";
   "Temperature(C)"].
Definition header3 : list string :=
  ["Tm_std(C)"; "dG_std(kcal/mol)"; "dS_std(e.u.)"].
Definition headerCond : list string :=
  ["Cprimer(nM)"; "Ctemplate(nM)"; "C_mono(mM)"; "C_divalent(mM)"].

(** The header line for the verbosity [v]; none is inserted for a
    negative [v]. *)
Definition main_header (v : Z) : option (list string) :=
  if (v =? 0)%Z then Some header1
  else if (v =? 1)%Z then Some (header1 ++ header2 ++ headerCond)%list
  else if (2 <=? v)%Z
  then Some (header1 ++ header2 ++ header3 ++ headerCond)%list
  else None.

(** * Properties *)

(** A closed equation that holds by evaluation. *)
Ltac by_vm :=
  lazymatch goal with
  | |- _ = ?b => vm_cast_no_check (@eq_refl _ b)
  end.

(** The values of a concrete list of steps, read off [nn_values]. *)
Ltac nn_values_inv H :=
  unfold nn_values, range in H;
  match type of H with
  | Forall2 _ ?steps _ =>
      let steps' := eval vm_compute in steps in
      change steps with steps' in H
  end;
  repeat match type of H with
         | Forall2 _ (_ :: _) _ =>
             let nn := fresh "nn" in
             let Hnn := fresh "Hnn" in
             let Hv := fresh "Hv" in
             apply Forall2_cons_inv_l in H as (? & ? & (nn & Hnn & Hv) & H & ->);
             vm_compute in Hnn; injection Hnn as <-
         end;
  apply Forall2_nil_inv_l in H as ->.

(** ** Sanity checks of the string functions *)

Example seqRC_GAATTC : seqRC "GAATTC" = "GAATTC".
Proof. reflexivity. Qed.

Example seqComp_keeps_other : seqComp "AcGuN-" = "TgCaN-".
Proof. reflexivity. Qed.

Example split_duplex : Str.split "/" "AC/TG" = ["AC"; "TG"].
Proof. reflexivity. Qed.

Example split_empty_pieces :
  Str.re_split_tab_comma "AA,,1.5," = ["AA"; ""; "1.5"; ""].
Proof. reflexivity. Qed.

Example upper_pair : Str.upper "acgT/n" = "ACGT/N".
Proof. reflexivity. Qed.

Example decimal_cell : decimal "-10.6" = Some ((-106)%Z, 1%nat).
Proof. reflexivity. Qed.

(** ** Strings *)

Lemma append_cons (c : ascii) (a b : string) :
  String c a +:+ b = String c (a +:+ b).
Proof. reflexivity. Qed.

Lemma append_assoc (a b c : string) : (a +:+ b) +:+ c = a +:+ (b +:+ c).
Proof.
  induction a as [|x a IH]; [reflexivity|].
  by rewrite !append_cons, IH.
Qed.

Lemma list_ascii_of_string_app (a b : string) :
  list_ascii_of_string (a +:+ b)
  = (list_ascii_of_string a ++ list_ascii_of_string b)%list.
Proof.
  induction a as [|c a IH]; [reflexivity|].
  rewrite append_cons. simpl. by rewrite IH.
Qed.

Lemma string_of_list_ascii_app (l1 l2 : list ascii) :
  string_of_list_ascii (l1 ++ l2)
  = string_of_list_ascii l1 +:+ string_of_list_ascii l2.
Proof.
  induction l1 as [|c l1 IH]; [reflexivity|].
  simpl. by rewrite append_cons, IH.
Qed.

Lemma length_chars (s : string) :
  length (list_ascii_of_string s) = String.length s.
Proof. induction s as [|c s IH]; simpl; [done | by rewrite IH]. Qed.

Lemma reversed_app (a b : string) :
  Str.reversed (a +:+ b) = Str.reversed b +:+ Str.reversed a.
Proof.
  unfold Str.reversed.
  by rewrite list_ascii_of_string_app, rev_app_distr, string_of_list_ascii_app.
Qed.

Lemma reversed_involutive (s : string) : Str.reversed (Str.reversed s) = s.
Proof.
  unfold Str.reversed.
  rewrite list_ascii_of_string_of_list_ascii, rev_involutive.
  apply string_of_list_ascii_of_string.
Qed.

(** The mirror key written by [_readNN] is the forward key read backwards. *)
Lemma reversed_key (t0 bj : string) :
  Str.reversed (t0 +:+ "/" +:+ bj)
  = Str.reversed bj +:+ "/" +:+ Str.reversed t0.
Proof.
  rewrite !reversed_app.
  change (Str.reversed "/") with "/".
  by rewrite append_assoc.
Qed.

(** ** The error monad *)

Lemma bind_Ok {A B : Type} (m : result A) (k : A → result B) (b : B) :
  m ≫= k = Ok b → ∃ a, m = Ok a ∧ k a = Ok b.
Proof. destruct m; simpl; intros H; try discriminate. eauto. Qed.

Lemma index_Ok {A : Type} (l : list A) (i : nat) (a : A) :
  index l i = Ok a ↔ l !! i = Some a.
Proof.
  unfold index. destruct (l !! i); split; intros H; congruence.
Qed.

Lemma bind_fuel {A B : Type} (m : result A) (k : A → result B) :
  m ≠ OutOfFuel → (∀ a, k a ≠ OutOfFuel) → m ≫= k ≠ OutOfFuel.
Proof. destruct m; simpl; intros H1 H2; [apply H2|done|done]. Qed.

Lemma index_fuel {A : Type} (l : list A) (i : nat) : index l i ≠ OutOfFuel.
Proof. unfold index. by destruct (l !! i). Qed.

(** A [for] loop keeps what its body keeps. *)
Lemma for_each_invariant {A S : Type} (P : S → Prop)
    (xs : list A) (body : S → A → result S) :
  (∀ s x s', P s → body s x = Ok s' → P s') →
  ∀ s s', P s → for_each xs body s = Ok s' → P s'.
Proof.
  intros Hbody. induction xs as [|x xs IH]; simpl; intros s s' Hs H.
  - by injection H as <-.
  - destruct (body s x) as [s1| |] eqn:E; simpl in H; try discriminate.
    eapply IH; [|exact H]. eauto.
Qed.

Lemma for_each_fuel {A S : Type} (xs : list A) (body : S → A → result S) :
  (∀ s x, body s x ≠ OutOfFuel) → ∀ s, for_each xs body s ≠ OutOfFuel.
Proof.
  intros Hbody. induction xs as [|x xs IH]; simpl; intros s; [done|].
  specialize (Hbody s x). destruct (body s x); simpl; [apply IH|done|done].
Qed.

(** ** The parameter loader *)

Section LoaderFacts.

Context {V : Type}.
Variable zero : V.
Variable py_float : string → option V.

Lemma mirror_closed_empty : mirror_closed (∅ : gmap string V).
Proof. intros k v H. by rewrite lookup_empty in H. Qed.

(** Writing a key and then its mirror with one value keeps the table
    closed. *)
Lemma mirror_closed_insert (NN : gmap string V) (k : string) (x : V) :
  mirror_closed NN → mirror_closed (<[Str.reversed k := x]> (<[k := x]> NN)).
Proof.
  intros HNN k' v H.
  destruct (decide (k' = k)) as [->|Hk].
  - destruct (decide (Str.reversed k = k)) as [E|E].
    + rewrite E in H |- *. by rewrite lookup_insert_eq in H |- *.
    + rewrite lookup_insert_ne, lookup_insert_eq in H by done.
      by rewrite lookup_insert_eq.
  - destruct (decide (k' = Str.reversed k)) as [->|Hk'].
    + rewrite lookup_insert_eq in H.
      rewrite reversed_involutive.
      destruct (decide (Str.reversed k = k)) as [E|E]; [congruence|].
      by rewrite lookup_insert_ne, lookup_insert_eq.
    + rewrite !lookup_insert_ne in H by done.
      rewrite !lookup_insert_ne; [by apply HNN| |].
      * intros E. apply Hk'. rewrite E. symmetry. apply reversed_involutive.
      * intros E. apply Hk. apply (f_equal Str.reversed) in E.
        by rewrite !reversed_involutive in E.
Qed.

Lemma _readNN_cell_Ok top bottom NN j NN' :
  _readNN_cell zero py_float top bottom NN j = Ok NN' →
  ∃ tj value t0 bj,
    top !! j = Some tj ∧ top !! 0%nat = Some t0 ∧ bottom !! j = Some bj
    ∧ (if (0 <? String.length tj)%nat then py_float tj = Some value
       else value = zero)
    ∧ NN' = <[Str.reversed (t0 +:+ "/" +:+ bj) := value]>
              (<[t0 +:+ "/" +:+ bj := value]> NN).
Proof.
  unfold _readNN_cell. intros H.
  apply bind_Ok in H as (tj & Htj & H). apply index_Ok in Htj.
  apply bind_Ok in H as (value & Hv & H).
  apply bind_Ok in H as (t0 & Ht0 & H). apply index_Ok in Ht0.
  apply bind_Ok in H as (bj & Hbj & H). apply index_Ok in Hbj.
  injection H as <-. exists tj, value, t0, bj.
  repeat split; try done.
  - destruct (0 <? String.length tj)%nat.
    + unfold float_of in Hv. destruct (py_float tj); congruence.
    + congruence.
  - by rewrite reversed_key.
Qed.

Lemma _readNN_cell_mirror top bottom NN j NN' :
  mirror_closed NN →
  _readNN_cell zero py_float top bottom NN j = Ok NN' → mirror_closed NN'.
Proof.
  intros HNN H. apply _readNN_cell_Ok in H as (tj & x & t0 & bj & _ & _ & _ & _ & ->).
  by apply mirror_closed_insert.
Qed.

Lemma _readNN_row_Ok ls bottom st i st' :
  _readNN_row zero py_float ls bottom st i = Ok st' →
  ∃ line,
    ls !! (st.1 + 1)%nat = Some line ∧ st'.1 = (st.1 + 1)%nat
    ∧ for_each (range 1 6)
        (_readNN_cell zero py_float (Str.re_split_tab_comma line) bottom)
        st.2 = Ok st'.2.
Proof.
  unfold _readNN_row. intros H.
  apply bind_Ok in H as (line & Hl & H). apply index_Ok in Hl.
  apply bind_Ok in H as (NN & HNN & H). injection H as <-.
  by exists line.
Qed.

Lemma _readNN_block_Ok ls st st' :
  _readNN_block zero py_float ls st = Ok st' →
  ∃ line st1,
    ls !! st.1 = Some line
    ∧ for_each (range 0 5)
        (_readNN_row zero py_float ls (Str.re_split_tab_comma line)) st
      = Ok st1
    ∧ st' = ((st1.1 + 1)%nat, st1.2).
Proof.
  unfold _readNN_block. intros H.
  apply bind_Ok in H as (line & Hl & H). apply index_Ok in Hl.
  apply bind_Ok in H as (st1 & Hst1 & H). injection H as <-.
  by exists line, st1.
Qed.

Lemma _readNN_block_mirror ls st st' :
  mirror_closed st.2 →
  _readNN_block zero py_float ls st = Ok st' → mirror_closed st'.2.
Proof.
  intros Hst H. apply _readNN_block_Ok in H as (line & st1 & _ & H & ->).
  simpl. revert H. apply (for_each_invariant (fun s => mirror_closed s.2)); [|done].
  intros s i s' Hs H. apply _readNN_row_Ok in H as (l & _ & _ & H).
  revert H. apply for_each_invariant; [|done].
  intros. by eapply _readNN_cell_mirror.
Qed.

Lemma _readNN_while_mirror fuel ls st NN :
  mirror_closed st.2 →
  _readNN_while zero py_float fuel ls st = Ok NN → mirror_closed NN.
Proof.
  revert st. induction fuel as [|fuel IH]; intros st Hst; simpl.
  - destruct (st.1 <? length ls)%nat; [done|]. by intros [= <-].
  - destruct (st.1 <? length ls)%nat; [|by intros [= <-]].
    intros H. apply bind_Ok in H as (st' & Hb & H).
    eapply IH; [|exact H]. by eapply _readNN_block_mirror.
Qed.

(** One block moves the index six lines on. *)
Lemma _readNN_block_index ls st st' :
  _readNN_block zero py_float ls st = Ok st' → st'.1 = (st.1 + 6)%nat.
Proof.
  intros H. apply _readNN_block_Ok in H as (line & st1 & _ & H & ->). simpl.
  cut (∀ xs s s',
        for_each xs (_readNN_row zero py_float ls
                       (Str.re_split_tab_comma line)) s = Ok s' →
        s'.1 = (s.1 + length xs)%nat).
  { intros C. apply C in H. simpl in H. lia. }
  clear. induction xs as [|x xs IH]; simpl; intros s s' H.
  - injection H as <-. lia.
  - apply bind_Ok in H as (s1 & H1 & H). apply IH in H.
    apply _readNN_row_Ok in H1 as (l & _ & E & _). lia.
Qed.

Lemma _readNN_cell_fuel top bottom NN j :
  _readNN_cell zero py_float top bottom NN j ≠ OutOfFuel.
Proof.
  unfold _readNN_cell.
  apply bind_fuel; [apply index_fuel|intros tj].
  apply bind_fuel; [|intros value].
  { unfold float_of.
    destruct (0 <? String.length tj)%nat; [destruct (py_float tj)|]; done. }
  apply bind_fuel; [apply index_fuel|intros t0].
  apply bind_fuel; [apply index_fuel|done].
Qed.

Lemma _readNN_row_fuel ls bottom st i :
  _readNN_row zero py_float ls bottom st i ≠ OutOfFuel.
Proof.
  unfold _readNN_row.
  apply bind_fuel; [apply index_fuel|intros line].
  apply bind_fuel; [|done].
  apply for_each_fuel. intros. apply _readNN_cell_fuel.
Qed.

Lemma _readNN_block_fuel ls st :
  _readNN_block zero py_float ls st ≠ OutOfFuel.
Proof.
  unfold _readNN_block.
  apply bind_fuel; [apply index_fuel|intros line].
  apply bind_fuel; [|done].
  apply for_each_fuel. intros. apply _readNN_row_fuel.
Qed.

(** The fuel [_readNN_lines] gives its loop is enough. *)
Lemma _readNN_while_fuel fuel ls st :
  (length ls ≤ fuel + st.1)%nat →
  _readNN_while zero py_float fuel ls st ≠ OutOfFuel.
Proof.
  revert st. induction fuel as [|fuel IH]; intros st Hlen; simpl.
  - destruct (st.1 <? length ls)%nat eqn:E; [|done].
    apply Nat.ltb_lt in E. lia.
  - destruct (st.1 <? length ls)%nat; [|done].
    destruct (_readNN_block zero py_float ls st) as [st'| |] eqn:E; simpl.
    + apply IH. apply _readNN_block_index in E. lia.
    + done.
    + by apply _readNN_block_fuel in E.
Qed.

Lemma _readNN_lines_fuel ls : _readNN_lines zero py_float ls ≠ OutOfFuel.
Proof. apply _readNN_while_fuel. simpl. lia. Qed.

(** [_readNN] always ends: with a table or with an exception. *)
Lemma _readNN_fuel w HorS : _readNN zero py_float w HorS ≠ OutOfFuel.
Proof.
  unfold _readNN.
  destruct (if String.eqb HorS "dH" then nnSH_csv w else nnSS_csv w);
    [apply _readNN_lines_fuel|done].
Qed.

End LoaderFacts.

(** C4.  In every table returned by [_readNN], a key "XY/ZW" comes with
    its mirror key "reverse(ZW)/reverse(XY)", and both map to the same
    value. *)
Theorem readNN_mirror_key {V : Type} (zero : V) (py_float : string → option V)
    (w : World) (HorS : string) (NN : gmap string V) :
  _readNN zero py_float w HorS = Ok NN →
  ∀ (XY ZW : string) (v : V),
    NN !! (XY +:+ "/" +:+ ZW) = Some v →
    NN !! (Str.reversed ZW +:+ "/" +:+ Str.reversed XY) = Some v.
Proof.
  unfold _readNN, _readNN_lines. intros H XY ZW v Hk.
  destruct (if String.eqb HorS "dH" then nnSH_csv w else nnSS_csv w)
    as [ls|]; [|discriminate].
  apply _readNN_while_mirror in H; [|apply mirror_closed_empty].
  rewrite <- reversed_key. by apply H.
Qed.

(** The witness of [readNN_mirror_key]: the sample file, its key "GA/CT"
    and the mirror "TC/AG". *)
Lemma readNN_mirror_key_witness :
  let NN := value_of ∅ (_readNN (0%Z, 0%nat) decimal sample_world "dH") in
  _readNN (0%Z, 0%nat) decimal sample_world "dH" = Ok NN
  ∧ NN !! ("GA" +:+ "/" +:+ "CT") = Some ((-82)%Z, 1%nat)
  ∧ NN !! (Str.reversed "CT" +:+ "/" +:+ Str.reversed "GA")
    = Some ((-82)%Z, 1%nat).
Proof.
  intros NN.
  assert (H : _readNN (0%Z, 0%nat) decimal sample_world "dH" = Ok NN)
    by by_vm.
  assert (H1 : NN !! ("GA" +:+ "/" +:+ "CT") = Some ((-82)%Z, 1%nat))
    by by_vm.
  exact (conj H (conj H1 (readNN_mirror_key _ _ _ _ _ H _ _ _ H1))).
Defined.

(** ** One block of the parameter file *)

Lemma for_each_app {A S : Type} (xs ys : list A) (body : S → A → result S)
    (s : S) :
  for_each (xs ++ ys) body s = for_each xs body s ≫= for_each ys body.
Proof.
  revert s. induction xs as [|x xs IH]; intros s; simpl; [done|].
  destruct (body s x); simpl; [apply IH|done|done].
Qed.

Lemma seq_split (a n k : nat) :
  (k < n)%nat →
  seq a n = (seq a k ++ (a + k)%nat :: seq (a + k + 1) (n - k - 1))%list.
Proof.
  intros Hk. replace n with (k + S (n - k - 1))%nat at 1 by lia.
  rewrite seq_app. simpl. by replace (S (a + k)) with (a + k + 1)%nat by lia.
Qed.

Section BlockFacts.

Context {V : Type}.
Variable zero : V.
Variable py_float : string → option V.

(** After a cell is processed its forward key holds its value. *)
Lemma _readNN_cell_lookup top bottom NN j NN' :
  _readNN_cell zero py_float top bottom NN j = Ok NN' →
  ∃ cell value t0 bj,
    top !! j = Some cell ∧ top !! 0%nat = Some t0 ∧ bottom !! j = Some bj
    ∧ cell_value zero py_float cell = Some value
    ∧ NN' !! (t0 +:+ "/" +:+ bj) = Some value.
Proof.
  intros H.
  apply _readNN_cell_Ok in H as (tj & value & t0 & bj & ? & ? & ? & Hv & ->).
  exists tj, value, t0, bj. repeat split; try done.
  - unfold cell_value. destruct (0 <? String.length tj)%nat; congruence.
  - destruct (decide (Str.reversed (t0 +:+ "/" +:+ bj) = t0 +:+ "/" +:+ bj))
      as [E|E].
    + rewrite E. apply lookup_insert_eq.
    + rewrite lookup_insert_ne by done. apply lookup_insert_eq.
Qed.

Lemma _readNN_cell_other key top bottom NN j NN' :
  _readNN_cell zero py_float top bottom NN j = Ok NN' →
  cell_avoids key top bottom j → NN' !! key = NN !! key.
Proof.
  intros H Ha.
  apply _readNN_cell_Ok in H as (tj & value & t0 & bj & ? & ? & ? & _ & ->).
  destruct (Ha t0 bj) as [Hf Hm]; [done..|].
  by rewrite !lookup_insert_ne.
Qed.

Lemma _readNN_cell_present key top bottom NN j NN' :
  _readNN_cell zero py_float top bottom NN j = Ok NN' →
  is_Some (NN !! key) → is_Some (NN' !! key).
Proof.
  intros H Hk.
  apply _readNN_cell_Ok in H as (tj & value & t0 & bj & ? & ? & ? & _ & ->).
  rewrite !lookup_insert_is_Some'. auto.
Qed.

Lemma _readNN_cells_other key top bottom xs NN NN' :
  for_each xs (_readNN_cell zero py_float top bottom) NN = Ok NN' →
  (∀ j, j ∈ xs → cell_avoids key top bottom j) → NN' !! key = NN !! key.
Proof.
  revert NN. induction xs as [|x xs IH]; simpl; intros NN H Ha.
  - by injection H as <-.
  - apply bind_Ok in H as (NN1 & H1 & H).
    rewrite (IH _ H); [|intros; apply Ha; by right].
    eapply _readNN_cell_other; [done|]. apply Ha. by left.
Qed.

Lemma _readNN_cells_present key top bottom xs NN NN' :
  for_each xs (_readNN_cell zero py_float top bottom) NN = Ok NN' →
  is_Some (NN !! key) → is_Some (NN' !! key).
Proof.
  intros H Hk. revert H.
  apply (for_each_invariant (fun m : gmap string V => is_Some (m !! key)));
    [|done].
  intros. by eapply _readNN_cell_present.
Qed.

Lemma _readNN_rows_index ls bottom xs s s' :
  for_each xs (_readNN_row zero py_float ls bottom) s = Ok s' →
  s'.1 = (s.1 + length xs)%nat.
Proof.
  revert s. induction xs as [|x xs IH]; simpl; intros s H.
  - injection H as <-. lia.
  - apply bind_Ok in H as (s1 & H1 & H). apply IH in H.
    apply _readNN_row_Ok in H1 as (l & _ & E & _). lia.
Qed.

Lemma _readNN_rows_other key ls bottom xs s s' :
  for_each xs (_readNN_row zero py_float ls bottom) s = Ok s' →
  (∀ k row j, (k < length xs)%nat → ls !! (s.1 + 1 + k)%nat = Some row →
     j ∈ range 1 6 →
     cell_avoids key (Str.re_split_tab_comma row) bottom j) →
  s'.2 !! key = s.2 !! key.
Proof.
  revert s. induction xs as [|x xs IH]; simpl; intros s H Ha.
  - by injection H as <-.
  - apply bind_Ok in H as (s1 & H1 & H).
    apply _readNN_row_Ok in H1 as (row & Hrow & E & Hc).
    rewrite (IH _ H).
    + eapply _readNN_cells_other; [done|]. intros j Hj.
      apply (Ha 0%nat); [lia| |done].
      by replace (s.1 + 1 + 0)%nat with (s.1 + 1)%nat by lia.
    + intros k r j Hk Hr Hj. apply (Ha (S k)); [lia| |done].
      rewrite <- Hr. f_equal. lia.
Qed.

Lemma _readNN_rows_present key ls bottom xs s s' :
  for_each xs (_readNN_row zero py_float ls bottom) s = Ok s' →
  is_Some (s.2 !! key) → is_Some (s'.2 !! key).
Proof.
  intros H Hk. revert H.
  apply (for_each_invariant
           (fun s : nat * gmap string V => is_Some (s.2 !! key))); [|done].
  intros s0 i s1 Hs H. apply _readNN_row_Ok in H as (row & _ & _ & H).
  by eapply _readNN_cells_present.
Qed.

End BlockFacts.

(** C5 (amended).  When [_readNN] parses a block of six rows, the cell
    of row [i] and column [j] (1 to 5 each) is stored under the forward
    key "rowLabel/header[j]": the leading label of the row, a '/', then
    the header entry of the column.  A blank cell stands for 0.0.  The key
    is in the table after the block, with the value of the cell unless a
    cell written later in the block has the same forward or mirror key. *)
Theorem readNN_block_forward_key {V : Type} (zero : V)
    (py_float : string → option V) (ls : list string)
    (st st' : nat * gmap string V) (i j : nat) :
  _readNN_block zero py_float ls st = Ok st' →
  (1 ≤ i ≤ 5)%nat → (1 ≤ j ≤ 5)%nat →
  ∃ header row rowLabel hdr cell value,
    ls !! st.1 = Some header ∧ ls !! (st.1 + i)%nat = Some row
    ∧ Str.re_split_tab_comma row !! 0%nat = Some rowLabel
    ∧ Str.re_split_tab_comma header !! j = Some hdr
    ∧ Str.re_split_tab_comma row !! j = Some cell
    ∧ cell_value zero py_float cell = Some value
    ∧ is_Some (st'.2 !! (rowLabel +:+ "/" +:+ hdr))
    ∧ ((∀ i' j' fwd mir,
          (1 ≤ i' ≤ 5)%nat → (1 ≤ j' ≤ 5)%nat → later_cell i j i' j' →
          block_keys ls st.1 i' j' = Some (fwd, mir) →
          fwd ≠ rowLabel +:+ "/" +:+ hdr ∧ mir ≠ rowLabel +:+ "/" +:+ hdr) →
       st'.2 !! (rowLabel +:+ "/" +:+ hdr) = Some value).
Proof.
  intros H Hi Hj.
  apply _readNN_block_Ok in H as (header & st1 & Hhd & H & ->). simpl.
  unfold range in H. replace (5 - 0)%nat with 5%nat in H by lia.
  rewrite (seq_split 0 5 (i - 1)), for_each_app in H by lia.
  apply bind_Ok in H as (sa & Ha & H). simpl in H.
  apply bind_Ok in H as (sb & Hb & H).
  apply _readNN_rows_index in Ha as Hia. rewrite length_seq in Hia.
  apply _readNN_row_Ok in Hb as (row & Hrow & Hib & Hc).
  replace (sa.1 + 1)%nat with (st.1 + i)%nat in Hrow by lia.
  unfold range in Hc. replace (6 - 1)%nat with 5%nat in Hc by lia.
  rewrite (seq_split 1 5 (j - 1)), for_each_app in Hc by lia.
  apply bind_Ok in Hc as (NNa & Hca & Hc). simpl in Hc.
  apply bind_Ok in Hc as (NNb & Hcb & Hc).
  replace (S (j - 1)) with j in Hcb by lia.
  apply _readNN_cell_lookup in Hcb
    as (cell & value & rowLabel & hdr & Hcell & Hlab & Hhdr & Hval & Hlook).
  exists header, row, rowLabel, hdr, cell, value.
  repeat (split; [done|]).
  set (key := rowLabel +:+ "/" +:+ hdr) in *.
  split.
  - eapply _readNN_rows_present; [exact H|].
    eapply _readNN_cells_present; [exact Hc|]. by rewrite Hlook.
  - intros Hlater.
    rewrite (_readNN_rows_other _ _ key _ _ _ _ _ H).
    + rewrite (_readNN_cells_other _ _ key _ _ _ _ _ Hc); [done|].
      intros j' Hj' t0 bj Ht0 Hbj.
      apply list_elem_of_In, in_seq in Hj'.
      rewrite reversed_key.
      apply (Hlater i j'); [lia|lia|right; lia|].
      unfold block_keys. rewrite Hhd, Hrow. simpl. by rewrite Ht0, Hbj.
    + intros k r j' Hk Hr Hj' t0 bj Ht0 Hbj.
      rewrite length_seq in Hk.
      apply list_elem_of_In, in_seq in Hj'.
      rewrite reversed_key.
      apply (Hlater (i + 1 + k)%nat j'); [lia|lia|left; lia|].
      unfold block_keys. rewrite Hhd.
      replace (st.1 + (i + 1 + k))%nat with (sb.1 + 1 + k)%nat by lia.
      rewrite Hr. simpl. by rewrite Ht0, Hbj.
Qed.

(** The witness of [readNN_block_forward_key]: in the sample file the
    cell of row 1 and column 2 holds 1.2, the row starts with "AA" and the
    header of the column is "TA"; no later cell writes "AA/TA". *)
Lemma readNN_block_forward_key_witness :
  let st' := value_of (0%nat, ∅)
               (_readNN_block (0%Z, 0%nat) decimal sample_nnSH (0%nat, ∅)) in
  _readNN_block (0%Z, 0%nat) decimal sample_nnSH (0%nat, ∅) = Ok st'
  ∧ st'.2 !! ("AA" +:+ "/" +:+ "TA") = Some (12%Z, 1%nat).
Proof.
  intros st'.
  assert (H : _readNN_block (0%Z, 0%nat) decimal sample_nnSH (0%nat, ∅)
              = Ok st') by by_vm.
  split; [exact H|].
  destruct (readNN_block_forward_key _ _ _ _ _ 1 2 H)
    as (header & row & rowLabel & hdr & cell & value
        & H1 & H2 & H3 & H4 & H5 & H6 & _ & H8); [lia|lia|].
  vm_compute in H1. injection H1 as <-.
  vm_compute in H2. injection H2 as <-.
  vm_compute in H3. injection H3 as <-.
  vm_compute in H4. injection H4 as <-.
  vm_compute in H5. injection H5 as <-.
  vm_compute in H6. injection H6 as <-.
  apply H8. intros i' j' fwd mir Hi' Hj' Hl Hk.
  assert (Ci : (i' = 1 ∨ i' = 2 ∨ i' = 3 ∨ i' = 4 ∨ i' = 5)%nat) by lia.
  assert (Cj : (j' = 1 ∨ j' = 2 ∨ j' = 3 ∨ j' = 4 ∨ j' = 5)%nat) by lia.
  unfold later_cell in Hl.
  destruct Ci as [->|[->|[->|[->| ->]]]];
    destruct Cj as [->|[->|[->|[->| ->]]]];
    first [ exfalso; lia
          | vm_compute in Hk; injection Hk as <- <-;
            split; intros E; vm_compute in E; discriminate E ].
Defined.

(** C5 as stated fails: in the table read from the sample file the cell
    of row "AA" and column "TA" is not under the key "TA/AA" (header
    entry first); it is under "AA/TA". *)
Lemma readNN_header_first_key_absent :
  let NN := value_of ∅ (_readNN (0%Z, 0%nat) decimal sample_world "dH") in
  _readNN (0%Z, 0%nat) decimal sample_world "dH" = Ok NN
  ∧ (header ← sample_nnSH !! 0%nat; Str.re_split_tab_comma header !! 2%nat)
    = Some "TA"
  ∧ (row ← sample_nnSH !! 1%nat; Str.re_split_tab_comma row !! 0%nat)
    = Some "AA"
  ∧ (row ← sample_nnSH !! 1%nat; Str.re_split_tab_comma row !! 2%nat)
    = Some "1.2"
  ∧ NN !! ("TA" +:+ "/" +:+ "AA") = None
  ∧ NN !! ("AA" +:+ "/" +:+ "TA") = Some (12%Z, 1%nat).
Proof. intros NN. repeat split; by_vm. Qed.

(** ** Tm.py: pairing up the strands *)

Lemma getOligoPair_item_entry r oligoO item v :
  getOligoPair_item r oligoO (item, v)
  = match entry_duplex r v with
    | Some d => <[item := d]> oligoO
    | None => oligoO
    end.
Proof.
  unfold getOligoPair_item, entry_duplex. simpl.
  destruct (Str.split Str.tab v) as [|a [|b [|c l]]]; reflexivity.
Qed.

Lemma getOligoPair_loop_other r l oligoO (item : string) :
  item ∉ l.*1 →
  foldl (getOligoPair_item r) oligoO l !! item = oligoO !! item.
Proof.
  revert oligoO. induction l as [|[k w] l IH]; intros oligoO Hn; [done|].
  simpl in *. apply not_elem_of_cons in Hn as [Hk Hn].
  rewrite IH by done. rewrite getOligoPair_item_entry.
  destruct (entry_duplex r w); [|done]. by rewrite lookup_insert_ne.
Qed.

Lemma getOligoPair_loop_lookup r l oligoO item v d :
  NoDup l.*1 → (item, v) ∈ l → entry_duplex r v = Some d →
  foldl (getOligoPair_item r) oligoO l !! item = Some d.
Proof.
  revert oligoO. induction l as [|[k w] l IH]; intros oligoO Hnd Hin Hd.
  - by apply elem_of_nil in Hin.
  - simpl in *. apply NoDup_cons in Hnd as [Hk Hnd].
    apply elem_of_cons in Hin as [[= <- <-]|Hin].
    + rewrite getOligoPair_loop_other by done.
      rewrite getOligoPair_item_entry, Hd. apply lookup_insert_eq.
    + by apply IH.
Qed.

(** The complement is taken character by character, in place. *)
Lemma seqComp_chars (s : string) :
  list_ascii_of_string (seqComp s)
  = map (Str.maketrans seqComp_be seqComp_af) (list_ascii_of_string s).
Proof.
  unfold seqComp, Str.translate. apply list_ascii_of_string_of_list_ascii.
Qed.

(** C9.  [getOligoPair] turns an entry with one strand [top] into
    "top/complement(top)", the complement taken character by character
    and not reversed, and an entry with two strands and the reverse flag
    set into "top/reverse(givenBottom)", the second strand read backwards
    and not complemented. *)
Theorem getOligoPair_duplex (oligo : gmap string string) (r : bool)
    (item v : string) :
  oligo !! item = Some v →
  (∀ top, Str.split Str.tab v = [top] →
     getOligoPair oligo r !! item = Some (top +:+ "/" +:+ seqComp top)
     ∧ list_ascii_of_string (seqComp top)
       = map (Str.maketrans seqComp_be seqComp_af) (list_ascii_of_string top))
  ∧ (∀ top givenBottom, Str.split Str.tab v = [top; givenBottom] →
     r = true →
     getOligoPair oligo r !! item
     = Some (top +:+ "/" +:+ Str.reversed givenBottom)).
Proof.
  intros Hv. unfold getOligoPair.
  assert (Hin : (item, v) ∈ map_to_list oligo) by by apply elem_of_map_to_list.
  pose proof (NoDup_fst_map_to_list oligo) as Hnd.
  split.
  - intros top Hs. split; [|apply seqComp_chars].
    eapply getOligoPair_loop_lookup; [done..|].
    unfold entry_duplex. by rewrite Hs.
  - intros top givenBottom Hs ->.
    eapply getOligoPair_loop_lookup; [done..|].
    unfold entry_duplex. by rewrite Hs.
Qed.

(** The witness of [getOligoPair_duplex]: the demo duplex of [Tm.py],
    given as one strand, and a pair given with the reverse flag. *)
Lemma getOligoPair_duplex_witness :
  getOligoPair {["YourSeq" := "CGATCG"]} true !! "YourSeq"
  = Some ("CGATCG" +:+ "/" +:+ "GCTAGC")
  ∧ getOligoPair {["YourSeq" := "CGATTG" +:+ String Str.tab "CAATCG"]} true
      !! "YourSeq"
    = Some ("CGATTG" +:+ "/" +:+ "GCTAAC").
Proof.
  split.
  - apply (proj1 (getOligoPair_duplex {["YourSeq" := "CGATCG"]} true
                    "YourSeq" "CGATCG" (lookup_singleton_eq _ _)) "CGATCG").
    reflexivity.
  - apply (proj2 (getOligoPair_duplex
                    {["YourSeq" := "CGATTG" +:+ String Str.tab "CAATCG"]} true
                    "YourSeq" _ (lookup_singleton_eq _ _)) "CGATTG" "CAATCG");
      reflexivity.
Defined.

(** ** The constructor of [Thermo] *)

Section ConstructorFacts.

Variable py_float : string → option R.

(** The four checks pass: both tables are read and the object is built. *)
Lemma init_Ok w temper cp ct na mg nndH nndS :
  cp ≠ 0 → ct ≠ 0 → ct <= cp → -100 <= temper <= 200 →
  _readNN 0.0 py_float w "dH" = Ok nndH →
  _readNN 0.0 py_float w "dS" = Ok nndS →
  __init__ py_float w temper cp ct na mg
  = ([ReadNN "dH"; ReadNN "dS"],
     Ok {| _cp := cp * 1e-9; _ct := ct * 1e-9; _temper := temper + 273.15;
           _na := na * 1e-3; _mg := mg * 1e-3;
           _nndH := nndH; _nndS := nndS |}).
Proof.
  intros Hcp Hct Hle Ht HH HS. unfold __init__.
  destruct (Req_dec_T cp 0); [done|].
  destruct (Req_dec_T ct 0); [done|].
  destruct (Rlt_dec cp ct); [lra|].
  destruct (Rlt_dec 200 temper); [lra|].
  destruct (Rlt_dec temper (-100)); [lra|].
  simpl. by rewrite HH, HS.
Qed.

(** A call of [_readNN] was made: the four checks had passed. *)
Lemma init_trace w temper cp ct na mg :
  (__init__ py_float w temper cp ct na mg).1 ≠ [] →
  cp ≠ 0 ∧ ct ≠ 0 ∧ ct <= cp ∧ -100 <= temper <= 200.
Proof.
  unfold __init__.
  destruct (Req_dec_T cp 0); [done|].
  destruct (Req_dec_T ct 0); [done|].
  destruct (Rlt_dec cp ct); [done|].
  destruct (Rlt_dec 200 temper); [done|].
  destruct (Rlt_dec temper (-100)); [done|].
  intros _. repeat split; try done; lra.
Qed.

(** What a successful construction tells. *)
Lemma init_inv w temper cp ct na mg tr self :
  __init__ py_float w temper cp ct na mg = (tr, Ok self) →
  cp ≠ 0 ∧ ct ≠ 0 ∧ ct <= cp ∧ -100 <= temper <= 200
  ∧ tr = [ReadNN "dH"; ReadNN "dS"]
  ∧ _cp self = cp * 1e-9 ∧ _ct self = ct * 1e-9
  ∧ _temper self = temper + 273.15
  ∧ _na self = na * 1e-3 ∧ _mg self = mg * 1e-3
  ∧ _readNN 0.0 py_float w "dH" = Ok (_nndH self)
  ∧ _readNN 0.0 py_float w "dS" = Ok (_nndS self).
Proof.
  intros H.
  assert (Htr : (__init__ py_float w temper cp ct na mg).1 ≠ []).
  { rewrite H. simpl. intros ->. revert H. unfold __init__.
    repeat (match goal with
            | |- context [if ?c then _ else _] => destruct c
            end; simpl; try discriminate).
    destruct (_readNN _ _ _ "dH"); [|discriminate..].
    destruct (_readNN _ _ _ "dS"); discriminate. }
  apply init_trace in Htr as (Hcp & Hct & Hle & Ht).
  repeat (split; [done|]).
  destruct (_readNN 0.0 py_float w "dH") as [nndH| |] eqn:HH.
  - destruct (_readNN 0.0 py_float w "dS") as [nndS| |] eqn:HS.
    + rewrite (init_Ok _ _ _ _ _ _ nndH nndS) in H by done.
      by injection H as <- <-.
    + revert H. unfold __init__.
      repeat (match goal with
              | |- context [if ?c then _ else _] => destruct c
              end; simpl; try discriminate).
      rewrite HH, HS. discriminate.
    + revert H. unfold __init__.
      repeat (match goal with
              | |- context [if ?c then _ else _] => destruct c
              end; simpl; try discriminate).
      rewrite HH, HS. discriminate.
  - revert H. unfold __init__.
    repeat (match goal with
            | |- context [if ?c then _ else _] => destruct c
            end; simpl; try discriminate).
    rewrite HH. discriminate.
  - revert H. unfold __init__.
    repeat (match goal with
            | |- context [if ?c then _ else _] => destruct c
            end; simpl; try discriminate).
    rewrite HH. discriminate.
Qed.

(** The constructor always ends. *)
Lemma init_fuel w temper cp ct na mg :
  (__init__ py_float w temper cp ct na mg).2 ≠ OutOfFuel.
Proof.
  unfold __init__.
  repeat (match goal with
          | |- context [if ?c then _ else _] => destruct c
          end; simpl; try discriminate).
  pose proof (_readNN_fuel 0.0 py_float w "dH").
  pose proof (_readNN_fuel 0.0 py_float w "dS").
  destruct (_readNN _ _ _ "dH"); [destruct (_readNN _ _ _ "dS")|..]; done.
Qed.

End ConstructorFacts.

(** C7.  The constructor checks, in this order, [cp] nonzero, [ct]
    nonzero, [cp >= ct] and the temperature in [-100, 200]; the first
    check that fails raises its error before any call of [_readNN]; with
    [cp = 0] (whatever [ct] is, 0 included) the error names [cp]; and
    [_readNN] is called only when the four checks have passed. *)
Theorem init_validation_order (py_float : string → option R) (w : World)
    (temper cp ct na mg : R) :
  (cp = 0 →
   __init__ py_float w temper cp ct na mg
   = ([], Raise (Raised (ConcentrationZeroError "cp"))))
  ∧ (cp ≠ 0 → ct = 0 →
     __init__ py_float w temper cp ct na mg
     = ([], Raise (Raised (ConcentrationZeroError "ct"))))
  ∧ (cp ≠ 0 → ct ≠ 0 → cp < ct →
     __init__ py_float w temper cp ct na mg
     = ([], Raise (Raised ConcentrationOrderError)))
  ∧ (cp ≠ 0 → ct ≠ 0 → ct <= cp → 200 < temper ∨ temper < -100 →
     __init__ py_float w temper cp ct na mg
     = ([], Raise (Raised TemperatureRangeError)))
  ∧ ((__init__ py_float w temper cp ct na mg).1 ≠ [] →
     cp ≠ 0 ∧ ct ≠ 0 ∧ ct <= cp ∧ -100 <= temper <= 200)
  ∧ (cp ≠ 0 → ct ≠ 0 → ct <= cp → -100 <= temper <= 200 →
     ∃ tr, (__init__ py_float w temper cp ct na mg).1 = ReadNN "dH" :: tr).
Proof.
  refine (conj _ (conj _ (conj _ (conj _ (conj _ _))))).
  - intros ->. unfold __init__. by destruct (Req_dec_T 0 0).
  - intros Hcp ->. unfold __init__.
    destruct (Req_dec_T cp 0); [done|]. by destruct (Req_dec_T 0 0).
  - intros Hcp Hct Hlt. unfold __init__.
    destruct (Req_dec_T cp 0); [done|].
    destruct (Req_dec_T ct 0); [done|].
    destruct (Rlt_dec cp ct); [done|lra].
  - intros Hcp Hct Hle Ht. unfold __init__.
    destruct (Req_dec_T cp 0); [done|].
    destruct (Req_dec_T ct 0); [done|].
    destruct (Rlt_dec cp ct); [lra|].
    destruct (Rlt_dec 200 temper); [done|].
    destruct (Rlt_dec temper (-100)); [done|lra].
  - apply init_trace.
  - intros Hcp Hct Hle Ht. unfold __init__.
    destruct (Req_dec_T cp 0); [done|].
    destruct (Req_dec_T ct 0); [done|].
    destruct (Rlt_dec cp ct); [lra|].
    destruct (Rlt_dec 200 temper); [lra|].
    destruct (Rlt_dec temper (-100)); [lra|]. simpl.
    destruct (_readNN _ _ _ "dH"); [destruct (_readNN _ _ _ "dS")|..];
      simpl; eauto.
Qed.

(** The witness of [init_validation_order]: [cp = 0] and [ct = 0] at
    once, the other arguments at their defaults. *)
Lemma init_validation_order_witness :
  __init__ decimal_float sample_world _temper_ 0 0 _na_ _mg_
  = ([], Raise (Raised (ConcentrationZeroError "cp"))).
Proof.
  exact (proj1 (init_validation_order decimal_float sample_world
                  _temper_ 0 0 _na_ _mg_) eq_refl).
Defined.

(** C8 as stated fails: negative concentrations with [cp >= ct] pass the
    checks of the constructor, which only rejects a zero. *)
Lemma init_accepts_negative_concentrations :
  ∃ self : Thermo,
    (__init__ decimal_float sample_world _temper_ (-5) (-10) _na_ _mg_).2
    = Ok self
    ∧ _cp self < 0 ∧ _ct self < 0.
Proof.
  eexists. split.
  - rewrite (init_Ok decimal_float sample_world _temper_ (-5) (-10) _na_ _mg_
               (value_of ∅ (_readNN 0.0 decimal_float sample_world "dH"))
               (value_of ∅ (_readNN 0.0 decimal_float sample_world "dS")));
      [reflexivity|lra|lra|lra|unfold _temper_; lra|by_vm|by_vm].
  - simpl. lra.
Qed.

(** C8 (amended).  A Condition that is constructed has a nonzero primer
    and a nonzero template concentration, the primer concentration being
    at least the template concentration; so both are positive as soon as
    the template concentration is.  The construction fails whenever one
    of the two is zero, and whenever the primer concentration is not
    positive while the template concentration is. *)
Theorem init_concentrations (py_float : string → option R) (w : World)
    (temper cp ct na mg : R) :
  (∀ tr self,
     __init__ py_float w temper cp ct na mg = (tr, Ok self) →
     _cp self = cp * 1e-9 ∧ _ct self = ct * 1e-9
     ∧ _cp self ≠ 0 ∧ _ct self ≠ 0 ∧ _ct self <= _cp self
     ∧ (0 < _ct self → 0 < _cp self))
  ∧ (cp = 0 ∨ ct = 0 ∨ (cp <= 0 ∧ 0 < ct) →
     ∃ e, (__init__ py_float w temper cp ct na mg).2 = Raise (Raised e)).
Proof.
  split.
  - intros tr self H.
    apply init_inv in H as (Hcp & Hct & Hle & _ & _ & -> & -> & _).
    repeat split; try lra.
  - intros H. unfold __init__.
    destruct (Req_dec_T cp 0); [simpl; eauto|].
    destruct (Req_dec_T ct 0); [simpl; eauto|].
    destruct (Rlt_dec cp ct); [simpl; eauto|]. lra.
Qed.

(** The witness of [init_concentrations]: the default arguments on the
    sample files give an object with positive concentrations, and
    [ct = 0] is refused. *)
Lemma init_concentrations_witness :
  (∃ self,
     (__init__ decimal_float sample_world _temper_ _cp_ _ct_ _na_ _mg_).2
     = Ok self ∧ 0 < _ct self ∧ 0 < _cp self)
  ∧ (∃ e, (__init__ decimal_float sample_world _temper_ _cp_ 0 _na_ _mg_).2
          = Raise (Raised e)).
Proof.
  split.
  - assert (H : __init__ decimal_float sample_world _temper_ _cp_ _ct_ _na_ _mg_
                = ([ReadNN "dH"; ReadNN "dS"],
                   Ok {| _cp := _cp_ * 1e-9; _ct := _ct_ * 1e-9;
                         _temper := _temper_ + 273.15;
                         _na := _na_ * 1e-3; _mg := _mg_ * 1e-3;
                         _nndH := value_of ∅
                           (_readNN 0.0 decimal_float sample_world "dH");
                         _nndS := value_of ∅
                           (_readNN 0.0 decimal_float sample_world "dS") |})).
    { apply init_Ok; [unfold _cp_; lra|unfold _ct_; lra
                     |unfold _cp_, _ct_; lra|unfold _temper_; lra
                     |by_vm|by_vm]. }
    eexists. split; [by rewrite H|].
    destruct (proj1 (init_concentrations decimal_float sample_world
                       _temper_ _cp_ _ct_ _na_ _mg_) _ _ H)
      as (_ & Hct & _ & _ & _ & Hpos).
    assert (0 < _ct_ * 1e-9) by (unfold _ct_; lra).
    split; [simpl; lra|]. apply Hpos. simpl. lra.
  - apply (proj2 (init_concentrations decimal_float sample_world
                    _temper_ _cp_ 0 _na_ _mg_)). right. by left.
Defined.

(** ** The binding-fraction solver *)

Lemma py_div_Ok (x y : R) : y ≠ 0 → py_div x y = Ok (x / y).
Proof. intros H. unfold py_div. by destruct (Req_dec_T y 0). Qed.

Lemma math_sqrt_Ok (x : R) : 0 <= x → math_sqrt x = Ok (sqrt x).
Proof. intros H. unfold math_sqrt. destruct (Rlt_dec x 0); [lra|done]. Qed.

Lemma math_log_Ok (x : R) : 0 < x → math_log x = Ok (ln x).
Proof. intros H. unfold math_log. by destruct (Rlt_dec 0 x). Qed.

Lemma between_true (a x b : R) : between a x b = true ↔ a <= x <= b.
Proof.
  unfold between.
  destruct (Rle_dec a x), (Rle_dec x b); simpl; split; intros H;
    try done; lra.
Qed.

(** The two roots of the binding quadratic, for [c >= 1] and [e > 0]
    standing for [cp/ct] and [1/(k*ct)]. *)
Lemma binding_roots (c e : R) :
  1 <= c → 0 < e →
  let b := - (c + 1 + e) in
  let x := sqrt (b * b - 4 * c) in
  let p1 := (- b + x) / 2 in
  0 <= b * b - 4 * c ∧ 1 < p1 ∧ 0 <= c / p1 <= 1.
Proof.
  intros Hc He b x p1.
  assert (HD : 0 <= b * b - 4 * c) by (unfold b; nra).
  assert (Hx : 0 <= x) by apply sqrt_pos.
  assert (Hxx : x * x = b * b - 4 * c) by (by apply sqrt_sqrt).
  assert (Hp1 : 1 < p1) by (unfold p1, b; lra).
  assert (Hcx : c - 1 - e <= x).
  { destruct (Rle_dec (c - 1 - e) 0); [lra|].
    apply Rnot_lt_le. intros Hlt. unfold b in Hxx. nra. }
  assert (Hi : 0 < / p1) by (apply Rinv_0_lt_compat; lra).
  assert (Hr : p1 * / p1 = 1) by (apply Rinv_r; lra).
  assert (Hcp : c <= p1) by (unfold p1, b; lra).
  repeat split; [done|done| |]; unfold Rdiv; nra.
Qed.



Module Binary64Facts.

Import PrimFloat.


#[local] Set Warnings "-inexact-float".

(** The same happens at concentrations the constructor stores: with
    [Thermo(cp=300, ct=1.611e-14)] (in nM, times 1e-9) and an equilibrium
    constant of 1e24 the fraction returned is again [1 + 2^-52]. *)
Lemma perBcal_above_one_300nM :
  let k := 1e24%float in
  let cp := (300 * 1e-9)%float in
  let ct := (1.611e-14 * 1e-9)%float in
  (0 <? k)%float = true ∧ (0 <? ct)%float = true ∧ (ct <=? cp)%float = true
  ∧ Binary64._perBcal k cp ct = Ok 0x1.0000000000001p+0%float.
Proof. repeat split; by_vm. Qed.

End Binary64Facts.

(** ** The enthalpy and entropy of a duplex *)

Lemma index_last_Ok {A : Type} (l : list A) (a : A) :
  index_last l = Ok a ↔ last l = Some a.
Proof. unfold index_last. destruct (last l); split; intros H; congruence. Qed.

Lemma _get_dHdS_step_Ok nndH nndS top bottom acc b acc' :
  _get_dHdS_step nndH nndS top bottom acc b = Ok acc' →
  ∃ nn h s, nn_at top bottom b = Some nn
    ∧ nndH !! nn = Some h ∧ nndS !! nn = Some s
    ∧ acc' = (acc.1 + h, acc.2 + s).
Proof.
  unfold _get_dHdS_step, nn_at. intros H.
  apply bind_Ok in H as (tb & Htb & H). apply index_Ok in Htb.
  apply bind_Ok in H as (tb1 & Htb1 & H). apply index_Ok in Htb1.
  apply bind_Ok in H as (bb & Hbb & H). apply index_Ok in Hbb.
  apply bind_Ok in H as (bb1 & Hbb1 & H). apply index_Ok in Hbb1.
  rewrite Htb, Htb1, Hbb, Hbb1. simpl.
  destruct (nndH !! _) as [h|] eqn:Hh; [|discriminate].
  destruct (nndS !! _) as [s'|] eqn:Hs; [|discriminate].
  injection H as <-. eauto 10.
Qed.

(** The propagation loop adds up the table values of its steps. *)
Lemma _get_dHdS_loop nndH nndS top bottom steps acc acc' :
  for_each steps (_get_dHdS_step nndH nndS top bottom) acc = Ok acc' →
  ∃ hs ss,
    nn_values nndH top bottom steps hs ∧ nn_values nndS top bottom steps ss
    ∧ acc' = (acc.1 + sum_R hs, acc.2 + sum_R ss).
Proof.
  revert acc. induction steps as [|b steps IH]; simpl; intros acc H.
  - injection H as <-. exists [], []. repeat split; try constructor.
    destruct acc; simpl; f_equal; lra.
  - apply bind_Ok in H as (acc1 & H1 & H).
    apply _get_dHdS_step_Ok in H1 as (nn & h & s & Hnn & Hh & Hs & ->).
    apply IH in H as (hs & ss & HH & HS & ->). simpl.
    exists (h :: hs), (s :: ss). repeat split.
    + constructor; eauto.
    + constructor; eauto.
    + simpl. f_equal; lra.
Qed.

Lemma terminal_AT_sum t b acc :
  terminal_AT t b acc = (acc.1 + terminal_dH t b, acc.2 + terminal_dS t b).
Proof.
  unfold terminal_AT, terminal_dH, terminal_dS.
  destruct (not_GC_CG t b), acc; simpl; f_equal; lra.
Qed.

(** What a successful call of [_get_dHdS] computed. *)
Lemma _get_dHdS_Ok nndH nndS pair dH dS :
  _get_dHdS nndH nndS pair = Ok (dH, dS) →
  ∃ top bottom t0 b0 tn bn hs ss,
    not_DNA (Str.upper pair) = false
    ∧ Str.split "/" (Str.upper pair) !! 0%nat = Some top
    ∧ Str.split "/" (Str.upper pair) !! 1%nat = Some bottom
    ∧ String.length top = String.length bottom
    ∧ list_ascii_of_string top !! 0%nat = Some t0
    ∧ list_ascii_of_string bottom !! 0%nat = Some b0
    ∧ last (list_ascii_of_string top) = Some tn
    ∧ last (list_ascii_of_string bottom) = Some bn
    ∧ nn_values nndH (list_ascii_of_string top) (list_ascii_of_string bottom)
        (range 0 (String.length top - 1)) hs
    ∧ nn_values nndS (list_ascii_of_string top) (list_ascii_of_string bottom)
        (range 0 (String.length top - 1)) ss
    ∧ dH = 0.2 + sum_R hs + terminal_dH t0 b0 + terminal_dH tn bn
    ∧ dS = -5.7 + sum_R ss + symmetry_dS top
           + terminal_dS t0 b0 + terminal_dS tn bn.
Proof.
  unfold _get_dHdS. intros H.
  destruct (not_DNA (Str.upper pair)) eqn:Hdna; [discriminate|].
  apply bind_Ok in H as (top & Htop & H). apply index_Ok in Htop.
  apply bind_Ok in H as (bottom & Hbot & H). apply index_Ok in Hbot.
  destruct (length (list_ascii_of_string top)
            =? length (list_ascii_of_string bottom))%nat eqn:Hlen;
    [|discriminate]. simpl in H.
  apply Nat.eqb_eq in Hlen.
  apply bind_Ok in H as (acc & Hloop & H).
  apply bind_Ok in H as (t0 & Ht0 & H). apply index_Ok in Ht0.
  apply bind_Ok in H as (b0 & Hb0 & H). apply index_Ok in Hb0.
  apply bind_Ok in H as (tn & Htn & H). apply index_last_Ok in Htn.
  apply bind_Ok in H as (bn & Hbn & H). apply index_last_Ok in Hbn.
  apply _get_dHdS_loop in Hloop as (hs & ss & HH & HS & ->).
  rewrite !terminal_AT_sum in H. simpl in H. injection H as <- <-.
  rewrite !length_chars in *.
  exists top, bottom, t0, b0, tn, bn, hs, ss.
  split_and!; try done; try lra.
  unfold symmetry_dS. destruct (String.eqb top (seqRC top)); lra.
Qed.

Lemma not_GC_CG_true (t b : ascii) :
  not_GC_CG t b = true
  ↔ (t, b) ≠ ("G"%char, "C"%char) ∧ (t, b) ≠ ("C"%char, "G"%char).
Proof.
  unfold not_GC_CG, Str.of_chars.
  change (string_of_list_ascii [t; b]) with (String t (String b "")).
  rewrite andb_true_iff, !negb_true_iff, !String.eqb_neq.
  split; intros [H1 H2]; split; congruence.
Qed.

Lemma terminal_correction (t b : ascii) :
  ((t, b) ≠ ("G"%char, "C"%char) ∧ (t, b) ≠ ("C"%char, "G"%char) →
   terminal_dH t b = 2.2 ∧ terminal_dS t b = 6.9)
  ∧ (¬ ((t, b) ≠ ("G"%char, "C"%char) ∧ (t, b) ≠ ("C"%char, "G"%char)) →
     terminal_dH t b = 0 ∧ terminal_dS t b = 0).
Proof.
  unfold terminal_dH, terminal_dS.
  destruct (not_GC_CG t b) eqn:E.
  - apply not_GC_CG_true in E. by split.
  - split; [|done]. intros H. apply not_GC_CG_true in H. congruence.
Qed.

(** C3.  [_get_dHdS] looks at the two ends of the duplex one by one:
    an end whose base pair is neither G-C nor C-G adds 2.2 to dH and 6.9
    to dS, an end with G-C or C-G adds nothing; with such a pair (A-T for
    one) at both ends the terminal corrections amount to 4.4 and 13.8. *)
Theorem get_dHdS_terminal_AT (nndH nndS : gmap string R) (pair : string)
    (dH dS : R) :
  _get_dHdS nndH nndS pair = Ok (dH, dS) →
  ∃ top bottom t0 b0 tn bn hs ss,
    Str.split "/" (Str.upper pair) !! 0%nat = Some top
    ∧ Str.split "/" (Str.upper pair) !! 1%nat = Some bottom
    ∧ list_ascii_of_string top !! 0%nat = Some t0
    ∧ list_ascii_of_string bottom !! 0%nat = Some b0
    ∧ last (list_ascii_of_string top) = Some tn
    ∧ last (list_ascii_of_string bottom) = Some bn
    ∧ nn_values nndH (list_ascii_of_string top) (list_ascii_of_string bottom)
        (range 0 (String.length top - 1)) hs
    ∧ nn_values nndS (list_ascii_of_string top) (list_ascii_of_string bottom)
        (range 0 (String.length top - 1)) ss
    ∧ let penalised (t b : ascii) :=
        (t, b) ≠ ("G"%char, "C"%char) ∧ (t, b) ≠ ("C"%char, "G"%char) in
      let core_dH := 0.2 + sum_R hs in
      let core_dS := -5.7 + sum_R ss + symmetry_dS top in
      (penalised t0 b0 → penalised tn bn →
       dH = core_dH + 4.4 ∧ dS = core_dS + 13.8)
      ∧ (penalised t0 b0 → ¬ penalised tn bn →
         dH = core_dH + 2.2 ∧ dS = core_dS + 6.9)
      ∧ (¬ penalised t0 b0 → penalised tn bn →
         dH = core_dH + 2.2 ∧ dS = core_dS + 6.9)
      ∧ (¬ penalised t0 b0 → ¬ penalised tn bn →
         dH = core_dH ∧ dS = core_dS)
      ∧ penalised "A"%char "T"%char ∧ penalised "T"%char "A"%char.
Proof.
  intros H.
  apply _get_dHdS_Ok in H
    as (top & bottom & t0 & b0 & tn & bn & hs & ss & _ & Htop & Hbot & _
        & Ht0 & Hb0 & Htn & Hbn & HH & HS & -> & ->).
  exists top, bottom, t0, b0, tn, bn, hs, ss.
  repeat (split; [done|]). simpl.
  destruct (terminal_correction t0 b0) as [P0 N0].
  destruct (terminal_correction tn bn) as [Pn Nn].
  split_and!; try discriminate;
    intros H0 Hn;
    (destruct (P0 H0) as [-> ->] || destruct (N0 H0) as [-> ->]);
    (destruct (Pn Hn) as [-> ->] || destruct (Nn Hn) as [-> ->]);
    split; lra.
Qed.

(** The witness of [get_dHdS_terminal_AT]: the duplex AT/TA on the sample
    tables, an A-T pair at each end. *)
Lemma get_dHdS_terminal_AT_witness :
  ∃ dH dS, _get_dHdS sample_nndH sample_nndS "AT/TA" = Ok (dH, dS)
    ∧ dH = 0.2 + -7.2 + 4.4 ∧ dS = -5.7 + -20.4 + -1.4 + 13.8.
Proof.
  set (r := value_of (0, 0) (_get_dHdS sample_nndH sample_nndS "AT/TA")).
  assert (H : _get_dHdS sample_nndH sample_nndS "AT/TA" = Ok (r.1, r.2))
    by by_vm.
  clearbody r. exists r.1, r.2. split; [exact H|].
  destruct (get_dHdS_terminal_AT _ _ _ _ _ H)
    as (top & bottom & t0 & b0 & tn & bn & hs & ss & Htop & Hbot
        & Ht0 & Hb0 & Htn & Hbn & HH & HS & Hboth & _).
  vm_compute in Htop. injection Htop as <-.
  vm_compute in Hbot. injection Hbot as <-.
  vm_compute in Ht0. injection Ht0 as <-.
  vm_compute in Hb0. injection Hb0 as <-.
  vm_compute in Htn. injection Htn as <-.
  vm_compute in Hbn. injection Hbn as <-.
  nn_values_inv HH. nn_values_inv HS.
  assert (EH : sample_nndH !! "AT/TA" = Some (-7.2)) by by_vm.
  assert (ES : sample_nndS !! "AT/TA" = Some (-20.4)) by by_vm.
  rewrite EH in Hv. injection Hv as <-.
  rewrite ES in Hv0. injection Hv0 as <-.
  assert (Esym : symmetry_dS "AT" = -1.4).
  { unfold symmetry_dS.
    assert (E : String.eqb "AT" (seqRC "AT") = true) by by_vm.
    by rewrite E. }
  rewrite Esym in Hboth. unfold sum_R in Hboth. simpl in Hboth.
  destruct Hboth as [-> ->]; [split; discriminate..|]. lra.
Defined.

(** ** The calculation for one duplex *)

(** The duplex GAATTC/CTTAAG on the sample tables. *)
Lemma sample_GAATTC :
  _get_dHdS sample_nndH sample_nndS "GAATTC/CTTAAG"
  = Ok (0.2 + -8.2 + -7.9 + -7.2 + -7.9 + -8.2,
        -5.7 + -22.2 + -22.2 + -20.4 + -22.2 + -22.2 + -1.4).
Proof. by_vm. Qed.

Lemma py_div_inv (x y q : R) : py_div x y = Ok q → y ≠ 0 ∧ q = x / y.
Proof.
  unfold py_div. destruct (Req_dec_T y 0); [discriminate|].
  by intros [= <-].
Qed.

Lemma math_sqrt_inv (x y : R) : math_sqrt x = Ok y → 0 <= x ∧ y = sqrt x.
Proof.
  unfold math_sqrt. destruct (Rlt_dec x 0); [discriminate|].
  intros [= <-]. split; [lra|done].
Qed.

Lemma math_log_inv (x y : R) : math_log x = Ok y → 0 < x ∧ y = ln x.
Proof.
  unfold math_log. destruct (Rlt_dec 0 x); [|discriminate].
  by intros [= <-].
Qed.

(** What a call of [thermoCal0] that returns went through, and its
    first number. *)
Lemma thermoCal0_inv self pair verbose out :
  thermoCal0 self pair verbose = Ok out →
  ∃ dH dS,
    _get_dHdS (_nndH self) (_nndS self) pair = Ok (dH, dS)
    ∧ 0 <= _mg self * 1000
    ∧ 0 < _na self + 0.12 * sqrt (_mg self * 1000)
    ∧ out.1 = pair
    ∧ out.2 !! 0%nat
      = Some (dH * 1000
              / (dS + 0.368 * ((INR (String.length pair) - 1) / 2 - 1)
                      * ln (_na self + 0.12 * sqrt (_mg self * 1000))
                 - _R_ * ln (1 / (_cp self - _ct self / 2)))
              - 273.15).
Proof.
  unfold thermoCal0. intros H.
  apply bind_Ok in H as ([dH dS] & Hg & H).
  apply bind_Ok in H as (sq & Hsq & H). apply math_sqrt_inv in Hsq as [Hmg ->].
  apply bind_Ok in H as (lna & Hlna & H).
  apply math_log_inv in Hlna as [Hna ->].
  apply bind_Ok in H as (ktm & Hktm & H). apply py_div_inv in Hktm as [_ ->].
  apply bind_Ok in H as (lktm & Hlk & H). apply math_log_inv in Hlk as [_ ->].
  apply bind_Ok in H as (q & Hq & H). apply py_div_inv in Hq as [_ ->].
  apply bind_Ok in H as (vu & _ & H).
  exists dH, dS. repeat (split; [done|]).
  destruct (verbose =? 1)%Z; destruct (2 <=? verbose)%Z.
  - apply bind_Ok in H as (lks & _ & H). apply bind_Ok in H as (qs & _ & H).
    by injection H as <-.
  - by injection H as <-.
  - apply bind_Ok in H as (lks & _ & H). apply bind_Ok in H as (qs & _ & H).
    by injection H as <-.
  - by injection H as <-.
Qed.

(** With verbosity 0 the call returns the duplex and its Tm as soon as
    [_get_dHdS] returns and no operation leaves its domain. *)
Lemma thermoCal0_returns self pair dH dS :
  _get_dHdS (_nndH self) (_nndS self) pair = Ok (dH, dS) →
  let na_eff := _na self + 0.12 * sqrt (_mg self * 1000) in
  let n := (INR (String.length pair) - 1) / 2 - 1 in
  let dS_eff := dS + 0.368 * n * ln na_eff in
  let ktm := 1 / (_cp self - _ct self / 2) in
  0 <= _mg self * 1000 → 0 < na_eff →
  _cp self - _ct self / 2 ≠ 0 → 0 < ktm →
  dS_eff - _R_ * ln ktm ≠ 0 →
  thermoCal0 self pair 0
  = Ok (pair, [dH * 1000 / (dS_eff - _R_ * ln ktm) - 273.15]).
Proof.
  intros Hg na_eff n dS_eff ktm Hmg Hna Hc Hk Hd.
  unfold thermoCal0. rewrite Hg. simpl.
  rewrite math_sqrt_Ok by done. simpl.
  rewrite math_log_Ok by done. simpl.
  rewrite py_div_Ok by done. simpl.
  rewrite math_log_Ok by done. simpl.
  rewrite py_div_Ok by done. reflexivity.
Qed.

(** C1.  For a duplex whose nearest-neighbour sums are [dH] and [dS]
    the Tm that [thermoCal0] reports is
    [dH*1000/(dS_eff - R*ln(ktm)) - 273.15] with [R = 1.987],
    [ktm = 1/(cp - ct/2)], [dS_eff = dS + 0.368*n*ln(na_eff)],
    [n = (len(pair) - 1)/2 - 1] for the duplex string [pair], and
    [na_eff = na + 0.12*sqrt(mg*1000)]; for a duplex "top/bottom" with
    strands of one length, [n] is that length minus 1. *)
Theorem thermoCal0_melting_temperature (self : Thermo) (pair : string)
    (verbose : Z) (dH dS : R) (out : string * list R) :
  _get_dHdS (_nndH self) (_nndS self) pair = Ok (dH, dS) →
  thermoCal0 self pair verbose = Ok out →
  let na_eff := _na self + 0.12 * sqrt (_mg self * 1000) in
  let n := (INR (String.length pair) - 1) / 2 - 1 in
  let dS_eff := dS + 0.368 * n * ln na_eff in
  let ktm := 1 / (_cp self - _ct self / 2) in
  out.2 !! 0%nat = Some (dH * 1000 / (dS_eff - 1.987 * ln ktm) - 273.15)
  ∧ (∀ top bottom, pair = top +:+ "/" +:+ bottom →
       String.length top = String.length bottom →
       n = INR (String.length top) - 1).
Proof.
  intros Hg H. simpl. split.
  - apply thermoCal0_inv in H as (dH' & dS' & Hg' & _ & _ & _ & ->).
    rewrite Hg in Hg'. by injection Hg' as <- <-.
  - intros top bottom -> Hlen.
    rewrite <- !length_chars, !list_ascii_of_string_app, !length_app.
    rewrite !length_chars, <- Hlen. simpl.
    rewrite plus_INR, S_INR. lra.
Qed.

Lemma sample_self_init :
  __init__ decimal_float sample_world _temper_ _cp_ _ct_ _na_ _mg_
  = ([ReadNN "dH"; ReadNN "dS"], Ok sample_self).
Proof.
  apply init_Ok; [unfold _cp_; lra|unfold _ct_; lra|unfold _cp_, _ct_; lra
                 |unfold _temper_; lra|by_vm|by_vm].
Qed.

Lemma salt_free_self_init :
  __init__ decimal_float sample_world _temper_ _cp_ _ct_ 0 _mg_
  = ([ReadNN "dH"; ReadNN "dS"], Ok salt_free_self).
Proof.
  apply init_Ok; [unfold _cp_; lra|unfold _ct_; lra|unfold _cp_, _ct_; lra
                 |unfold _temper_; lra|by_vm|by_vm].
Qed.

(** Under the default condition the sample duplex gets a Tm. *)
Lemma sample_self_returns :
  ∃ Tm, thermoCal0 sample_self "GAATTC/CTTAAG" 0
        = Ok ("GAATTC/CTTAAG", [Tm]).
Proof.
  eexists. apply (thermoCal0_returns sample_self _ _ _ sample_GAATTC).
  - simpl. unfold _mg_. lra.
  - pose proof (sqrt_pos (_mg sample_self * 1000)). simpl in *.
    unfold _na_. lra.
  - simpl. unfold _cp_, _ct_. lra.
  - unfold Rdiv. rewrite Rmult_1_l. apply Rinv_0_lt_compat.
    simpl. unfold _cp_, _ct_. lra.
  - assert (Hsq : sqrt (_mg sample_self * 1000) = 0).
    { replace (_mg sample_self * 1000) with 0
        by (simpl; unfold _mg_; lra). apply sqrt_0. }
    rewrite Hsq.
    assert (HL : ln (_na sample_self + 0.12 * 0) < 0).
    { apply Rlt_le_trans with (ln 1); [|rewrite ln_1; lra].
      apply ln_increasing; simpl; unfold _na_; lra. }
    assert (HK : 0 < ln (1 / (_cp sample_self - _ct sample_self / 2))).
    { apply Rle_lt_trans with (ln 1); [rewrite ln_1; lra|].
      apply ln_increasing; [lra|].
      set (d := _cp sample_self - _ct sample_self / 2).
      assert (Hd : 0 < d < 1) by (unfold d; simpl; unfold _cp_, _ct_; lra).
      assert (0 < / d) by (apply Rinv_0_lt_compat; lra).
      assert (d * / d = 1) by (apply Rinv_r; lra).
      unfold Rdiv. nra. }
    replace (INR (String.length "GAATTC/CTTAAG")) with 13
      by (simpl; lra).
    unfold _R_. lra.
Qed.

(** The witness of [thermoCal0_melting_temperature]: the sample duplex
    under the default condition; the duplex string has 13 characters. *)
Lemma thermoCal0_melting_temperature_witness :
  ∃ out, thermoCal0 sample_self "GAATTC/CTTAAG" 0 = Ok out
    ∧ out.2 !! 0%nat
      = Some ((0.2 + -8.2 + -7.9 + -7.2 + -7.9 + -8.2) * 1000
              / (-5.7 + -22.2 + -22.2 + -20.4 + -22.2 + -22.2 + -1.4
                 + 0.368 * ((INR 13 - 1) / 2 - 1)
                   * ln (_na sample_self
                         + 0.12 * sqrt (_mg sample_self * 1000))
                 - 1.987 * ln (1 / (_cp sample_self - _ct sample_self / 2)))
              - 273.15).
Proof.
  destruct sample_self_returns as [Tm H].
  exists ("GAATTC/CTTAAG", [Tm]). split; [exact H|].
  exact (proj1 (thermoCal0_melting_temperature sample_self "GAATTC/CTTAAG" 0
                  _ _ _ sample_GAATTC H)).
Defined.

(** Without any salt the effective concentration is 0 and [math.log]
    fails. *)
Lemma thermoCal0_salt_free self pair verbose dH dS :
  _na self = 0 → _mg self = 0 →
  _get_dHdS (_nndH self) (_nndS self) pair = Ok (dH, dS) →
  thermoCal0 self pair verbose = Raise ValueError.
Proof.
  intros Hna Hmg Hg. unfold thermoCal0. rewrite Hg, Hna, Hmg. simpl.
  rewrite math_sqrt_Ok by lra. simpl.
  replace (0 * 1000) with 0 by lra. rewrite sqrt_0.
  unfold math_log. destruct (Rlt_dec 0 (0 + 0.12 * 0)); [lra|done].
Qed.

(** C10 (amended).  The constructor does not check the salt
    concentrations: with [na = 0] and [mg = 0] the object is built as
    soon as the four checks pass and the tables load.  On it, every
    calculation for a duplex that [_get_dHdS] accepts fails in
    [math.log(0)] with a [ValueError], which is none of the reported
    errors, and no calculation returns a result. *)
Theorem salt_free_math_domain_error (py_float : string → option R)
    (w : World) (temper cp ct : R) :
  (∀ nndH nndS,
     cp ≠ 0 → ct ≠ 0 → ct <= cp → -100 <= temper <= 200 →
     _readNN 0.0 py_float w "dH" = Ok nndH →
     _readNN 0.0 py_float w "dS" = Ok nndS →
     ∃ self, (__init__ py_float w temper cp ct 0 0).2 = Ok self)
  ∧ (∀ tr self pair verbose,
       __init__ py_float w temper cp ct 0 0 = (tr, Ok self) →
       (∀ dH dS,
          _get_dHdS (_nndH self) (_nndS self) pair = Ok (dH, dS) →
          thermoCal0 self pair verbose = Raise ValueError)
       ∧ (∀ out, thermoCal0 self pair verbose ≠ Ok out)).
Proof.
  split.
  - intros nndH nndS Hcp Hct Hle Ht HH HS.
    rewrite (init_Ok py_float w temper cp ct 0 0 nndH nndS) by done.
    simpl. eauto.
  - intros tr self pair verbose H.
    apply init_inv in H as (_ & _ & _ & _ & _ & _ & _ & _ & Hna & Hmg & _).
    assert (Hna' : _na self = 0) by lra.
    assert (Hmg' : _mg self = 0) by lra.
    split.
    + intros dH dS Hg. by apply thermoCal0_salt_free with dH dS.
    + intros out Hout.
      apply thermoCal0_inv in Hout as (dH & dS & Hg & _ & Hpos & _).
      rewrite Hna', Hmg' in Hpos.
      replace (0 * 1000) with 0 in Hpos by lra. rewrite sqrt_0 in Hpos. lra.
Qed.

(** The witness of [salt_free_math_domain_error]: [Thermo(na=0)] on the
    sample files, and the sample duplex. *)
Lemma salt_free_math_domain_error_witness :
  __init__ decimal_float sample_world _temper_ _cp_ _ct_ 0 0
  = ([ReadNN "dH"; ReadNN "dS"], Ok salt_free_self)
  ∧ thermoCal0 salt_free_self "GAATTC/CTTAAG" 0 = Raise ValueError.
Proof.
  assert (H : __init__ decimal_float sample_world _temper_ _cp_ _ct_ 0 0
              = ([ReadNN "dH"; ReadNN "dS"], Ok salt_free_self)).
  { rewrite <- salt_free_self_init. unfold _mg_. f_equal. lra. }
  split; [exact H|].
  exact (proj1 (proj2 (salt_free_math_domain_error decimal_float sample_world
                         _temper_ _cp_ _ct_)
                  _ _ "GAATTC/CTTAAG" 0%Z H) _ _ sample_GAATTC).
Defined.

(** C10 as stated fails: on a duplex that is no DNA the calculation ends
    with the reported error [NotDNAError], before any logarithm. *)
Lemma salt_free_reported_error :
  __init__ decimal_float sample_world _temper_ _cp_ _ct_ 0 _mg_
  = ([ReadNN "dH"; ReadNN "dS"], Ok salt_free_self)
  ∧ _na salt_free_self = 0 ∧ _mg salt_free_self = 0
  ∧ thermoCal0 salt_free_self "AX/TY" 0
    = Raise (SysExit (NotDNAError "AX/TY")).
Proof.
  split; [apply salt_free_self_init|].
  split; [simpl; lra|]. split; [simpl; unfold _mg_; lra|]. by_vm.
Qed.

(** * Further properties of the code *)

(** ** The binding quadratic *)

(** For [cp >= ct > 0] and [k > 0] the solver returns the root of
    [p^2 - (c + 1 + e) p + c] that lies strictly between 0 and 1, where
    [c = cp/ct] and [e = 1/(k*ct)]. *)
Lemma perBcal_root (k cp ct : R) :
  0 < k → 0 < ct → ct <= cp →
  ∃ p, _perBcal k cp ct = Ok p ∧ 0 < p < 1
    ∧ p * p - (cp / ct + 1 + 1 / (k * ct)) * p + cp / ct = 0.
Proof.
  intros Hk Hct Hle.
  set (c := cp / ct). set (e := 1 / (k * ct)).
  assert (Hc : 1 <= c).
  { unfold c. apply Rmult_le_reg_r with ct; [done|].
    unfold Rdiv. rewrite Rmult_assoc, Rinv_l; lra. }
  assert (He : 0 < e).
  { unfold e, Rdiv. rewrite Rmult_1_l. apply Rinv_0_lt_compat. nra. }
  set (b := - (c + 1 + e)). set (x := sqrt (b * b - 4 * c)).
  set (p1 := (- b + x) / 2).
  destruct (binding_roots c e Hc He) as (HD & Hp1 & _).
  fold b in HD, Hp1. fold x in Hp1. fold p1 in Hp1.
  assert (Hx : 0 <= x) by apply sqrt_pos.
  assert (Hxx : x * x = b * b - 4 * c) by (by apply sqrt_sqrt).
  assert (Hq : c / p1 * p1 = c) by (field; lra).
  assert (Hr1 : p1 * p1 + b * p1 + c = 0) by (unfold p1; nra).
  assert (Hsum : p1 + b + c / p1 = 0).
  { apply Rmult_eq_reg_l with p1; [|lra]. nra. }
  exists (c / p1). split; [|split].
  - unfold _perBcal.
    rewrite (py_div_Ok cp ct) by lra. simpl.
    rewrite (py_div_Ok 1 k) by lra. simpl.
    rewrite (py_div_Ok (1 / k) ct) by lra. simpl.
    replace (1 / k / ct) with e by (unfold e; field; lra).
    fold c. fold b.
    replace (b * b - 4.0 * c) with (b * b - 4 * c) by lra.
    rewrite math_sqrt_Ok by done. simpl. fold x.
    replace ((- b + x) / 2.0) with p1 by (unfold p1; lra).
    rewrite (py_div_Ok c p1) by lra. simpl.
    destruct (between 0.0 p1 1.0) eqn:Eb; [|done].
    apply between_true in Eb. lra.
  - assert (Hxl : c + e - 1 < x) by (unfold b in Hxx; nra).
    assert (Hi : 0 < / p1) by (apply Rinv_0_lt_compat; lra).
    split; [unfold Rdiv; nra|]. unfold p1, b in Hsum. unfold p1, b. lra.
  - unfold b in Hsum. nra.
Qed.

(** The binding quadratic has one root at most between 0 and 1. *)
Lemma binding_root_unique (c e p q : R) :
  1 <= c → 0 < e → 0 < p < 1 → 0 < q < 1 →
  p * p - (c + 1 + e) * p + c = 0 →
  q * q - (c + 1 + e) * q + c = 0 → p = q.
Proof.
  intros Hc He Hp Hq Rp Rq.
  assert (H : (p - q) * (p + q - (c + 1 + e)) = 0) by nra.
  apply Rmult_integral in H as [H|H]; [lra|nra].
Qed.

(** X1.  The fraction [_perBcal] returns obeys the law of mass action:
    with [p*ct] of the template bound, [k] is the bound concentration
    over the product of the free template and free primer
    concentrations; and the fraction lies strictly between 0 and 1. *)
Theorem perBcal_mass_action (k cp ct p : R) :
  0 < k → 0 < ct → ct <= cp →
  _perBcal k cp ct = Ok p →
  0 < p < 1 ∧ k * (ct - p * ct) * (cp - p * ct) = p * ct.
Proof.
  intros Hk Hct Hle H.
  destruct (perBcal_root k cp ct Hk Hct Hle) as (p' & H' & Hp & Hroot).
  rewrite H in H'. injection H' as <-. split; [done|].
  set (c := cp / ct) in *. set (e := 1 / (k * ct)) in *.
  assert (Hc : c * ct = cp) by (unfold c; field; lra).
  assert (He : e * (k * ct) = 1) by (unfold e; field; split; lra).
  assert (Hpe : (1 - p) * (c - p) = e * p) by lra.
  rewrite <- Hc.
  replace (k * (ct - p * ct) * (c * ct - p * ct))
    with (k * ct * ct * ((1 - p) * (c - p))) by ring.
  rewrite Hpe.
  replace (k * ct * ct * (e * p)) with (e * (k * ct) * (p * ct)) by ring.
  rewrite He. ring.
Qed.

Lemma perBcal_mass_action_witness :
  ∃ p, _perBcal 1 2 1 = Ok p
       ∧ 0 < p < 1 ∧ 1 * (1 - p * 1) * (2 - p * 1) = p * 1.
Proof.
  destruct (perBcal_root 1 2 1) as (p & H & _); [lra..|].
  exists p. split; [exact H|].
  apply (perBcal_mass_action 1 2 1 p); [lra..|exact H].
Defined.

(** X2.  In exact arithmetic (floats idealised as reals), a larger
    equilibrium constant gives a strictly larger bound fraction. *)
Theorem perBcal_increasing (k1 k2 cp ct p1 p2 : R) :
  0 < k1 → k1 < k2 → 0 < ct → ct <= cp →
  _perBcal k1 cp ct = Ok p1 → _perBcal k2 cp ct = Ok p2 →
  p1 < p2.
Proof.
  intros Hk1 Hk Hct Hle H1 H2.
  destruct (perBcal_root k1 cp ct) as (q1 & H1' & Hq1 & R1); [lra..|].
  destruct (perBcal_root k2 cp ct) as (q2 & H2' & Hq2 & R2); [lra..|].
  rewrite H1 in H1'. injection H1' as <-.
  rewrite H2 in H2'. injection H2' as <-.
  set (c := cp / ct) in *.
  assert (Hc : 1 <= c).
  { unfold c. apply Rmult_le_reg_r with ct; [done|].
    unfold Rdiv. rewrite Rmult_assoc, Rinv_l; lra. }
  assert (He2 : 0 < 1 / (k2 * ct)).
  { unfold Rdiv. rewrite Rmult_1_l. apply Rinv_0_lt_compat. nra. }
  assert (He : 1 / (k2 * ct) < 1 / (k1 * ct)).
  { unfold Rdiv. rewrite !Rmult_1_l.
    assert (0 < k1 * ct) by (apply Rmult_lt_0_compat; lra).
    assert (0 < k2 * ct) by (apply Rmult_lt_0_compat; lra).
    apply Rinv_lt_contravar; [by apply Rmult_lt_0_compat|].
    apply Rmult_lt_compat_r; lra. }
  set (e1 := 1 / (k1 * ct)) in *. set (e2 := 1 / (k2 * ct)) in *.
  apply Rnot_le_lt. intros Hge.
  assert (Hl : (p1 - p2) * (p1 + p2 - c - 1) = e1 * p1 - e2 * p2) by lra.
  assert (Hneg : (p1 - p2) * (p1 + p2 - c - 1) <= 0) by nra.
  assert (Hpos : 0 < e1 * p1 - e2 * p2) by nra.
  lra.
Qed.

Lemma perBcal_increasing_witness :
  ∃ p1 p2, _perBcal 1 2 1 = Ok p1 ∧ _perBcal 3 2 1 = Ok p2 ∧ p1 < p2.
Proof.
  destruct (perBcal_root 1 2 1) as (p1 & H1 & _); [lra..|].
  destruct (perBcal_root 3 2 1) as (p2 & H2 & _); [lra..|].
  exists p1, p2. split; [exact H1|]. split; [exact H2|].
  apply (perBcal_increasing 1 3 2 1 p1 p2); [lra..|exact H1|exact H2].
Defined.

(** X3.  In exact arithmetic (floats idealised as reals), at the
    equilibrium constant [1/(cp - ct/2)], the one [thermoCal0] solves
    the melting temperature for, half of the template is bound. *)
Theorem perBcal_half_at_ktm (cp ct : R) :
  0 < ct → ct <= cp →
  _perBcal (1 / (cp - ct / 2)) cp ct = Ok (1 / 2).
Proof.
  intros Hct Hle.
  assert (Hk : 0 < 1 / (cp - ct / 2)).
  { unfold Rdiv. rewrite Rmult_1_l. apply Rinv_0_lt_compat. lra. }
  destruct (perBcal_root _ cp ct Hk Hct Hle) as (p & H & Hp & Hroot).
  rewrite H. f_equal.
  set (c := cp / ct) in *.
  assert (Hc : 1 <= c).
  { unfold c. apply Rmult_le_reg_r with ct; [done|].
    unfold Rdiv. rewrite Rmult_assoc, Rinv_l; lra. }
  assert (He : 1 / (1 / (cp - ct / 2) * ct) = c - 1 / 2).
  { unfold c. field. split; lra. }
  rewrite He in Hroot.
  apply (binding_root_unique c (c - 1 / 2)); try lra.
Qed.

Lemma perBcal_half_at_ktm_witness :
  _perBcal (1 / (_cp sample_self - _ct sample_self / 2))
           (_cp sample_self) (_ct sample_self) = Ok (1 / 2).
Proof.
  apply perBcal_half_at_ktm; simpl; unfold _cp_, _ct_; lra.
Defined.

(** X4.  In exact arithmetic (floats idealised as reals), how the
    fraction goes to 0 and to 1: it is at most [k*cp], and with more
    primer than template the unbound part is at most
    [1/(k*(cp - ct))]. *)
Theorem perBcal_limits (k cp ct p : R) :
  0 < k → 0 < ct → ct <= cp →
  _perBcal k cp ct = Ok p →
  p <= k * cp ∧ (ct < cp → 1 - p <= 1 / (k * (cp - ct))).
Proof.
  intros Hk Hct Hle H.
  destruct (perBcal_root k cp ct Hk Hct Hle) as (p' & H' & Hp & Hroot).
  rewrite H in H'. injection H' as <-.
  set (c := cp / ct) in *. set (e := 1 / (k * ct)) in *.
  assert (Hc : c * ct = cp) by (unfold c; field; lra).
  assert (He : e * (k * ct) = 1) by (unfold e; field; split; lra).
  assert (Hpe : (1 - p) * (c - p) = e * p) by lra.
  assert (Hma : k * (1 - p) * (cp - p * ct) = p).
  { rewrite <- Hc.
    replace (k * (1 - p) * (c * ct - p * ct))
      with (k * ct * ((1 - p) * (c - p))) by ring.
    rewrite Hpe.
    replace (k * ct * (e * p)) with (e * (k * ct) * p) by ring.
    rewrite He. ring. }
  split.
  - assert (HA : 0 <= k * (1 - p) <= k) by nra.
    assert (HB : 0 <= cp - p * ct <= cp) by nra.
    rewrite <- Hma at 1. apply Rmult_le_compat; lra.
  - intros Hlt.
    assert (Hd : 0 < k * (cp - ct)) by nra.
    apply Rmult_le_reg_r with (k * (cp - ct)); [done|].
    replace (1 / (k * (cp - ct)) * (k * (cp - ct))) with 1 by (field; lra).
    assert (HA : 0 <= k * (1 - p)) by nra.
    assert (HB : cp - ct <= cp - p * ct) by nra.
    replace ((1 - p) * (k * (cp - ct))) with (k * (1 - p) * (cp - ct))
      by ring.
    apply Rle_trans with (k * (1 - p) * (cp - p * ct)); [|lra].
    apply Rmult_le_compat_l; lra.
Qed.

Lemma perBcal_limits_witness :
  ∃ p, _perBcal 1 2 1 = Ok p ∧ p <= 1 * 2 ∧ 1 - p <= 1 / (1 * (2 - 1)).
Proof.
  destruct (perBcal_root 1 2 1) as (p & H & _); [lra..|].
  exists p. split; [exact H|].
  destruct (perBcal_limits 1 2 1 p) as [H1 H2]; [lra..|exact H|].
  split; [exact H1|apply H2; lra].
Defined.

(** ** Acceptance and rejection of a duplex by [_get_dHdS] *)

Lemma upper_char_idempotent (c : ascii) :
  Str.upper_char (Str.upper_char c) = Str.upper_char c.
Proof. destruct c as [[] [] [] [] [] [] [] []]; reflexivity. Qed.

Lemma upper_idempotent (s : string) : Str.upper (Str.upper s) = Str.upper s.
Proof.
  unfold Str.upper, Str.translate.
  rewrite list_ascii_of_string_of_list_ascii, map_map.
  f_equal. apply map_ext. intros c. apply upper_char_idempotent.
Qed.

(** A string without separator is one piece. *)
Lemma split_chars_no_sep (is_sep : ascii → bool) (cur s : list ascii) :
  forallb (fun c => negb (is_sep c)) s = true →
  Str.split_chars is_sep cur s = [string_of_list_ascii (rev cur ++ s)].
Proof.
  revert cur. induction s as [|c s IH]; intros cur H; simpl in *.
  - by rewrite app_nil_r.
  - apply andb_true_iff in H as [Hc Hs]. apply negb_true_iff in Hc.
    rewrite Hc. rewrite IH by done. simpl. by rewrite <- app_assoc.
Qed.

(** The first piece ends at the first separator. *)
Lemma split_chars_first (is_sep : ascii → bool) (cur s1 s2 : list ascii)
    (c : ascii) :
  forallb (fun c => negb (is_sep c)) s1 = true → is_sep c = true →
  Str.split_chars is_sep cur (s1 ++ c :: s2)
  = string_of_list_ascii (rev cur ++ s1) :: Str.split_chars is_sep [] s2.
Proof.
  revert cur. induction s1 as [|a s1 IH]; intros cur H Hc; simpl in *.
  - by rewrite Hc, app_nil_r.
  - apply andb_true_iff in H as [Ha Hs]. apply negb_true_iff in Ha.
    rewrite Ha. rewrite IH by done. simpl. by rewrite <- app_assoc.
Qed.

Lemma for_each_Ok_all {A S : Type} (xs : list A) (body : S → A → result S) :
  (∀ s x, x ∈ xs → ∃ s', body s x = Ok s') →
  ∀ s, ∃ s', for_each xs body s = Ok s'.
Proof.
  induction xs as [|x xs IH]; intros Hbody s; simpl; [eauto|].
  destruct (Hbody s x) as [s1 ->]; [by left|]. simpl.
  apply IH. intros. apply Hbody. by right.
Qed.

(** Every position before the last of a flush duplex has a step key. *)
Lemma nn_at_defined (top bottom : list ascii) (b : nat) :
  length top = length bottom → (b + 1 < length top)%nat →
  ∃ tb tb1 bb bb1,
    top !! b = Some tb ∧ top !! (b + 1)%nat = Some tb1
    ∧ bottom !! b = Some bb ∧ bottom !! (b + 1)%nat = Some bb1
    ∧ nn_at top bottom b = Some (Str.of_chars [tb; tb1; "/"%char; bb; bb1]).
Proof.
  intros Hlen Hb.
  destruct (lookup_lt_is_Some_2 top b) as [tb Htb]; [lia|].
  destruct (lookup_lt_is_Some_2 top (b + 1)) as [tb1 Htb1]; [lia|].
  destruct (lookup_lt_is_Some_2 bottom b) as [bb Hbb]; [lia|].
  destruct (lookup_lt_is_Some_2 bottom (b + 1)) as [bb1 Hbb1]; [lia|].
  exists tb, tb1, bb, bb1. unfold nn_at.
  rewrite Htb, Htb1, Hbb, Hbb1. by repeat split.
Qed.

Lemma _get_dHdS_step_returns nndH nndS top bottom acc b nn h s :
  nn_at top bottom b = Some nn →
  nndH !! nn = Some h → nndS !! nn = Some s →
  _get_dHdS_step nndH nndS top bottom acc b = Ok (acc.1 + h, acc.2 + s).
Proof.
  unfold nn_at, _get_dHdS_step, index. intros Hnn Hh Hs.
  destruct (top !! b) as [tb|]; [|done].
  destruct (top !! (b + 1)%nat) as [tb1|]; [|done].
  destruct (bottom !! b) as [bb|]; [|done].
  destruct (bottom !! (b + 1)%nat) as [bb1|]; [|done].
  simpl in *. injection Hnn as <-. by rewrite Hh, Hs.
Qed.

(** A step whose key is in neither or only one table ends the call. *)
Lemma _get_dHdS_step_missing nndH nndS top bottom acc b nn :
  nn_at top bottom b = Some nn →
  nndH !! nn = None ∨ nndS !! nn = None →
  _get_dHdS_step nndH nndS top bottom acc b
  = Raise (SysExit (NNnotExistError nn top bottom)).
Proof.
  unfold nn_at, _get_dHdS_step, index. intros Hnn Hm.
  destruct (top !! b) as [tb|]; [|done].
  destruct (top !! (b + 1)%nat) as [tb1|]; [|done].
  destruct (bottom !! b) as [bb|]; [|done].
  destruct (bottom !! (b + 1)%nat) as [bb1|]; [|done].
  simpl in *. injection Hnn as <-.
  destruct Hm as [-> | Hs]; [done|]. rewrite Hs. by destruct (nndH !! _).
Qed.

(** The checks of [_get_dHdS] passed: what is left is the loop and the
    ends. *)
Lemma _get_dHdS_checked nndH nndS pair top bottom :
  not_DNA (Str.upper pair) = false →
  Str.split "/" (Str.upper pair) !! 0%nat = Some top →
  Str.split "/" (Str.upper pair) !! 1%nat = Some bottom →
  String.length top = String.length bottom →
  _get_dHdS nndH nndS pair
  = (acc ← for_each (range 0 (String.length top - 1))
             (_get_dHdS_step nndH nndS (list_ascii_of_string top)
                (list_ascii_of_string bottom)) (0.2, -5.7);
     let acc :=
       (acc.1, acc.2 + (if String.eqb top (seqRC top) then -1.4 else 0.0)) in
     t0 ← index (list_ascii_of_string top) 0;
     b0 ← index (list_ascii_of_string bottom) 0;
     let acc := terminal_AT t0 b0 acc in
     tn ← index_last (list_ascii_of_string top);
     bn ← index_last (list_ascii_of_string bottom);
     Ok (terminal_AT tn bn acc)).
Proof.
  intros Hdna Htop Hbot Hlen. unfold _get_dHdS. rewrite Hdna.
  apply index_Ok in Htop, Hbot. rewrite Htop. simpl. rewrite Hbot. simpl.
  rewrite !length_chars, <- Hlen, Nat.eqb_refl. reflexivity.
Qed.

Lemma not_DNA_false (s : string) :
  not_DNA s = false
  ↔ ∀ c, c ∈ list_ascii_of_string s → c ∈ ["A"; "C"; "G"; "T"; "/"]%char.
Proof.
  unfold not_DNA. rewrite <- not_true_iff_false, existsb_exists. split.
  - intros H c Hc.
    destruct (existsb (Ascii.eqb c) ["A"; "C"; "G"; "T"; "/"]%char) eqn:E.
    + apply existsb_exists in E as (x & Hx & E).
      apply Ascii.eqb_eq in E as ->. by apply list_elem_of_In.
    + exfalso. apply H. exists c. split; [by apply list_elem_of_In|].
      by rewrite E.
  - intros H (c & Hc & E). apply negb_true_iff in E.
    apply list_elem_of_In, H, list_elem_of_In in Hc.
    assert (existsb (Ascii.eqb c) ["A"; "C"; "G"; "T"; "/"]%char = true);
      [|congruence].
    apply existsb_exists. exists c. split; [done|apply Ascii.eqb_refl].
Qed.

(** X5.  [_get_dHdS] does not look at the case of the letters: a duplex
    and its upper-case form get the same result, errors included. *)
Theorem get_dHdS_case_insensitive (nndH nndS : gmap string R)
    (pair : string) :
  _get_dHdS nndH nndS (Str.upper pair) = _get_dHdS nndH nndS pair.
Proof. unfold _get_dHdS. by rewrite upper_idempotent. Qed.

(** X6.  The order in which [_get_dHdS] turns a duplex down: a
    character other than A, C, G, T and '/' gives [NotDNAError] whatever
    else is wrong; then a duplex without '/' gives an [IndexError] that
    nothing catches; then strands of two lengths give
    [DuplexNotFlushError]; and two empty strands pass these checks and
    end in an [IndexError] at [top[0]]. *)
Theorem get_dHdS_rejects (nndH nndS : gmap string R) (pair : string) :
  ((∃ c, c ∈ list_ascii_of_string (Str.upper pair)
         ∧ c ∉ ["A"; "C"; "G"; "T"; "/"]%char) →
   _get_dHdS nndH nndS pair
   = Raise (SysExit (NotDNAError (Str.upper pair))))
  ∧ ((∀ c, c ∈ list_ascii_of_string (Str.upper pair) →
           c ∈ ["A"; "C"; "G"; "T"]%char) →
     _get_dHdS nndH nndS pair = Raise IndexError)
  ∧ (∀ top bottom,
       not_DNA (Str.upper pair) = false →
       Str.split "/" (Str.upper pair) !! 0%nat = Some top →
       Str.split "/" (Str.upper pair) !! 1%nat = Some bottom →
       String.length top ≠ String.length bottom →
       _get_dHdS nndH nndS pair
       = Raise (SysExit (DuplexNotFlushError (Str.upper pair))))
  ∧ (not_DNA (Str.upper pair) = false →
     Str.split "/" (Str.upper pair) !! 0%nat = Some "" →
     Str.split "/" (Str.upper pair) !! 1%nat = Some "" →
     _get_dHdS nndH nndS pair = Raise IndexError).
Proof.
  split_and!.
  - intros (c & Hc & Hn). unfold _get_dHdS.
    destruct (not_DNA (Str.upper pair)) eqn:E; [done|].
    exfalso. apply Hn. by apply (proj1 (not_DNA_false _) E).
  - intros Hall. unfold _get_dHdS.
    assert (E : not_DNA (Str.upper pair) = false).
    { apply not_DNA_false. intros c Hc. apply Hall in Hc.
      rewrite !elem_of_cons in Hc. rewrite !elem_of_cons. tauto. }
    rewrite E. unfold Str.split.
    rewrite split_chars_no_sep; [done|].
    apply forallb_forall. intros c Hc.
    apply list_elem_of_In, Hall in Hc.
    apply negb_true_iff, Ascii.eqb_neq. intros <-.
    rewrite !elem_of_cons, elem_of_nil in Hc.
    destruct Hc as [?|[?|[?|[?|[]]]]]; discriminate.
  - intros top bottom E Htop Hbot Hlen. unfold _get_dHdS. rewrite E.
    apply index_Ok in Htop, Hbot. rewrite Htop. simpl. rewrite Hbot. simpl.
    rewrite !length_chars.
    apply Nat.eqb_neq in Hlen. by rewrite Hlen.
  - intros E Htop Hbot.
    by rewrite (_get_dHdS_checked _ _ _ "" "" E Htop Hbot eq_refl).
Qed.

Lemma get_dHdS_rejects_witness :
  _get_dHdS sample_nndH sample_nndS "ACNT/TGCA"
  = Raise (SysExit (NotDNAError "ACNT/TGCA"))
  ∧ _get_dHdS sample_nndH sample_nndS "acgt" = Raise IndexError
  ∧ _get_dHdS sample_nndH sample_nndS "ACGT/TGC"
    = Raise (SysExit (DuplexNotFlushError "ACGT/TGC"))
  ∧ _get_dHdS sample_nndH sample_nndS "/" = Raise IndexError.
Proof.
  destruct (get_dHdS_rejects sample_nndH sample_nndS "ACNT/TGCA")
    as (H1 & _).
  destruct (get_dHdS_rejects sample_nndH sample_nndS "acgt")
    as (_ & H2 & _).
  destruct (get_dHdS_rejects sample_nndH sample_nndS "ACGT/TGC")
    as (_ & _ & H3 & _).
  destruct (get_dHdS_rejects sample_nndH sample_nndS "/")
    as (_ & _ & _ & H4).
  split_and!.
  - apply H1. exists "N"%char. split.
    + apply list_elem_of_In. simpl. tauto.
    + rewrite !elem_of_cons, elem_of_nil.
      intros [?|[?|[?|[?|[?|[]]]]]]; discriminate.
  - apply H2. intros c Hc. apply list_elem_of_In in Hc.
    apply list_elem_of_In. simpl in Hc |- *. tauto.
  - apply (H3 "ACGT" "TGC"); [reflexivity..|]. simpl. lia.
  - apply H4; reflexivity.
Defined.

(** X7.  In a flush DNA duplex the first step whose key is missing from
    the enthalpy or the entropy table ends the call with
    [NNnotExistError] for that key, printed and followed by
    [sys.exit(1)]. *)
Theorem get_dHdS_first_missing_step (nndH nndS : gmap string R)
    (pair top bottom : string) (b : nat) (nn : string) :
  not_DNA (Str.upper pair) = false →
  Str.split "/" (Str.upper pair) !! 0%nat = Some top →
  Str.split "/" (Str.upper pair) !! 1%nat = Some bottom →
  String.length top = String.length bottom →
  (b + 1 < String.length top)%nat →
  (∀ b' nn', (b' < b)%nat →
     nn_at (list_ascii_of_string top) (list_ascii_of_string bottom) b'
     = Some nn' →
     is_Some (nndH !! nn') ∧ is_Some (nndS !! nn')) →
  nn_at (list_ascii_of_string top) (list_ascii_of_string bottom) b = Some nn →
  nndH !! nn = None ∨ nndS !! nn = None →
  _get_dHdS nndH nndS pair
  = Raise (SysExit (NNnotExistError nn (list_ascii_of_string top)
                      (list_ascii_of_string bottom))).
Proof.
  intros Hdna Htop Hbot Hlen Hb Hbefore Hnn Hmiss.
  rewrite (_get_dHdS_checked _ _ _ top bottom) by done.
  unfold range. rewrite Nat.sub_0_r.
  rewrite (seq_split 0 (String.length top - 1) b), for_each_app by lia.
  destruct (for_each_Ok_all (seq 0 b)
              (_get_dHdS_step nndH nndS (list_ascii_of_string top)
                 (list_ascii_of_string bottom))) with (s := (0.2, -5.7))
    as [acc ->].
  { intros acc b' Hb'. apply list_elem_of_In, in_seq in Hb'.
    destruct (nn_at_defined (list_ascii_of_string top)
                (list_ascii_of_string bottom) b')
      as (tb & tb1 & bb & bb1 & _ & _ & _ & _ & Hnn');
      [by rewrite !length_chars|rewrite length_chars; lia|].
    destruct (Hbefore b' _ ltac:(lia) Hnn') as [[h Hh] [s' Hs]].
    eexists. by eapply _get_dHdS_step_returns. }
  simpl. by rewrite (_get_dHdS_step_missing _ _ _ _ _ _ nn).
Qed.

Lemma get_dHdS_first_missing_step_witness :
  _get_dHdS sample_nndH sample_nndS "GAAC/CTTG"
  = Raise (SysExit (NNnotExistError "AC/TG" (list_ascii_of_string "GAAC")
                      (list_ascii_of_string "CTTG"))).
Proof.
  apply (get_dHdS_first_missing_step _ _ "GAAC/CTTG" "GAAC" "CTTG" 2);
    try reflexivity.
  - simpl. lia.
  - intros b' nn' Hb' Hnn'.
    assert (C : (b' = 0 ∨ b' = 1)%nat) by lia.
    destruct C as [-> | ->]; vm_compute in Hnn'; injection Hnn' as <-.
    + assert (E1 : sample_nndH !! "GA/CT" = Some (-8.2)) by by_vm.
      assert (E2 : sample_nndS !! "GA/CT" = Some (-22.2)) by by_vm.
      rewrite E1, E2. eauto.
    + assert (E1 : sample_nndH !! "AA/TT" = Some (-7.9)) by by_vm.
      assert (E2 : sample_nndS !! "AA/TT" = Some (-22.2)) by by_vm.
      rewrite E1, E2. eauto.
  - left. by_vm.
Defined.

(** X8.  [_get_dHdS] returns a result exactly for the duplexes that
    are made of A, C, G, T and '/', have a first and a second strand of
    one length, not empty, and whose steps are all in both tables. *)
Theorem get_dHdS_accepts (nndH nndS : gmap string R) (pair : string) :
  (∃ dH dS, _get_dHdS nndH nndS pair = Ok (dH, dS))
  ↔ ∃ top bottom,
      not_DNA (Str.upper pair) = false
      ∧ Str.split "/" (Str.upper pair) !! 0%nat = Some top
      ∧ Str.split "/" (Str.upper pair) !! 1%nat = Some bottom
      ∧ String.length top = String.length bottom
      ∧ top ≠ ""
      ∧ ∀ b nn, (b + 1 < String.length top)%nat →
          nn_at (list_ascii_of_string top) (list_ascii_of_string bottom) b
          = Some nn →
          is_Some (nndH !! nn) ∧ is_Some (nndS !! nn).
Proof.
  split.
  - intros (dH & dS & H).
    apply _get_dHdS_Ok in H
      as (top & bottom & t0 & b0 & tn & bn & hs & ss & Hdna & Htop & Hbot
          & Hlen & Ht0 & _ & _ & _ & HH & HS & _).
    exists top, bottom. repeat (split; [done|]). split.
    + intros ->. discriminate.
    + intros b nn Hb Hnn. unfold nn_values, range in HH, HS.
      rewrite Nat.sub_0_r in HH, HS.
      assert (Hl : seq 0 (String.length top - 1) !! b = Some b)
        by (apply lookup_seq; lia).
      destruct (Forall2_lookup_l _ _ _ _ _ HH Hl)
        as (h & _ & nn1 & Hnn1 & Hh).
      destruct (Forall2_lookup_l _ _ _ _ _ HS Hl)
        as (s' & _ & nn2 & Hnn2 & Hs).
      rewrite Hnn in Hnn1, Hnn2.
      injection Hnn1 as <-. injection Hnn2 as <-.
      rewrite Hh, Hs. eauto.
  - intros (top & bottom & Hdna & Htop & Hbot & Hlen & Hne & Hsteps).
    rewrite (_get_dHdS_checked _ _ _ top bottom) by done.
    destruct (for_each_Ok_all (range 0 (String.length top - 1))
                (_get_dHdS_step nndH nndS (list_ascii_of_string top)
                   (list_ascii_of_string bottom))) with (s := (0.2, -5.7))
      as [acc ->].
    { intros acc b Hb. apply list_elem_of_In, in_seq in Hb.
      destruct (nn_at_defined (list_ascii_of_string top)
                  (list_ascii_of_string bottom) b)
        as (tb & tb1 & bb & bb1 & _ & _ & _ & _ & Hnn);
        [by rewrite !length_chars|rewrite length_chars; lia|].
      destruct (Hsteps b _ ltac:(lia) Hnn) as [[h Hh] [s' Hs]].
      eexists. by eapply _get_dHdS_step_returns. }
    simpl.
    destruct top as [|t0 top']; [done|].
    destruct bottom as [|b0 bottom']; [discriminate|].
    unfold index, index_last. simpl.
    destruct (last (t0 :: list_ascii_of_string top')) as [tn|] eqn:Etn;
      [|by apply last_None in Etn].
    destruct (last (b0 :: list_ascii_of_string bottom')) as [bn|] eqn:Ebn;
      [|by apply last_None in Ebn].
    simpl. destruct (terminal_AT tn bn _) as [dH dS]. eauto.
Qed.

(** X9.  A duplex of one base pair has no step: whatever the tables
    hold, its two ends are the same pair, which gets the terminal
    correction twice. *)
Theorem get_dHdS_one_base_pair (nndH nndS : gmap string R) (pair : string)
    (t0 b0 : ascii) :
  not_DNA (Str.upper pair) = false →
  Str.split "/" (Str.upper pair) !! 0%nat = Some (String t0 "") →
  Str.split "/" (Str.upper pair) !! 1%nat = Some (String b0 "") →
  _get_dHdS nndH nndS pair
  = Ok (0.2 + terminal_dH t0 b0 + terminal_dH t0 b0,
        -5.7 + symmetry_dS (String t0 "")
        + terminal_dS t0 b0 + terminal_dS t0 b0).
Proof.
  intros Hdna Htop Hbot.
  rewrite (_get_dHdS_checked _ _ _ _ _ Hdna Htop Hbot eq_refl).
  simpl. rewrite !terminal_AT_sum. unfold symmetry_dS. simpl.
  destruct (Ascii.eqb _ _); do 2 f_equal; lra.
Qed.

Lemma get_dHdS_one_base_pair_witness :
  _get_dHdS ∅ ∅ "a/t" = Ok (0.2 + 2.2 + 2.2, -5.7 + 0 + 6.9 + 6.9).
Proof.
  rewrite (get_dHdS_one_base_pair ∅ ∅ "a/t" "A" "T"); reflexivity.
Defined.

(** ** Tm.py: what [getOligoPair] keeps *)

Lemma getOligoPair_loop_entry r l oligoO item v :
  NoDup l.*1 → (item, v) ∈ l →
  foldl (getOligoPair_item r) oligoO l !! item
  = match entry_duplex r v with
    | Some d => Some d
    | None => oligoO !! item
    end.
Proof.
  revert oligoO. induction l as [|[k w] l IH]; intros oligoO Hnd Hin.
  - by apply elem_of_nil in Hin.
  - simpl in *. apply NoDup_cons in Hnd as [Hk Hnd].
    apply elem_of_cons in Hin as [[= <- <-]|Hin].
    + rewrite getOligoPair_loop_other by done.
      rewrite getOligoPair_item_entry.
      destruct (entry_duplex r v); [apply lookup_insert_eq|done].
    + rewrite IH by done. destruct (entry_duplex r v) eqn:E; [done|].
      rewrite getOligoPair_item_entry.
      destruct (entry_duplex r w); [|done].
      apply lookup_insert_ne. intros ->.
      apply Hk. apply list_elem_of_fmap. by exists (item, v).
Qed.

(** X10.  The dictionary [getOligoPair] returns, name by name: a name
    of the input with one or two tab-separated strands has the duplex
    made of them; a name with three strands or more is left out; and no
    other name comes in. *)
Theorem getOligoPair_lookup (oligo : gmap string string) (r : bool)
    (item : string) :
  getOligoPair oligo r !! item = oligo !! item ≫= entry_duplex r.
Proof.
  unfold getOligoPair.
  destruct (oligo !! item) as [v|] eqn:Hv; simpl.
  - rewrite (getOligoPair_loop_entry r _ ∅ item v).
    + by destruct (entry_duplex r v).
    + apply NoDup_fst_map_to_list.
    + by apply elem_of_map_to_list.
  - rewrite getOligoPair_loop_other; [done|].
    intros Hin. apply list_elem_of_fmap in Hin as ([k w] & -> & Hin).
    apply elem_of_map_to_list in Hin. simpl in Hv. congruence.
Qed.

(** ** utilSeq.py: complement, reverse complement and pairing *)

(** A property of characters holds of all of them when it holds of the
    256 codes. *)
Lemma ascii_forallb (P : ascii → bool) :
  forallb (fun n => P (ascii_of_nat n)) (seq 0 256) = true →
  ∀ c, P c = true.
Proof.
  intros H c. rewrite forallb_forall in H.
  specialize (H (nat_of_ascii c)). rewrite ascii_nat_embedding in H.
  apply H, in_seq. pose proof (nat_ascii_bounded c). lia.
Qed.

Lemma chars_inj (s1 s2 : string) :
  list_ascii_of_string s1 = list_ascii_of_string s2 → s1 = s2.
Proof.
  intros H. rewrite <- (string_of_list_ascii_of_string s1),
    <- (string_of_list_ascii_of_string s2). by rewrite H.
Qed.

Lemma seqRC_chars (s : string) :
  list_ascii_of_string (seqRC s)
  = map (Str.maketrans seqComp_be seqComp_af) (rev (list_ascii_of_string s)).
Proof.
  unfold seqRC, seqRev, Str.reversed. rewrite seqComp_chars.
  by rewrite list_ascii_of_string_of_list_ascii.
Qed.

Lemma maketrans_twice (c : ascii) :
  Ascii.eqb (Str.maketrans seqComp_be seqComp_af
               (Str.maketrans seqComp_be seqComp_af c)) c
  = negb (Ascii.eqb c "U" || Ascii.eqb c "u").
Proof.
  revert c.
  assert (H : ∀ c, Bool.eqb
    (Ascii.eqb (Str.maketrans seqComp_be seqComp_af
                  (Str.maketrans seqComp_be seqComp_af c)) c)
    (negb (Ascii.eqb c "U" || Ascii.eqb c "u")) = true).
  { apply ascii_forallb. by vm_compute. }
  intros c. by apply Bool.eqb_prop.
Qed.

Lemma maketrans_moves (c : ascii) :
  existsb (Ascii.eqb c) (list_ascii_of_string seqComp_be) = true →
  Str.maketrans seqComp_be seqComp_af c ≠ c.
Proof.
  intros H E. revert H.
  assert (H : ∀ c, implb
    (existsb (Ascii.eqb c) (list_ascii_of_string seqComp_be))
    (negb (Ascii.eqb (Str.maketrans seqComp_be seqComp_af c) c)) = true).
  { apply ascii_forallb. by vm_compute. }
  specialize (H c). rewrite E, Ascii.eqb_refl in H.
  by destruct (existsb _ _).
Qed.

Lemma map_id_iff {A : Type} (f : A → A) (l : list A) :
  map f l = l ↔ ∀ x, x ∈ l → f x = x.
Proof.
  induction l as [|a l IH]; simpl.
  - split; [|done]. intros _ x Hx. by apply elem_of_nil in Hx.
  - split.
    + intros [= Ha Hl] x Hx. apply elem_of_cons in Hx as [->|Hx]; [done|].
      by apply IH.
    + intros H. f_equal; [apply H; left|apply IH; intros x Hx; apply H].
      by right.
Qed.

(** X11.  Taking the reverse complement twice gives the sequence back
    exactly when it has no U (of either case): a U becomes an A, and the
    A a T. *)
Theorem seqRC_involutive (s : string) :
  seqRC (seqRC s) = s
  ↔ ∀ c, c ∈ list_ascii_of_string s → c ≠ "U"%char ∧ c ≠ "u"%char.
Proof.
  assert (E : list_ascii_of_string (seqRC (seqRC s))
              = map (fun c => Str.maketrans seqComp_be seqComp_af
                                (Str.maketrans seqComp_be seqComp_af c))
                    (list_ascii_of_string s)).
  { rewrite !seqRC_chars, map_rev, map_map, map_rev.
    apply rev_involutive. }
  split.
  - intros H c Hc. rewrite H in E. symmetry in E.
    pose proof (proj1 (map_id_iff _ _) E c Hc) as Hcc. simpl in Hcc.
    pose proof (maketrans_twice c) as Ht.
    rewrite Hcc, Ascii.eqb_refl in Ht.
    symmetry in Ht. apply negb_true_iff, orb_false_iff in Ht as [H1 H2].
    by apply Ascii.eqb_neq in H1, H2.
  - intros H. apply chars_inj. rewrite E. apply map_id_iff.
    intros c Hc. destruct (H c Hc) as [H1 H2].
    apply Ascii.eqb_neq in H1, H2.
    pose proof (maketrans_twice c) as Ht. rewrite H1, H2 in Ht.
    by apply Ascii.eqb_eq in Ht.
Qed.

(** The characters of a piece of a split string are characters of the
    string, and none is a separator. *)
Lemma split_chars_elem (is_sep : ascii → bool) (cur s : list ascii)
    (p : string) (c : ascii) :
  p ∈ Str.split_chars is_sep cur s → c ∈ list_ascii_of_string p →
  c ∈ cur ∨ (c ∈ s ∧ is_sep c = false).
Proof.
  revert cur. induction s as [|a s IH]; intros cur Hp Hc; simpl in Hp.
  - apply list_elem_of_singleton in Hp as ->.
    rewrite list_ascii_of_string_of_list_ascii in Hc.
    left. by apply list_elem_of_In, in_rev, list_elem_of_In.
  - destruct (is_sep a) eqn:Ea.
    + apply elem_of_cons in Hp as [->|Hp].
      * rewrite list_ascii_of_string_of_list_ascii in Hc.
        left. by apply list_elem_of_In, in_rev, list_elem_of_In.
      * destruct (IH [] Hp Hc) as [H|[H1 H2]].
        -- by apply elem_of_nil in H.
        -- right. split; [by right|done].
    + destruct (IH (a :: cur) Hp Hc) as [H|[H1 H2]].
      * apply elem_of_cons in H as [->|H]; [|by left].
        right. split; [by left|done].
      * right. split; [by right|done].
Qed.

Lemma self_complementary_even (l : list ascii) :
  l = map (Str.maketrans seqComp_be seqComp_af) (rev l) →
  (∀ c, c ∈ l → Str.maketrans seqComp_be seqComp_af c ≠ c) →
  Nat.Even (length l).
Proof.
  intros Hl Hmove.
  destruct (Nat.Even_or_Odd (length l)) as [H|[m Hm]]; [done|].
  exfalso.
  destruct (lookup_lt_is_Some_2 l m) as [c Hc]; [lia|].
  assert (Hr : rev l !! m = Some c).
  { rewrite rev_alt. change (reverse l !! m = Some c).
    rewrite reverse_lookup by lia.
    replace (length l - S m)%nat with m by lia. done. }
  assert (Hc' : l !! m = Some (Str.maketrans seqComp_be seqComp_af c)).
  { rewrite Hl at 1. by rewrite list_lookup_fmap, Hr. }
  rewrite Hc in Hc'. injection Hc' as Hc'.
  apply (Hmove c); [by eapply list_elem_of_lookup_2|done].
Qed.

(** X12.  The test [temp[0]==utilSeq.seqRC(temp[0])] of [_get_dHdS]
    can hold only of a first strand with an even number of bases: the
    middle base of an odd one would be its own complement.  So the
    symmetry correction is never applied to a duplex of odd length. *)
Theorem get_dHdS_symmetric_even (pair top : string) :
  not_DNA (Str.upper pair) = false →
  Str.split "/" (Str.upper pair) !! 0%nat = Some top →
  String.eqb top (seqRC top) = true →
  Nat.Even (String.length top) ∧ symmetry_dS top = -1.4.
Proof.
  intros Hdna Htop Hsym. split.
  - rewrite <- length_chars. apply self_complementary_even.
    + apply String.eqb_eq in Hsym. rewrite Hsym at 1. apply seqRC_chars.
    + intros c Hc. apply maketrans_moves.
      apply list_elem_of_lookup_2 in Htop.
      destruct (split_chars_elem _ _ _ _ _ Htop Hc) as [H|[H1 H2]];
        [by apply elem_of_nil in H|].
      apply (proj1 (not_DNA_false _) Hdna) in H1.
      apply Ascii.eqb_neq in H2.
      rewrite !elem_of_cons, elem_of_nil in H1.
      destruct H1 as [->|[->|[->|[->|[->|[]]]]]]; done.
  - unfold symmetry_dS. by rewrite Hsym.
Qed.

Lemma get_dHdS_symmetric_even_witness :
  Nat.Even (String.length "GAATTC") ∧ symmetry_dS "GAATTC" = -1.4.
Proof.
  apply (get_dHdS_symmetric_even "gaattc/cttaag" "GAATTC"); reflexivity.
Defined.

(** X13.  [isWC] on two bases: true exactly for A with T and C with G,
    in either order and either case; a U pairs with nothing. *)
Theorem isWC_bases (a b : ascii) :
  isWC (String a "") (String b "") = true
  ↔ (Str.upper_char a, Str.upper_char b)
    ∈ [("A", "T"); ("T", "A"); ("C", "G"); ("G", "C")]%char.
Proof.
  set (chk := fun a b : ascii => Bool.eqb
    (isWC (String a "") (String b ""))
    (existsb (fun p : ascii * ascii =>
                Ascii.eqb p.1 (Str.upper_char a)
                && Ascii.eqb p.2 (Str.upper_char b))
       [("A", "T"); ("T", "A"); ("C", "G"); ("G", "C")]%char)).
  assert (H : ∀ a,
    forallb (fun n => chk a (ascii_of_nat n)) (seq 0 256) = true).
  { apply (ascii_forallb
             (fun a => forallb (fun n => chk a (ascii_of_nat n))
                         (seq 0 256))).
    by_vm. }
  pose proof (ascii_forallb (chk a) (H a) b) as Hab.
  apply Bool.eqb_prop in Hab. rewrite Hab. clear H Hab chk.
  rewrite existsb_exists. split.
  - intros ([x y] & Hin & E). simpl in E.
    apply andb_true_iff in E as [E1 E2].
    apply Ascii.eqb_eq in E1, E2. subst. by apply list_elem_of_In.
  - intros Hin. exists (Str.upper_char a, Str.upper_char b). split.
    + by apply list_elem_of_In.
    + simpl. by rewrite !Ascii.eqb_refl.
Qed.

Lemma matchUp_loop (t b : list ascii) (n : nat) :
  (n ≤ length t)%nat → (n ≤ length b)%nat →
  for_each (seq 0 n) (matchUp_item t b) []
  = Ok (zip_with match_mark (take n t) (take n b)).
Proof.
  induction n as [|n IH]; intros Ht Hb; [done|].
  rewrite seq_S, for_each_app, IH by lia. simpl.
  destruct (lookup_lt_is_Some_2 t n) as [x Hx]; [lia|].
  destruct (lookup_lt_is_Some_2 b n) as [y Hy]; [lia|].
  unfold matchUp_item.
  rewrite (proj2 (index_Ok t n x) Hx). simpl.
  rewrite (proj2 (index_Ok b n y) Hy). simpl.
  rewrite (take_S_r t n x), (take_S_r b n y) by done.
  rewrite zip_with_app by (rewrite !length_take; lia).
  reflexivity.
Qed.

Lemma zip_with_take_length {A B C : Type} (f : A → B → C) (l : list A)
    (k : list B) :
  zip_with f l (take (length l) k) = zip_with f l k.
Proof.
  revert k. induction l as [|a l IH]; intros [|b k]; simpl; [done..|].
  by rewrite IH.
Qed.

Lemma matchUp_Ok (top bottom : string) :
  (String.length top ≤ String.length bottom)%nat →
  matchUp top bottom
  = Ok (matchUp_text top
          (Str.of_chars (zip_with match_mark (list_ascii_of_string top)
                           (list_ascii_of_string bottom)))
          bottom).
Proof.
  unfold matchUp, range. rewrite Nat.sub_0_r, <- !length_chars.
  intros Hlen. rewrite matchUp_loop by lia. simpl.
  by rewrite firstn_all, zip_with_take_length.
Qed.

Lemma for_each_Raise {A S : Type} (xs : list A) (body : S → A → result S)
    (s : S) (x : exn) :
  for_each xs body s = Raise x →
  ∃ s' y, y ∈ xs ∧ body s' y = Raise x.
Proof.
  revert s. induction xs as [|y xs IH]; simpl; intros s H; [done|].
  destruct (body s y) as [s1|x'|] eqn:E; simpl in H.
  - destruct (IH _ H) as (s' & z & Hz & Hb). exists s', z.
    split; [by right|done].
  - injection H as ->. exists s, y. split; [by left|done].
  - done.
Qed.

Lemma bind_Raise {A B : Type} (m : result A) (k : A → result B) (x : exn) :
  m ≫= k = Raise x → m = Raise x ∨ ∃ a, m = Ok a ∧ k a = Raise x.
Proof.
  destruct m as [a|y|]; simpl; intros H; [eauto| |done].
  left. by injection H as ->.
Qed.

Lemma index_Raise {A : Type} (l : list A) (i : nat) (x : exn) :
  index l i = Raise x → x = IndexError.
Proof. unfold index. destruct (l !! i); [done|]. by intros [= <-]. Qed.

Lemma index_last_Raise {A : Type} (l : list A) (x : exn) :
  index_last l = Raise x → x = IndexError.
Proof. unfold index_last. destruct (last l); [done|]. by intros [= <-]. Qed.

(** The strands that come with a [NNnotExistError] have passed the
    length check. *)
Lemma _get_dHdS_missing_flush nndH nndS pair nn top bottom :
  _get_dHdS nndH nndS pair = Raise (SysExit (NNnotExistError nn top bottom)) →
  length top = length bottom.
Proof.
  unfold _get_dHdS. cbv zeta.
  destruct (not_DNA _); [done|]. intros H.
  apply bind_Raise in H as [H|(t & _ & H)]; [by apply index_Raise in H|].
  apply bind_Raise in H as [H|(b & _ & H)]; [by apply index_Raise in H|].
  destruct (length (list_ascii_of_string t)
            =? length (list_ascii_of_string b))%nat eqn:Hlen; [|done].
  simpl in H. apply Nat.eqb_eq in Hlen.
  apply bind_Raise in H as [H|(acc & _ & H)].
  - apply for_each_Raise in H as (acc & i & _ & H).
    unfold _get_dHdS_step in H.
    do 4 (apply bind_Raise in H as [H|(? & _ & H)];
          [by apply index_Raise in H|]).
    cbv zeta in H.
    match type of H with context [nndH !! ?k] =>
      destruct (nndH !! k), (nndS !! k) end;
      try done; by injection H as _ <- <-.
  - apply bind_Raise in H as [H|(? & _ & H)]; [by apply index_Raise in H|].
    apply bind_Raise in H as [H|(? & _ & H)]; [by apply index_Raise in H|].
    apply bind_Raise in H as [H|(? & _ & H)];
      [by apply index_last_Raise in H|].
    apply bind_Raise in H as [H|(? & _ & H)];
      [by apply index_last_Raise in H|].
    done.
Qed.

(** X14.  [matchUp] needs a bottom strand at least as long as the top
    one: it then returns the three lines, with one mark under each base
    of the top strand and none under the bases the bottom strand has in
    excess; a shorter bottom strand ends it with an [IndexError].  The
    strands [_get_dHdS] hands over with a [NNnotExistError] have passed
    its length check, so that [matchUp] returns the text of the
    message. *)
Theorem matchUp_flush (top bottom : string) :
  ((String.length top ≤ String.length bottom)%nat →
   matchUp top bottom
   = Ok (matchUp_text top
           (Str.of_chars (zip_with match_mark (list_ascii_of_string top)
                            (list_ascii_of_string bottom)))
           bottom))
  ∧ ((String.length bottom < String.length top)%nat →
     matchUp top bottom = Raise IndexError)
  ∧ (∀ nndH nndS pair nn,
       _get_dHdS nndH nndS pair
       = Raise (SysExit (NNnotExistError nn (list_ascii_of_string top)
                           (list_ascii_of_string bottom))) →
       String.length top = String.length bottom
       ∧ matchUp top bottom
         = Ok (matchUp_text top
                 (Str.of_chars
                    (zip_with match_mark (list_ascii_of_string top)
                       (list_ascii_of_string bottom)))
                 bottom)).
Proof.
  split; [apply matchUp_Ok|]. split.
  - unfold matchUp, range. rewrite Nat.sub_0_r, <- !length_chars.
    intros Hlen.
    rewrite (seq_split 0 _ (length (list_ascii_of_string bottom))) by lia.
    rewrite for_each_app, matchUp_loop by lia. simpl.
    unfold matchUp_item.
    destruct (lookup_lt_is_Some_2 (list_ascii_of_string top)
                (length (list_ascii_of_string bottom))) as [x Hx]; [lia|].
    rewrite (proj2 (index_Ok _ _ x) Hx). simpl.
    unfold index. by rewrite lookup_ge_None_2.
  - intros nndH nndS pair nn H.
    apply _get_dHdS_missing_flush in H. rewrite !length_chars in H.
    split; [done|]. apply matchUp_Ok. lia.
Qed.

Lemma matchUp_flush_witness :
  matchUp "CGCAGT" "GCGACA"
  = Ok (matchUp_text "CGCAGT" "|||x||" "GCGACA")
  ∧ matchUp "CGCAGT" "GCGAC" = Raise IndexError
  ∧ _get_dHdS sample_nndH sample_nndS "GAAC/CTTG"
    = Raise (SysExit (NNnotExistError "AC/TG" (list_ascii_of_string "GAAC")
                        (list_ascii_of_string "CTTG")))
  ∧ matchUp "GAAC" "CTTG" = Ok (matchUp_text "GAAC" "||||" "CTTG").
Proof.
  assert (H : _get_dHdS sample_nndH sample_nndS "GAAC/CTTG"
              = Raise (SysExit (NNnotExistError "AC/TG"
                                  (list_ascii_of_string "GAAC")
                                  (list_ascii_of_string "CTTG"))))
    by by_vm.
  split; [|split; [|split]].
  - apply (proj1 (matchUp_flush "CGCAGT" "GCGACA")). simpl. lia.
  - apply (proj1 (proj2 (matchUp_flush "CGCAGT" "GCGAC"))). simpl. lia.
  - exact H.
  - exact (proj2 (proj2 (proj2 (matchUp_flush "GAAC" "CTTG")) _ _ _ _ H)).
Defined.

Lemma match_mark_complement (c : ascii) :
  existsb (Ascii.eqb c) (list_ascii_of_string "ACGTacgt") = true →
  match_mark c (Str.maketrans seqComp_be seqComp_af c) = "|"%char.
Proof.
  assert (H : ∀ c, implb
    (existsb (Ascii.eqb c) (list_ascii_of_string "ACGTacgt"))
    (Ascii.eqb (match_mark c (Str.maketrans seqComp_be seqComp_af c)) "|")
    = true).
  { apply ascii_forallb. by_vm. }
  intros E. specialize (H c). rewrite E in H. by apply Ascii.eqb_eq.
Qed.

(** X15.  The complement [seqComp] gives a DNA strand is its
    Watson-Crick partner in the sense of [isWC]: [matchUp] marks every
    base pair of the two as a match. *)
Theorem matchUp_seqComp (top : string) :
  (∀ c, c ∈ list_ascii_of_string top →
        c ∈ list_ascii_of_string "ACGTacgt") →
  matchUp top (seqComp top)
  = Ok (matchUp_text top
          (Str.of_chars (replicate (String.length top) "|"%char))
          (seqComp top)).
Proof.
  intros Hdna.
  assert (Hlen : String.length (seqComp top) = String.length top).
  { by rewrite <- !length_chars, seqComp_chars, length_map. }
  rewrite (matchUp_Ok top (seqComp top)) by lia.
  do 3 f_equal. rewrite seqComp_chars, <- length_chars.
  induction (list_ascii_of_string top) as [|c l IH]; [done|].
  simpl. f_equal.
  - apply match_mark_complement, existsb_exists. exists c.
    split; [|apply Ascii.eqb_refl].
    apply list_elem_of_In, Hdna. by left.
  - apply IH. intros x Hx. apply Hdna. by right.
Qed.

Lemma matchUp_seqComp_witness :
  matchUp "CGATcg" "GCTAgc" = Ok (matchUp_text "CGATcg" "||||||" "GCTAgc").
Proof.
  apply (matchUp_seqComp "CGATcg").
  intros c Hc. apply list_elem_of_In in Hc. apply list_elem_of_In.
  simpl in Hc |- *. tauto.
Defined.

(** ** The rows of [thermoCal0] and [thermoCal] *)

Lemma thermoCal_loop self oligo verbose xs acc rows :
  for_each xs (thermoCal_item self oligo verbose) acc = Ok rows →
  ∃ new, rows = (acc ++ new)%list
         ∧ Forall2 (thermoCal_row self oligo verbose) xs new.
Proof.
  revert acc. induction xs as [|o xs IH]; intros acc H; simpl in H.
  - injection H as <-. exists []. by rewrite app_nil_r.
  - apply bind_Ok in H as (acc' & Ho & H).
    unfold thermoCal_item in Ho.
    destruct (oligo !! o) as [d|] eqn:Hd; [|discriminate].
    apply bind_Ok in Ho as (out & Hout & [= <-]).
    apply IH in H as (new & -> & Hnew).
    exists ((o, out) :: new). split; [by rewrite <- app_assoc|].
    constructor; [|done]. split; [done|]. by exists d.
Qed.

Lemma thermoCal0_fields self pair verbose out :
  thermoCal0 self pair verbose = Ok out →
  length out.2
  = if (verbose <=? 0)%Z then 1%nat
    else if (verbose =? 1)%Z then 10%nat else 13%nat.
Proof.
  unfold thermoCal0. intros H.
  apply bind_Ok in H as ([dH dS] & _ & H).
  apply bind_Ok in H as (sq & _ & H).
  apply bind_Ok in H as (lna & _ & H).
  apply bind_Ok in H as (ktm & _ & H).
  apply bind_Ok in H as (lktm & _ & H).
  apply bind_Ok in H as (q & _ & H).
  apply bind_Ok in H as (vu & Hvu & H).
  destruct (0 <? verbose)%Z eqn:E0.
  - apply bind_Ok in Hvu as (e & _ & Hvu).
    apply bind_Ok in Hvu as (perB & _ & [= <-]). simpl in H.
    destruct (verbose =? 1)%Z eqn:E1; destruct (2 <=? verbose)%Z eqn:E2;
      destruct (verbose <=? 0)%Z eqn:E3; try lia.
    + by injection H as <-.
    + apply bind_Ok in H as (lks & _ & H).
      apply bind_Ok in H as (qs & _ & H). by injection H as <-.
  - injection Hvu as <-.
    destruct (verbose =? 1)%Z eqn:E1; destruct (2 <=? verbose)%Z eqn:E2;
      destruct (verbose <=? 0)%Z eqn:E3; try lia.
    by injection H as <-.
Qed.

(** X16.  Every row of [thermoCal] is made of the name, the duplex and
    1, 10 or 13 numbers, as many items as the header line [main] puts
    above it for the same verbosity has titles. *)
Theorem thermoCal_columns (self : Thermo) (oligo : gmap string string)
    (verbose : Z) (rows : list (string * (string * list R))) :
  (0 ≤ verbose)%Z →
  thermoCal self oligo verbose = Ok rows →
  ∃ header, main_header verbose = Some header
    ∧ ∀ row, row ∈ rows → (2 + length row.2.2)%nat = length header.
Proof.
  intros Hv H. unfold thermoCal in H.
  apply thermoCal_loop in H as (new & -> & Hnew). simpl.
  assert (Hrows : ∀ row, row ∈ new →
            length row.2.2
            = if (verbose <=? 0)%Z then 1%nat
              else if (verbose =? 1)%Z then 10%nat else 13%nat).
  { intros row Hrow.
    apply list_elem_of_lookup_1 in Hrow as [i Hi].
    destruct (Forall2_lookup_r _ _ _ _ _ Hnew Hi) as (o & _ & _ & d & _ & Hd).
    by apply thermoCal0_fields in Hd. }
  unfold main_header.
  destruct (verbose =? 0)%Z eqn:E0; [|destruct (verbose =? 1)%Z eqn:E1;
    [|destruct (2 <=? verbose)%Z eqn:E2; [|lia]]];
    eexists; (split; [reflexivity|]); intros row Hrow;
    rewrite (Hrows row Hrow);
    destruct (verbose <=? 0)%Z eqn:E3; try lia; reflexivity.
Qed.

Lemma thermoCal_singleton self name duplex verbose out :
  thermoCal0 self duplex verbose = Ok out →
  thermoCal self {[name := duplex]} verbose = Ok [(name, out)].
Proof.
  intros H. unfold thermoCal. rewrite map_to_list_singleton. simpl.
  unfold thermoCal_item. rewrite lookup_singleton_eq. simpl.
  by rewrite H.
Qed.

Lemma thermoCal_columns_witness :
  ∃ header, main_header 0 = Some header
    ∧ ∀ row, row ∈ value_of [] (thermoCal sample_self
                                  {["YourSeq" := "GAATTC/CTTAAG"]} 0) →
        (2 + length row.2.2)%nat = length header.
Proof.
  destruct sample_self_returns as [Tm H].
  pose proof (thermoCal_singleton sample_self "YourSeq" _ 0 _ H) as Hrows.
  rewrite Hrows. simpl.
  apply (thermoCal_columns sample_self {["YourSeq" := "GAATTC/CTTAAG"]} 0);
    [lia|exact Hrows].
Defined.

(** What a call of [thermoCal0] that returns has checked on the way to
    its first number. *)
Lemma thermoCal0_Tm_inv self pair verbose out :
  thermoCal0 self pair verbose = Ok out →
  ∃ dH dS rest,
    _get_dHdS (_nndH self) (_nndS self) pair = Ok (dH, dS)
    ∧ 0 <= _mg self * 1000
    ∧ 0 < _na self + 0.12 * sqrt (_mg self * 1000)
    ∧ _cp self - _ct self / 2 ≠ 0
    ∧ 0 < 1 / (_cp self - _ct self / 2)
    ∧ dS + 0.368 * ((INR (String.length pair) - 1) / 2 - 1)
           * ln (_na self + 0.12 * sqrt (_mg self * 1000))
      - _R_ * ln (1 / (_cp self - _ct self / 2)) ≠ 0
    ∧ out
      = (pair,
         dH * 1000
         / (dS + 0.368 * ((INR (String.length pair) - 1) / 2 - 1)
                 * ln (_na self + 0.12 * sqrt (_mg self * 1000))
            - _R_ * ln (1 / (_cp self - _ct self / 2)))
         - 273.15 :: rest).
Proof.
  unfold thermoCal0. intros H.
  apply bind_Ok in H as ([dH dS] & Hg & H).
  apply bind_Ok in H as (sq & Hsq & H). apply math_sqrt_inv in Hsq as [Hmg ->].
  apply bind_Ok in H as (lna & Hlna & H).
  apply math_log_inv in Hlna as [Hna ->].
  apply bind_Ok in H as (ktm & Hktm & H). apply py_div_inv in Hktm as [Hc ->].
  apply bind_Ok in H as (lktm & Hlk & H). apply math_log_inv in Hlk as [Hk ->].
  apply bind_Ok in H as (q & Hq & H). apply py_div_inv in Hq as [Hd ->].
  apply bind_Ok in H as (vu & _ & H).
  exists dH, dS.
  destruct (verbose =? 1)%Z; destruct (2 <=? verbose)%Z.
  - apply bind_Ok in H as (lks & _ & H). apply bind_Ok in H as (qs & _ & H).
    injection H as <-. eexists. by repeat (split; [done|]).
  - injection H as <-. eexists. by repeat (split; [done|]).
  - apply bind_Ok in H as (lks & _ & H). apply bind_Ok in H as (qs & _ & H).
    injection H as <-. eexists. by repeat (split; [done|]).
  - injection H as <-. eexists. by repeat (split; [done|]).
Qed.

(** X17.  The verbosity adds columns and changes nothing else: a call
    that returns at some verbosity returns at verbosity 0 as well, with
    the duplex and the same Tm as its first number. *)
Theorem thermoCal0_verbosity (self : Thermo) (pair : string) (verbose : Z)
    (out : string * list R) :
  thermoCal0 self pair verbose = Ok out →
  ∃ Tm rest, out = (pair, Tm :: rest)
             ∧ thermoCal0 self pair 0 = Ok (pair, [Tm]).
Proof.
  intros H.
  apply thermoCal0_Tm_inv in H
    as (dH & dS & rest & Hg & Hmg & Hna & Hc & Hk & Hd & ->).
  eexists _, rest. split; [reflexivity|].
  by apply thermoCal0_returns.
Qed.

(** X18.  For an object the constructor has built from a positive
    template concentration, a duplex that gets a Tm gets the ten numbers
    of verbosity 1 as well: the same Tm, a bound percentage strictly
    between 0 and 100, dG = dH - T*dS/1000 at the temperature of the
    object in kelvin, and, in the last five columns, the temperature and
    the four concentrations as they were given to the constructor. *)
Theorem thermoCal0_reports_conditions (py_float : string → option R)
    (w : World) (temper cp ct na mg : R) (tr : list event) (self : Thermo)
    (pair : string) (Tm : R) :
  __init__ py_float w temper cp ct na mg = (tr, Ok self) →
  0 < ct →
  thermoCal0 self pair 0 = Ok (pair, [Tm]) →
  ∃ perB dG dH dS,
    thermoCal0 self pair 1
    = Ok (pair, [Tm; perB; dG; dH; dS; temper; cp; ct; na; mg])
    ∧ 0 < perB < 100
    ∧ dG = dH - (temper + 273.15) * dS / 1000.
Proof.
  intros Hinit Hct H0.
  apply init_inv in Hinit
    as (Hcp0 & Hct0 & Hle & Htemp & _ & Ecp & Ect & Etemp & Ena & Emg & _).
  apply thermoCal0_Tm_inv in H0
    as (dH & dS & rest & Hg & Hmg & Hna & Hc & Hk & Hd & E).
  injection E as -> <-.
  set (dSeff := dS + 0.368 * ((INR (String.length pair) - 1) / 2 - 1)
                     * ln (_na self + 0.12 * sqrt (_mg self * 1000))) in *.
  set (dG := dH - _temper self * dSeff / 1000).
  destruct (perBcal_root (exp (- dG * 1000 / _R_ / _temper self))
              (_cp self) (_ct self)) as (p & Hp & Hp01 & _).
  { apply exp_pos. }
  { rewrite Ect. lra. }
  { rewrite Ecp, Ect. lra. }
  exists (p * 100), dG, dH, dSeff. split; [|split].
  - unfold thermoCal0. rewrite Hg. simpl.
    rewrite math_sqrt_Ok by done. simpl.
    rewrite math_log_Ok by done. simpl.
    rewrite (py_div_Ok 1) by done. simpl.
    rewrite math_log_Ok by done. simpl.
    rewrite (py_div_Ok (dH * 1000)) by done. simpl.
    rewrite py_div_Ok by (rewrite Etemp; lra). simpl.
    fold dSeff. fold dG. rewrite Hp. simpl.
    rewrite Etemp, Ecp, Ect, Ena, Emg.
    do 2 f_equal.
    repeat (apply (f_equal2 cons); [first [reflexivity|lra]|]).
    reflexivity.
  - lra.
  - unfold dG. by rewrite Etemp.
Qed.

Lemma thermoCal0_reports_conditions_witness :
  ∃ Tm perB dG dH dS,
    thermoCal0 sample_self "GAATTC/CTTAAG" 1
    = Ok ("GAATTC/CTTAAG",
          [Tm; perB; dG; dH; dS; _temper_; _cp_; _ct_; _na_; _mg_])
    ∧ 0 < perB < 100
    ∧ dG = dH - (_temper_ + 273.15) * dS / 1000.
Proof.
  destruct sample_self_returns as [Tm H]. exists Tm.
  apply (thermoCal0_reports_conditions decimal_float sample_world
           _temper_ _cp_ _ct_ _na_ _mg_ _ sample_self "GAATTC/CTTAAG" Tm
           sample_self_init);
    [unfold _ct_; lra|exact H].
Defined.

(** ** The melting curve of [getMelting] *)

Lemma dict_get_set_eq (k v : R) (d : list (R * R)) :
  dict_get k (dict_set k v d) = Some v.
Proof.
  induction d as [|[k' v'] d IH]; simpl.
  - by destruct (Req_dec_T k k).
  - destruct (Req_dec_T k' k) as [E|E]; simpl;
      by destruct (Req_dec_T k' k).
Qed.

Lemma dict_get_set_ne (k k' v : R) (d : list (R * R)) :
  k ≠ k' → dict_get k' (dict_set k v d) = dict_get k' d.
Proof.
  intros Hne. induction d as [|[k0 v0] d IH]; simpl.
  - by destruct (Req_dec_T k k').
  - destruct (Req_dec_T k0 k) as [->|E]; simpl.
    + by destruct (Req_dec_T k k').
    + destruct (Req_dec_T k0 k'); [done|apply IH].
Qed.

Lemma getMelting_step_Ok self dH dS melt k melt' :
  getMelting_step self dH dS melt k = Ok melt' →
  k ≠ 0
  ∧ ∃ p, _perBcal (melting_keq dH dS k) (_cp self) (_ct self) = Ok p
         ∧ melt' = dict_set (k - 273.15) p melt.
Proof.
  unfold getMelting_step. intros H.
  apply bind_Ok in H as (e & He & H). apply py_div_inv in He as [Hk ->].
  apply bind_Ok in H as (p & Hp & [= <-]).
  split; [done|]. by exists p.
Qed.

(** After the loop, a temperature of the list has the fraction computed
    for it, and the other keys are as they were. *)
Lemma getMelting_loop self dH dS temp melt0 melt :
  for_each (map (fun t => t + 273.15) temp) (getMelting_step self dH dS) melt0
  = Ok melt →
  (∀ t, t ∈ temp →
     t + 273.15 ≠ 0
     ∧ ∃ p, _perBcal (melting_keq dH dS (t + 273.15)) (_cp self) (_ct self)
            = Ok p
            ∧ dict_get t melt = Some p)
  ∧ (∀ t, t ∉ temp → dict_get t melt = dict_get t melt0).
Proof.
  revert melt0. induction temp as [|t0 temp IH]; intros melt0 H; simpl in H.
  - injection H as <-. split; [|done].
    intros t Ht. by apply elem_of_nil in Ht.
  - apply bind_Ok in H as (melt1 & H1 & H).
    apply getMelting_step_Ok in H1 as (Hk & p & Hp & ->).
    replace (t0 + 273.15 - 273.15) with t0 in H by lra.
    destruct (IH _ H) as [Hin Hout]. split.
    + intros t Ht.
      destruct (in_dec Req_dec_T t temp) as [Hi|Hi].
      { apply Hin. by apply list_elem_of_In. }
      apply elem_of_cons in Ht as [->|Ht];
        [|by apply list_elem_of_In in Ht].
      split; [done|]. exists p. split; [done|].
      rewrite Hout by (by rewrite list_elem_of_In).
      apply dict_get_set_eq.
    + intros t Ht. apply not_elem_of_cons in Ht as [Hne Ht].
      rewrite Hout by done. by apply dict_get_set_ne.
Qed.

Lemma getMelting_returns self pair dH dS temp :
  0 < _ct self → _ct self <= _cp self →
  _get_dHdS (_nndH self) (_nndS self) pair = Ok (dH, dS) →
  (∀ t, t ∈ temp → t ≠ -273.15) →
  ∃ melt, getMelting self pair temp = Ok melt.
Proof.
  intros Hct Hle Hg Hall. unfold getMelting. rewrite Hg. simpl.
  apply for_each_Ok_all. intros melt k Hk.
  apply list_elem_of_fmap in Hk as (t & -> & Ht).
  unfold getMelting_step.
  rewrite py_div_Ok by (apply Hall in Ht; lra). simpl.
  destruct (perBcal_root
              (exp (- (dH - (t + 273.15) * dS / 1000) * 1000 / _R_
                    / (t + 273.15))) (_cp self) (_ct self))
    as (p & Hp & _); [apply exp_pos|done..|].
  rewrite Hp. simpl. eauto.
Qed.

(** With less free product needed for binding, more is bound: the root
    of the binding quadratic between 0 and 1 grows as [e] falls. *)
Lemma binding_root_lt (c e1 e2 p1 p2 : R) :
  1 <= c → 0 < e2 → e2 < e1 → 0 < p1 < 1 → 0 < p2 < 1 →
  p1 * p1 - (c + 1 + e1) * p1 + c = 0 →
  p2 * p2 - (c + 1 + e2) * p2 + c = 0 → p1 < p2.
Proof.
  intros Hc He2 He Hp1 Hp2 R1 R2.
  apply Rnot_le_lt. intros Hge.
  assert (Hl : (p1 - p2) * (p1 + p2 - c - 1) = e1 * p1 - e2 * p2) by lra.
  assert (Hneg : (p1 - p2) * (p1 + p2 - c - 1) <= 0) by nra.
  assert (Hpos : 0 < e1 * p1 - e2 * p2) by nra.
  lra.
Qed.

Lemma melting_keq_decreasing (dH dS k1 k2 : R) :
  dH < 0 → 0 < k1 → k1 < k2 →
  melting_keq dH dS k2 < melting_keq dH dS k1.
Proof.
  intros HdH Hk1 Hk. unfold melting_keq. apply exp_increasing.
  unfold _R_.
  replace (- (dH - k2 * dS / 1000) * 1000 / 1.987 / k2)
    with (dS / 1.987 + (- dH * 1000 / 1.987) * / k2) by (field; lra).
  replace (- (dH - k1 * dS / 1000) * 1000 / 1.987 / k1)
    with (dS / 1.987 + (- dH * 1000 / 1.987) * / k1) by (field; lra).
  apply Rplus_lt_compat_l, Rmult_lt_compat_l; [lra|].
  apply Rinv_lt_contravar; [by apply Rmult_lt_0_compat; lra|done].
Qed.

(** X19.  In exact arithmetic (floats idealised as reals), the melting
    curve falls: for a duplex with a negative enthalpy, of two
    temperatures above absolute zero that [getMelting] reports the
    higher one has the strictly smaller bound fraction; and a
    temperature is reported only if it was asked for. *)
Theorem getMelting_decreasing (self : Thermo) (pair : string)
    (temp : list R) (melt : list (R * R)) (dH dS t1 t2 p1 p2 : R) :
  0 < _ct self → _ct self <= _cp self →
  _get_dHdS (_nndH self) (_nndS self) pair = Ok (dH, dS) → dH < 0 →
  getMelting self pair temp = Ok melt →
  dict_get t1 melt = Some p1 → dict_get t2 melt = Some p2 →
  -273.15 < t1 → t1 < t2 →
  t1 ∈ temp ∧ t2 ∈ temp ∧ p2 < p1.
Proof.
  intros Hct Hle Hg HdH H H1 H2 Habs Ht.
  unfold getMelting in H. rewrite Hg in H. simpl in H.
  apply getMelting_loop in H as [Hin Hout].
  assert (Ht1 : t1 ∈ temp).
  { destruct (in_dec Req_dec_T t1 temp) as [Hi|Hi];
      [by apply list_elem_of_In|].
    rewrite Hout in H1 by (by rewrite list_elem_of_In). discriminate. }
  assert (Ht2 : t2 ∈ temp).
  { destruct (in_dec Req_dec_T t2 temp) as [Hi|Hi];
      [by apply list_elem_of_In|].
    rewrite Hout in H2 by (by rewrite list_elem_of_In). discriminate. }
  split; [done|]. split; [done|].
  destruct (Hin t1 Ht1) as (_ & q1 & Hq1 & E1).
  destruct (Hin t2 Ht2) as (_ & q2 & Hq2 & E2).
  rewrite H1 in E1. injection E1 as <-.
  rewrite H2 in E2. injection E2 as <-.
  set (k1 := melting_keq dH dS (t1 + 273.15)) in *.
  set (k2 := melting_keq dH dS (t2 + 273.15)) in *.
  assert (Hk2 : 0 < k2) by apply exp_pos.
  assert (Hk : k2 < k1) by (apply melting_keq_decreasing; lra).
  destruct (perBcal_root k1 (_cp self) (_ct self))
    as (r1 & Hr1 & Hr1' & R1); [lra..|].
  destruct (perBcal_root k2 (_cp self) (_ct self))
    as (r2 & Hr2 & Hr2' & R2); [lra..|].
  rewrite Hq1 in Hr1. injection Hr1 as <-.
  rewrite Hq2 in Hr2. injection Hr2 as <-.
  assert (Hc : 1 <= _cp self / _ct self).
  { apply Rmult_le_reg_r with (_ct self); [done|].
    unfold Rdiv. rewrite Rmult_assoc, Rinv_l; lra. }
  assert (He1 : 0 < 1 / (k1 * _ct self)).
  { unfold Rdiv. rewrite Rmult_1_l. apply Rinv_0_lt_compat. nra. }
  assert (He : 1 / (k1 * _ct self) < 1 / (k2 * _ct self)).
  { unfold Rdiv. rewrite !Rmult_1_l.
    assert (0 < k1 * _ct self) by (apply Rmult_lt_0_compat; lra).
    assert (0 < k2 * _ct self) by (apply Rmult_lt_0_compat; lra).
    apply Rinv_lt_contravar; [by apply Rmult_lt_0_compat|].
    apply Rmult_lt_compat_r; lra. }
  by apply (binding_root_lt (_cp self / _ct self)
              (1 / (k2 * _ct self)) (1 / (k1 * _ct self))).
Qed.

Lemma getMelting_decreasing_witness :
  ∃ melt p1 p2,
    getMelting sample_self "GAATTC/CTTAAG" [25; 65] = Ok melt
    ∧ dict_get 25 melt = Some p1 ∧ dict_get 65 melt = Some p2
    ∧ p2 < p1.
Proof.
  assert (Hct : 0 < _ct sample_self) by (simpl; unfold _ct_; lra).
  assert (Hle : _ct sample_self <= _cp sample_self)
    by (simpl; unfold _cp_, _ct_; lra).
  destruct (getMelting_returns sample_self "GAATTC/CTTAAG" _ _ [25; 65]
              Hct Hle sample_GAATTC) as [melt H].
  { intros t Ht. rewrite !elem_of_cons, elem_of_nil in Ht.
    destruct Ht as [->|[->|[]]]; lra. }
  pose proof H as H'. unfold getMelting in H'.
  change (_get_dHdS (_nndH sample_self) (_nndS sample_self) "GAATTC/CTTAAG")
    with (_get_dHdS sample_nndH sample_nndS "GAATTC/CTTAAG") in H'.
  rewrite sample_GAATTC in H'. simpl in H'.
  apply (getMelting_loop sample_self _ _ [25; 65]) in H' as [Hin _].
  destruct (Hin 25) as (_ & p1 & _ & H1); [by left|].
  destruct (Hin 65) as (_ & p2 & _ & H2); [right; by left|].
  exists melt, p1, p2. split; [exact H|]. split; [exact H1|].
  split; [exact H2|].
  apply (getMelting_decreasing sample_self "GAATTC/CTTAAG" [25; 65] melt
           _ _ 25 65 p1 p2 Hct Hle sample_GAATTC); [lra|done..|lra|lra].
Defined.

Lemma getMelting_half self pair dH dS :
  0 < _ct self → _ct self <= _cp self →
  _get_dHdS (_nndH self) (_nndS self) pair = Ok (dH, dS) →
  dH ≠ 0 →
  dS - _R_ * ln (1 / (_cp self - _ct self / 2)) ≠ 0 →
  let Tm := dH * 1000 / (dS - _R_ * ln (1 / (_cp self - _ct self / 2)))
            - 273.15 in
  ∃ melt, getMelting self pair [Tm] = Ok melt
          ∧ dict_get Tm melt = Some (1 / 2).
Proof.
  intros Hct Hle Hg HdH HD Tm.
  set (D := dS - _R_ * ln (1 / (_cp self - _ct self / 2))) in *.
  assert (Hk : Tm + 273.15 = dH * 1000 / D) by (unfold Tm; lra).
  assert (Hk0 : dH * 1000 / D ≠ 0).
  { intros E. apply HdH.
    assert (dH * 1000 / D * D = dH * 1000) by (field; done). nra. }
  destruct (getMelting_returns self pair dH dS [Tm] Hct Hle Hg)
    as [melt H].
  { intros t Ht. apply list_elem_of_singleton in Ht as ->. lra. }
  exists melt. split; [done|].
  unfold getMelting in H. rewrite Hg in H. simpl in H.
  apply (getMelting_loop self dH dS [Tm]) in H as [Hin _].
  destruct (Hin Tm) as (_ & p & Hp & ->); [by left|]. f_equal.
  assert (Hktm : 0 < 1 / (_cp self - _ct self / 2)).
  { unfold Rdiv. rewrite Rmult_1_l. apply Rinv_0_lt_compat. lra. }
  assert (Ekeq : melting_keq dH dS (Tm + 273.15)
                 = 1 / (_cp self - _ct self / 2)).
  { unfold melting_keq. rewrite Hk.
    replace (- (dH - dH * 1000 / D * dS / 1000) * 1000 / _R_
             / (dH * 1000 / D))
      with (ln (1 / (_cp self - _ct self / 2))).
    - by apply exp_ln.
    - unfold D, _R_. field. split; [|split]; [|lra|done].
      fold _R_. fold D. done. }
  rewrite Ekeq in Hp.
  destruct (perBcal_root _ (_cp self) (_ct self) Hktm Hct Hle)
    as (p' & Hp' & Hp01 & Hroot).
  rewrite Hp in Hp'. injection Hp' as <-.
  set (c := _cp self / _ct self) in *.
  assert (Hc : 1 <= c).
  { unfold c. apply Rmult_le_reg_r with (_ct self); [done|].
    unfold Rdiv. rewrite Rmult_assoc, Rinv_l; lra. }
  assert (He : 1 / (1 / (_cp self - _ct self / 2) * _ct self) = c - 1 / 2).
  { unfold c. field. split; lra. }
  rewrite He in Hroot.
  apply (binding_root_unique c (c - 1 / 2)); try lra.
Qed.

(** X20.  In exact arithmetic (floats idealised as reals), at one
    molar effective monovalent salt, where the salt correction of
    [thermoCal0] vanishes, the melting curve of [getMelting] passes
    through one half at the Tm [thermoCal0] reports. *)
Theorem getMelting_half_at_Tm (self : Thermo) (pair : string) (Tm : R) :
  0 < _ct self → _ct self <= _cp self →
  _na self + 0.12 * sqrt (_mg self * 1000) = 1 →
  thermoCal0 self pair 0 = Ok (pair, [Tm]) →
  Tm ≠ -273.15 →
  ∃ melt, getMelting self pair [Tm] = Ok melt
          ∧ dict_get Tm melt = Some (1 / 2).
Proof.
  intros Hct Hle Hna H HTm.
  apply thermoCal0_Tm_inv in H
    as (dH & dS & rest & Hg & _ & _ & _ & _ & Hd & E).
  injection E as -> _. rewrite Hna, ln_1 in Hd, HTm |- *.
  replace (dS + 0.368 * ((INR (String.length pair) - 1) / 2 - 1) * 0
           - _R_ * ln (1 / (_cp self - _ct self / 2)))
    with (dS - _R_ * ln (1 / (_cp self - _ct self / 2)))
    in Hd, HTm |- * by lra.
  apply getMelting_half; try done.
  intros ->. apply HTm. unfold Rdiv. lra.
Qed.

Lemma molar_self_returns :
  ∃ Tm, thermoCal0 molar_self "GAATTC/CTTAAG" 0
        = Ok ("GAATTC/CTTAAG", [Tm])
        ∧ -273.15 < Tm.
Proof.
  assert (Hsq : sqrt (_mg molar_self * 1000) = 0).
  { replace (_mg molar_self * 1000) with 0
      by (simpl; unfold _mg_; lra). apply sqrt_0. }
  assert (Hna : _na molar_self + 0.12 * sqrt (_mg molar_self * 1000) = 1)
    by (rewrite Hsq; simpl; lra).
  assert (HK : 0 < ln (1 / (_cp molar_self - _ct molar_self / 2))).
  { apply Rle_lt_trans with (ln 1); [rewrite ln_1; lra|].
    apply ln_increasing; [lra|].
    set (d := _cp molar_self - _ct molar_self / 2).
    assert (Hd : 0 < d < 1) by (unfold d; simpl; unfold _cp_, _ct_; lra).
    assert (0 < / d) by (apply Rinv_0_lt_compat; lra).
    assert (d * / d = 1) by (apply Rinv_r; lra).
    unfold Rdiv. nra. }
  assert (HD : -5.7 + -22.2 + -22.2 + -20.4 + -22.2 + -22.2 + -1.4
               + 0.368 * ((INR (String.length "GAATTC/CTTAAG") - 1) / 2 - 1)
                 * ln (_na molar_self
                       + 0.12 * sqrt (_mg molar_self * 1000))
               - _R_ * ln (1 / (_cp molar_self - _ct molar_self / 2)) < 0).
  { rewrite Hna, ln_1. unfold _R_. lra. }
  eexists. split.
  - apply (thermoCal0_returns molar_self _ _ _ sample_GAATTC).
    + simpl. unfold _mg_. lra.
    + rewrite Hna. lra.
    + simpl. unfold _cp_, _ct_. lra.
    + unfold Rdiv. rewrite Rmult_1_l. apply Rinv_0_lt_compat.
      simpl. unfold _cp_, _ct_. lra.
    + lra.
  - match goal with |- _ < ?a / ?d - 273.15 => set (D := d) in *;
      assert (Hq : 0 < a / D) end.
    { assert (0 < / - D) by (apply Rinv_0_lt_compat; lra).
      replace (/ - D) with (- / D) in * by (field; lra).
      unfold Rdiv. nra. }
    lra.
Qed.

Lemma getMelting_half_at_Tm_witness :
  ∃ Tm melt, getMelting molar_self "GAATTC/CTTAAG" [Tm] = Ok melt
             ∧ dict_get Tm melt = Some (1 / 2).
Proof.
  destruct molar_self_returns as (Tm & H & HTm). exists Tm.
  apply (getMelting_half_at_Tm molar_self "GAATTC/CTTAAG" Tm);
    [simpl; unfold _ct_; lra|simpl; unfold _cp_, _ct_; lra| |exact H
    |lra].
  replace (_mg molar_self * 1000) with 0 by (simpl; unfold _mg_; lra).
  rewrite sqrt_0. simpl. lra.
Defined.

(** ** [sorted] and the rows of [thermoCal] *)

Section SortedFacts.

Context {A : Type}.
Variable leb : A → A → bool.
Hypothesis leb_total : ∀ a b, leb a b = true ∨ leb b a = true.
Hypothesis leb_trans :
  ∀ a b c, leb a b = true → leb b c = true → leb a c = true.

Lemma sorted_insert_perm (x : A) (l : list A) :
  sorted_insert leb x l ≡ₚ x :: l.
Proof.
  induction l as [|y l IH]; simpl; [done|].
  destruct (leb x y); [done|]. rewrite IH. apply Permutation_swap.
Qed.

Lemma sorted_perm (l : list A) : sorted leb l ≡ₚ l.
Proof.
  induction l as [|x l IH]; simpl; [done|].
  unfold sorted in IH. by rewrite sorted_insert_perm, IH.
Qed.

Lemma sorted_insert_sorted (x : A) (l : list A) :
  StronglySorted (fun a b => leb a b = true) l →
  StronglySorted (fun a b => leb a b = true) (sorted_insert leb x l).
Proof.
  induction 1 as [|y l Hl IH Hy]; simpl.
  - by repeat constructor.
  - destruct (leb x y) eqn:E.
    + constructor; [by constructor|]. constructor; [done|].
      eapply Forall_impl; [exact Hy|]. intros z Hz. by eapply leb_trans.
    + constructor; [done|]. rewrite sorted_insert_perm.
      constructor; [|done]. destruct (leb_total x y); congruence.
Qed.

Lemma sorted_sorted (l : list A) :
  StronglySorted (fun a b => leb a b = true) (sorted leb l).
Proof.
  induction l as [|x l IH]; simpl; [constructor|].
  by apply sorted_insert_sorted.
Qed.

End SortedFacts.

Lemma StronglySorted_before {A : Type} (R : A → A → Prop) (l1 l2 : list A)
    (x : A) :
  StronglySorted R (l1 ++ x :: l2) → Forall (fun y => R y x) l1.
Proof.
  induction l1 as [|y l1 IH]; simpl; intros H; [constructor|].
  apply StronglySorted_inv in H as [H Hy]. constructor; [|by apply IH].
  rewrite Forall_forall in Hy. apply Hy.
  apply elem_of_app. right. by left.
Qed.

Lemma ascii_compare_refl (a : ascii) : Ascii.compare a a = Eq.
Proof. apply N.compare_refl. Qed.

Lemma ascii_compare_lt_trans (a b c : ascii) :
  Ascii.compare a b = Lt → Ascii.compare b c = Lt → Ascii.compare a c = Lt.
Proof.
  unfold Ascii.compare. rewrite !N.compare_lt_iff. apply N.lt_trans.
Qed.

Lemma string_leb_trans (a b c : string) :
  String.leb a b = true → String.leb b c = true → String.leb a c = true.
Proof.
  unfold String.leb. revert b c.
  induction a as [|x a IH]; intros [|y b] [|z c]; simpl; try done.
  destruct (Ascii.compare x y) eqn:Exy; [| |done];
    destruct (Ascii.compare y z) eqn:Eyz; try done.
  - apply Ascii.compare_eq_iff in Exy as ->, Eyz as ->.
    rewrite ascii_compare_refl. apply IH.
  - apply Ascii.compare_eq_iff in Exy as ->. by rewrite Eyz.
  - apply Ascii.compare_eq_iff in Eyz as <-. by rewrite Exy.
  - by rewrite (ascii_compare_lt_trans x y z).
Qed.

Lemma string_ltb_leb (a b : string) :
  String.ltb a b = true ↔ String.leb a b = true ∧ a ≠ b.
Proof.
  unfold String.ltb, String.leb.
  destruct (String.compare a b) eqn:E.
  - apply String.compare_eq_iff in E. split; [done|]. by intros [_ []].
  - split; [|done]. intros _. split; [done|]. intros ->.
    assert (Hr : String.compare b b = Eq).
    { clear E. induction b as [|x b IH]; simpl; [done|].
      by rewrite ascii_compare_refl. }
    congruence.
  - split; [done|]. by intros [? _].
Qed.

(** The names in the order of [sorted(oligo.keys())]. *)
Lemma thermoCal_order (oligo : gmap string string) :
  let order := sorted String.leb (map fst (map_to_list oligo)) in
  StronglySorted (fun a b => String.ltb a b = true) order
  ∧ NoDup order
  ∧ ∀ o, o ∈ order ↔ is_Some (oligo !! o).
Proof.
  intros order.
  assert (Hperm : order ≡ₚ map fst (map_to_list oligo))
    by apply sorted_perm.
  assert (Hnd : NoDup order).
  { rewrite Hperm. apply NoDup_fst_map_to_list. }
  split; [|split; [done|]].
  - pose proof (sorted_sorted String.leb String.leb_total string_leb_trans
                  (map fst (map_to_list oligo))) as Hs.
    fold order in Hs. clear Hperm.
    induction Hs as [|x l Hl IH Hx]; [constructor|].
    apply NoDup_cons in Hnd as [Hxl Hnd]. constructor; [by apply IH|].
    rewrite Forall_forall in Hx |- *. intros y Hy.
    apply string_ltb_leb. split; [by apply Hx|]. by intros ->.
  - intros o. rewrite Hperm. rewrite list_elem_of_fmap. split.
    + intros ([k d] & -> & Hin). apply elem_of_map_to_list in Hin. eauto.
    + intros [d Hd]. exists (o, d). split; [done|].
      by apply elem_of_map_to_list.
Qed.

(** X21.  [thermoCal] returns one row for each name of the dictionary:
    as many rows as names, the names of the rows are the names of the
    dictionary, in strictly increasing order (as strings), and the row
    of a name is what [thermoCal0] returns for its duplex. *)
Theorem thermoCal_rows (self : Thermo) (oligo : gmap string string)
    (verbose : Z) (rows : list (string * (string * list R))) :
  thermoCal self oligo verbose = Ok rows →
  StronglySorted (fun a b => String.ltb a b = true) (map fst rows)
  ∧ length rows = size oligo
  ∧ (∀ o, is_Some (oligo !! o) ↔ o ∈ map fst rows)
  ∧ ∀ o out, (o, out) ∈ rows
      ↔ ∃ duplex, oligo !! o = Some duplex
                  ∧ thermoCal0 self duplex verbose = Ok out.
Proof.
  intros H. unfold thermoCal in H.
  destruct (thermoCal_order oligo) as (Hs & Hnd & Hkeys).
  apply thermoCal_loop in H as (new & -> & Hnew). simpl.
  assert (Hfst : map fst new
                 = sorted String.leb (map fst (map_to_list oligo))).
  { clear Hs Hnd Hkeys. induction Hnew as [|o row l k [Ho _] _ IH]; [done|].
    simpl. by rewrite Ho, IH. }
  split; [by rewrite Hfst|]. split; [|split].
  - rewrite <- (length_map fst new), Hfst.
    rewrite (Permutation_length
               (sorted_perm String.leb (map fst (map_to_list oligo)))).
    by rewrite length_map, length_map_to_list.
  - intros o. rewrite Hfst. symmetry. apply Hkeys.
  - intros o out. split.
    + intros Hin. apply list_elem_of_lookup_1 in Hin as [i Hi].
      destruct (Forall2_lookup_r _ _ _ _ _ Hnew Hi)
        as (o' & _ & Ho & d & Hd & Hout).
      simpl in Ho, Hout. subst o'. by exists d.
    + intros (d & Hd & Hout).
      assert (Hin : o ∈ sorted String.leb (map fst (map_to_list oligo)))
        by (apply Hkeys; eauto).
      apply list_elem_of_lookup_1 in Hin as [i Hi].
      destruct (Forall2_lookup_l _ _ _ _ _ Hnew Hi)
        as ([o' out'] & Hrow & Ho & d' & Hd' & Hout').
      simpl in Ho, Hout'. subst o'.
      rewrite Hd in Hd'. injection Hd' as <-.
      rewrite Hout in Hout'. injection Hout' as <-.
      by eapply list_elem_of_lookup_2.
Qed.

Lemma thermoCal_two self oligo verbose a b da db outa outb :
  sorted String.leb (map fst (map_to_list oligo)) = [a; b] →
  oligo !! a = Some da → oligo !! b = Some db →
  thermoCal0 self da verbose = Ok outa →
  thermoCal0 self db verbose = Ok outb →
  thermoCal self oligo verbose = Ok [(a, outa); (b, outb)].
Proof.
  intros Ek Ha Hb Hoa Hob. unfold thermoCal. rewrite Ek. simpl.
  unfold thermoCal_item. rewrite Ha. simpl. rewrite Hoa. simpl.
  rewrite Hb. simpl. by rewrite Hob.
Qed.

(** The witness of [thermoCal_rows]: a dictionary in which the name
    "b" was entered before the name "a"; the row of "a" comes first. *)
Lemma thermoCal_rows_witness :
  ∃ Tm,
    let oligo : gmap string string :=
      <["a" := "GAATTC/CTTAAG"]> {["b" := "GAATTC/CTTAAG"]} in
    let rows := [("a", ("GAATTC/CTTAAG", [Tm]));
                 ("b", ("GAATTC/CTTAAG", [Tm]))] in
    thermoCal sample_self oligo 0 = Ok rows
    ∧ StronglySorted (fun a b => String.ltb a b = true) (map fst rows)
    ∧ length rows = size oligo
    ∧ (∀ o, is_Some (oligo !! o) ↔ o ∈ map fst rows)
    ∧ ∀ o out, (o, out) ∈ rows
        ↔ ∃ duplex, oligo !! o = Some duplex
                    ∧ thermoCal0 sample_self duplex 0 = Ok out.
Proof.
  destruct sample_self_returns as [Tm H0]. exists Tm. intros oligo rows.
  assert (H : thermoCal sample_self oligo 0 = Ok rows).
  { apply thermoCal_two with (da := "GAATTC/CTTAAG")
                             (db := "GAATTC/CTTAAG");
      [by_vm|by_vm|by_vm|exact H0|exact H0]. }
  split; [exact H|].
  exact (thermoCal_rows sample_self oligo 0 rows H).
Defined.

(** X22.  [thermoCal] gives no partial result: the first name, in the
    order of the names, whose duplex [thermoCal0] turns down ends the
    whole call with the exception of that duplex. *)
Theorem thermoCal_first_failure (self : Thermo) (oligo : gmap string string)
    (verbose : Z) (o duplex : string) (x : exn) :
  oligo !! o = Some duplex →
  thermoCal0 self duplex verbose = Raise x →
  (∀ o' duplex', oligo !! o' = Some duplex' → String.ltb o' o = true →
     ∃ out, thermoCal0 self duplex' verbose = Ok out) →
  thermoCal self oligo verbose = Raise x.
Proof.
  intros Hd Hx Hbefore. unfold thermoCal.
  destruct (thermoCal_order oligo) as (Hs & Hnd & Hkeys). simpl in *.
  assert (Hin : o ∈ sorted String.leb (map fst (map_to_list oligo)))
    by (apply Hkeys; eauto).
  apply list_elem_of_split in Hin as (l1 & l2 & E).
  rewrite E in Hs, Hkeys |- *.
  apply StronglySorted_before in Hs. rewrite Forall_forall in Hs.
  rewrite for_each_app.
  destruct (for_each_Ok_all l1 (thermoCal_item self oligo verbose))
    with (s := @nil (string * (string * list R))) as [acc ->].
  { intros acc o' Ho'. unfold thermoCal_item.
    destruct (proj1 (Hkeys o')) as [d' Hd'].
    { apply elem_of_app. by left. }
    rewrite Hd'. destruct (Hbefore o' d' Hd' (Hs o' Ho')) as [out ->].
    simpl. eauto. }
  simpl. unfold thermoCal_item at 1. by rewrite Hd, Hx.
Qed.

Lemma thermoCal_first_failure_witness :
  thermoCal sample_self {["a" := "GAATTC/CTTAAG"; "b" := "GAATTC"]} 0
  = Raise IndexError.
Proof.
  destruct sample_self_returns as [Tm H].
  apply (thermoCal_first_failure sample_self _ 0 "b" "GAATTC").
  - reflexivity.
  - unfold thermoCal0.
    assert (E : _get_dHdS (_nndH sample_self) (_nndS sample_self) "GAATTC"
                = Raise IndexError) by reflexivity.
    by rewrite E.
  - intros o' d' Hd' Hlt.
    destruct (decide (o' = "a")) as [->|Ha].
    + rewrite lookup_insert_eq in Hd'. injection Hd' as <-. eauto.
    + rewrite lookup_insert_ne in Hd' by done.
      destruct (decide (o' = "b")) as [->|Hb]; [discriminate|].
      by rewrite lookup_singleton_ne in Hd'.
Defined.

(** ** The lines [_readNN] needs and the entries it makes *)

Section LoaderBlocks.

Context {V : Type}.
Variable zero : V.
Variable py_float : string → option V.

(** A block that is read has its six lines. *)
Lemma _readNN_block_lines ls st st' :
  _readNN_block zero py_float ls st = Ok st' →
  (st.1 + 6 ≤ length ls)%nat.
Proof.
  intros H. apply _readNN_block_Ok in H as (line & st1 & _ & H & _).
  change (range 0 5) with ([0; 1; 2; 3] ++ [4])%nat%list in H.
  rewrite for_each_app in H. apply bind_Ok in H as (s4 & H4 & H).
  apply _readNN_rows_index in H4. simpl in H4, H.
  apply bind_Ok in H as (s5 & H5 & _).
  apply _readNN_row_Ok in H5 as (row & Hrow & _).
  apply lookup_lt_Some in Hrow. lia.
Qed.

Lemma _readNN_while_blocks fuel ls st NN :
  _readNN_while zero py_float fuel ls st = Ok NN →
  (st.1 ≤ length ls)%nat →
  ∃ n, length ls = (st.1 + 6 * n)%nat.
Proof.
  revert st. induction fuel as [|fuel IH]; intros st; simpl.
  - destruct (st.1 <? length ls)%nat eqn:E; [done|].
    intros _ Hle. apply Nat.ltb_ge in E. exists 0%nat. lia.
  - destruct (st.1 <? length ls)%nat eqn:E.
    + intros H _. apply bind_Ok in H as (st' & Hb & H).
      pose proof (_readNN_block_lines _ _ _ Hb) as Hl.
      apply _readNN_block_index in Hb.
      destruct (IH _ H) as [n Hn]; [lia|]. exists (S n). lia.
    + intros _ Hle. apply Nat.ltb_ge in E. exists 0%nat. lia.
Qed.

Lemma for_each_invariant_in {A S : Type} (P : S → Prop)
    (xs : list A) (body : S → A → result S) :
  (∀ s x s', x ∈ xs → P s → body s x = Ok s' → P s') →
  ∀ s s', P s → for_each xs body s = Ok s' → P s'.
Proof.
  induction xs as [|x xs IH]; simpl; intros Hbody s s' Hs H.
  - by injection H as <-.
  - destruct (body s x) as [s1| |] eqn:E; simpl in H; try discriminate.
    eapply IH; [|eapply Hbody; [by left|exact Hs|exact E]|exact H].
    intros s0 y s0' Hy. apply Hbody. by right.
Qed.

Lemma _readNN_cell_sound ls index i j header row NN NN' :
  ls !! index = Some header → ls !! (index + i)%nat = Some row →
  (index mod 6 = 0)%nat → (1 ≤ i ≤ 5)%nat → (1 ≤ j ≤ 5)%nat →
  _readNN_cell zero py_float (Str.re_split_tab_comma row)
    (Str.re_split_tab_comma header) NN j = Ok NN' →
  (∀ key v, NN !! key = Some v → from_cell zero py_float ls key v) →
  ∀ key v, NN' !! key = Some v → from_cell zero py_float ls key v.
Proof.
  intros Hh Hr Hm Hi Hj H HNN key v Hkey.
  apply _readNN_cell_Ok in H as (tj & value & t0 & bj & Htj & Ht0 & Hbj
                                 & Hval & ->).
  assert (Hcell : cell_value zero py_float tj = Some value).
  { unfold cell_value. destruct (0 <? String.length tj)%nat; congruence. }
  assert (Hkeys : block_keys ls index i j
                  = Some (t0 +:+ "/" +:+ bj,
                          Str.reversed (t0 +:+ "/" +:+ bj))).
  { unfold block_keys. rewrite Hh, Hr. simpl. rewrite Ht0, Hbj. simpl.
    by rewrite reversed_key. }
  destruct (decide (key = Str.reversed (t0 +:+ "/" +:+ bj))) as [->|Hne1].
  { rewrite lookup_insert_eq in Hkey. injection Hkey as <-.
    exists index, i, j, (t0 +:+ "/" +:+ bj),
      (Str.reversed (t0 +:+ "/" +:+ bj)), row, tj.
    repeat split; try done; try lia. by right. }
  rewrite lookup_insert_ne in Hkey by done.
  destruct (decide (key = t0 +:+ "/" +:+ bj)) as [->|Hne2].
  { rewrite lookup_insert_eq in Hkey. injection Hkey as <-.
    exists index, i, j, (t0 +:+ "/" +:+ bj),
      (Str.reversed (t0 +:+ "/" +:+ bj)), row, tj.
    repeat split; try done; try lia. by left. }
  rewrite lookup_insert_ne in Hkey by done. by apply HNN.
Qed.

Lemma _readNN_rows_sound ls index header xs s s' :
  ls !! index = Some header → (index mod 6 = 0)%nat →
  (index ≤ s.1)%nat → (s.1 + length xs ≤ index + 5)%nat →
  for_each xs (_readNN_row zero py_float ls
                 (Str.re_split_tab_comma header)) s = Ok s' →
  (∀ key v, s.2 !! key = Some v → from_cell zero py_float ls key v) →
  ∀ key v, s'.2 !! key = Some v → from_cell zero py_float ls key v.
Proof.
  intros Hh Hm. revert s.
  induction xs as [|x xs IH]; simpl; intros s Hlo Hhi H Hs.
  - by injection H as <-.
  - apply bind_Ok in H as (s1 & H1 & H).
    apply _readNN_row_Ok in H1 as (row & Hrow & E1 & Hcells).
    apply (IH s1); [lia|lia|done|].
    revert Hcells.
    apply (for_each_invariant_in
             (fun NN : gmap string V =>
                ∀ key v, NN !! key = Some v
                         → from_cell zero py_float ls key v)); [|done].
    intros NN j NN' Hj HNN Hcell.
    apply list_elem_of_In, in_seq in Hj.
    apply (_readNN_cell_sound ls index (s.1 + 1 - index) j header row NN NN');
      try done; try lia.
    by replace (index + (s.1 + 1 - index))%nat with (s.1 + 1)%nat by lia.
Qed.

Lemma _readNN_while_sound fuel ls st NN :
  (st.1 mod 6 = 0)%nat →
  (∀ key v, st.2 !! key = Some v → from_cell zero py_float ls key v) →
  _readNN_while zero py_float fuel ls st = Ok NN →
  ∀ key v, NN !! key = Some v → from_cell zero py_float ls key v.
Proof.
  revert st. induction fuel as [|fuel IH]; intros st Hm Hst; simpl.
  - destruct (st.1 <? length ls)%nat; [done|]. by intros [= <-].
  - destruct (st.1 <? length ls)%nat; [|by intros [= <-]].
    intros H. apply bind_Ok in H as (st' & Hb & H).
    pose proof (_readNN_block_index _ _ _ _ _ Hb) as Hidx.
    apply (IH st'); [| |done].
    + rewrite Hidx. rewrite <- Nat.Div0.add_mod_idemp_l, Hm. done.
    + apply _readNN_block_Ok in Hb as (header & st1 & Hh & Hrows & ->).
      simpl. by apply (_readNN_rows_sound ls st.1 header (range 0 5) st st1).
Qed.

End LoaderBlocks.

(** X23.  [_readNN] returns only for a file whose lines, blank and
    comment lines apart, come in whole blocks of six; an empty file is
    such a file, and gives the empty table. *)
Theorem readNN_whole_blocks {V : Type} (zero : V)
    (py_float : string → option V) (ls : list string) :
  (∀ NN, _readNN_lines zero py_float ls = Ok NN →
         ∃ n, length ls = (6 * n)%nat)
  ∧ _readNN_lines zero py_float [] = Ok ∅.
Proof.
  split; [|done]. intros NN H. unfold _readNN_lines in H.
  apply _readNN_while_blocks in H as [n Hn]; [|simpl; lia].
  exists n. simpl in Hn. lia.
Qed.

Lemma readNN_whole_blocks_witness :
  (∃ n, length sample_nnSH = (6 * n)%nat)
  ∧ _readNN_lines 0.0 decimal_float [] = Ok ∅.
Proof.
  destruct (readNN_whole_blocks 0.0 decimal_float sample_nnSH) as [H1 H2].
  split; [|exact H2].
  apply (H1 sample_nndH). by_vm.
Defined.

(** X24.  The table [_readNN] returns holds nothing but the cells of
    the file: every entry has the forward or the mirror key of a cell of
    row 1 to 5 and column 1 to 5 of a block of six lines, and the value
    of that cell (0.0 for a blank one). *)
Theorem readNN_entries_from_cells {V : Type} (zero : V)
    (py_float : string → option V) (ls : list string) (NN : gmap string V)
    (key : string) (v : V) :
  _readNN_lines zero py_float ls = Ok NN →
  NN !! key = Some v →
  from_cell zero py_float ls key v.
Proof.
  intros H. unfold _readNN_lines in H.
  apply (_readNN_while_sound zero py_float (length ls) ls (0%nat, ∅) NN).
  - reflexivity.
  - intros k x Hk. simpl in Hk. by rewrite lookup_empty in Hk.
  - exact H.
Qed.

Lemma readNN_entries_from_cells_witness :
  from_cell 0.0 decimal_float sample_nnSH "TT/AA" (-7.9).
Proof.
  apply (readNN_entries_from_cells 0.0 decimal_float sample_nnSH
           sample_nndH); by_vm.
Defined.

(** ** A duplex read from its other strand *)

Lemma sum_R_app (l1 l2 : list R) : sum_R (l1 ++ l2) = sum_R l1 + sum_R l2.
Proof.
  induction l1 as [|x l1 IH]; simpl; [lra|]. rewrite IH. lra.
Qed.

Lemma sum_R_rev (l : list R) : sum_R (rev l) = sum_R l.
Proof.
  induction l as [|x l IH]; simpl; [done|].
  rewrite sum_R_app, IH. simpl. lra.
Qed.

Lemma rev_lookup {A : Type} (l : list A) (i : nat) :
  (i < length l)%nat → rev l !! i = l !! (length l - S i)%nat.
Proof.
  intros Hi. rewrite rev_alt. change (rev_append l []) with (reverse l).
  by apply reverse_lookup.
Qed.

Lemma rev_head_last {A : Type} (l : list A) : rev l !! 0%nat = last l.
Proof.
  destruct l as [|x l] using rev_ind; [done|].
  by rewrite rev_unit, last_snoc.
Qed.

Lemma rev_last_head {A : Type} (l : list A) : last (rev l) = l !! 0%nat.
Proof. by rewrite <- rev_head_last, rev_involutive. Qed.

Lemma reversed_chars (s : string) :
  list_ascii_of_string (Str.reversed s) = rev (list_ascii_of_string s).
Proof. apply list_ascii_of_string_of_list_ascii. Qed.

Lemma not_GC_CG_swap (t b : ascii) : not_GC_CG t b = not_GC_CG b t.
Proof.
  apply eq_true_iff_eq. rewrite !not_GC_CG_true.
  split; intros [H1 H2]; split; congruence.
Qed.

(** The loop of [_get_dHdS] returns the sums of the values of its
    steps when every step has them. *)
Lemma _get_dHdS_loop_returns nndH nndS top bottom steps hs ss acc :
  nn_values nndH top bottom steps hs → nn_values nndS top bottom steps ss →
  ∃ acc', for_each steps (_get_dHdS_step nndH nndS top bottom) acc = Ok acc'
          ∧ acc'.1 = acc.1 + sum_R hs ∧ acc'.2 = acc.2 + sum_R ss.
Proof.
  unfold nn_values. intros HH. revert ss acc.
  induction HH as [|b h steps hs (nn & Hnn & Hh) HH IH]; intros ss acc HS.
  - apply Forall2_nil_inv_l in HS as ->. exists acc. simpl.
    split; [done|]. split; lra.
  - apply Forall2_cons_inv_l in HS as (s & ss' & (nn' & Hnn' & Hs) & HS & ->).
    rewrite Hnn in Hnn'. injection Hnn' as <-.
    simpl. rewrite (_get_dHdS_step_returns _ _ _ _ _ _ nn h s) by done.
    simpl.
    destruct (IH ss' (acc.1 + h, acc.2 + s) HS) as (acc' & -> & E1 & E2).
    exists acc'. split; [done|]. simpl in *. split; lra.
Qed.

(** The converse of [_get_dHdS_Ok]. *)
Lemma _get_dHdS_value nndH nndS pair top bottom t0 b0 tn bn hs ss :
  not_DNA (Str.upper pair) = false →
  Str.split "/" (Str.upper pair) !! 0%nat = Some top →
  Str.split "/" (Str.upper pair) !! 1%nat = Some bottom →
  String.length top = String.length bottom →
  list_ascii_of_string top !! 0%nat = Some t0 →
  list_ascii_of_string bottom !! 0%nat = Some b0 →
  last (list_ascii_of_string top) = Some tn →
  last (list_ascii_of_string bottom) = Some bn →
  nn_values nndH (list_ascii_of_string top) (list_ascii_of_string bottom)
    (range 0 (String.length top - 1)) hs →
  nn_values nndS (list_ascii_of_string top) (list_ascii_of_string bottom)
    (range 0 (String.length top - 1)) ss →
  ∃ dH dS,
    _get_dHdS nndH nndS pair = Ok (dH, dS)
    ∧ dH = 0.2 + sum_R hs + terminal_dH t0 b0 + terminal_dH tn bn
    ∧ dS = -5.7 + sum_R ss + symmetry_dS top
           + terminal_dS t0 b0 + terminal_dS tn bn.
Proof.
  intros Hdna Htop Hbot Hlen Ht0 Hb0 Htn Hbn HH HS.
  rewrite (_get_dHdS_checked _ _ _ top bottom) by done.
  destruct (_get_dHdS_loop_returns _ _ _ _ _ _ _ (0.2, -5.7) HH HS)
    as (acc & -> & E1 & E2). simpl.
  unfold index, index_last. rewrite Ht0, Hb0, Htn, Hbn. simpl.
  rewrite !terminal_AT_sum. simpl. eexists _, _. split; [reflexivity|].
  rewrite E1, E2. simpl. unfold symmetry_dS.
  split; [lra|]. destruct (String.eqb top (seqRC top)); lra.
Qed.

Lemma nn_at_flip (t b : list ascii) (i : nat) (nn : string) :
  length t = length b → nn_at t b i = Some nn →
  nn_at (rev b) (rev t) (length t - 2 - i) = Some (Str.reversed nn).
Proof.
  intros Hlen H. unfold nn_at in H.
  destruct (t !! i) as [x|] eqn:Hx; [|done]. simpl in H.
  destruct (t !! (i + 1)%nat) as [y|] eqn:Hy; [|done]. simpl in H.
  destruct (b !! i) as [z|] eqn:Hz; [|done]. simpl in H.
  destruct (b !! (i + 1)%nat) as [w|] eqn:Hw; [|done]. simpl in H.
  injection H as <-.
  pose proof (lookup_lt_Some _ _ _ Hy) as Hi.
  unfold nn_at. rewrite !rev_lookup by lia.
  replace (length b - S (length t - 2 - i))%nat with (i + 1)%nat by lia.
  replace (length b - S (length t - 2 - i + 1))%nat with i by lia.
  replace (length t - S (length t - 2 - i))%nat with (i + 1)%nat by lia.
  replace (length t - S (length t - 2 - i + 1))%nat with i by lia.
  by rewrite Hx, Hy, Hz, Hw.
Qed.

Lemma nn_values_flip (table : gmap string R) (t b : list ascii)
    (vs : list R) :
  mirror_closed table → length t = length b →
  nn_values table t b (seq 0 (length t - 1)) vs →
  nn_values table (rev b) (rev t) (seq 0 (length t - 1)) (rev vs).
Proof.
  intros Hm Hlen H. unfold nn_values in *.
  pose proof (Forall2_length _ _ _ H) as Hl. rewrite length_seq in Hl.
  apply Forall2_same_length_lookup. split.
  { by rewrite length_rev, length_seq. }
  intros i x y Hx Hy.
  apply lookup_seq in Hx as [-> Hi]. simpl.
  rewrite rev_lookup in Hy by lia.
  assert (Hs : seq 0 (length t - 1) !! (length vs - S i)%nat
               = Some (length vs - S i)%nat) by (apply lookup_seq; lia).
  destruct (Forall2_lookup_lr _ _ _ _ _ _ H Hs Hy) as (nn & Hnn & Hv).
  exists (Str.reversed nn). split; [|by apply Hm].
  apply nn_at_flip in Hnn; [|done].
  by replace (length t - 2 - (length vs - S i))%nat with i in Hnn by lia.
Qed.

Lemma upper_DNA (s : string) : not_DNA s = false → Str.upper s = s.
Proof.
  intros H. apply chars_inj. unfold Str.upper, Str.translate.
  rewrite list_ascii_of_string_of_list_ascii. apply map_id_iff.
  intros c Hc. apply (proj1 (not_DNA_false s) H) in Hc.
  rewrite !elem_of_cons, elem_of_nil in Hc.
  by destruct Hc as [->|[->|[->|[->|[->|[]]]]]].
Qed.

Lemma split_two (sep : ascii) (a b : string) :
  forallb (fun c => negb (Ascii.eqb sep c)) (list_ascii_of_string a) = true →
  forallb (fun c => negb (Ascii.eqb sep c)) (list_ascii_of_string b) = true →
  Str.split sep (a +:+ String sep b) = [a; b].
Proof.
  intros Ha Hb. unfold Str.split.
  rewrite list_ascii_of_string_app. simpl.
  rewrite split_chars_first by (done || apply Ascii.eqb_refl).
  rewrite split_chars_no_sep by done. simpl.
  by rewrite !string_of_list_ascii_of_string.
Qed.

Lemma split_piece_DNA (s p : string) (c : ascii) :
  not_DNA s = false → p ∈ Str.split "/" s → c ∈ list_ascii_of_string p →
  c ∈ ["A"; "C"; "G"; "T"]%char.
Proof.
  intros Hdna Hp Hc.
  destruct (split_chars_elem _ _ _ _ _ Hp Hc) as [H|[H1 H2]];
    [by apply elem_of_nil in H|].
  apply (proj1 (not_DNA_false _) Hdna) in H1.
  apply Ascii.eqb_neq in H2.
  rewrite !elem_of_cons, elem_of_nil in H1. rewrite !elem_of_cons.
  destruct H1 as [->|[->|[->|[->|[->|[]]]]]]; tauto.
Qed.

Lemma DNA_no_slash (l : list ascii) :
  (∀ c, c ∈ l → c ∈ ["A"; "C"; "G"; "T"]%char) →
  forallb (fun c => negb (Ascii.eqb "/" c)) l = true.
Proof.
  intros H. apply forallb_forall. intros c Hc.
  apply list_elem_of_In, H in Hc.
  rewrite !elem_of_cons, elem_of_nil in Hc.
  by destruct Hc as [->|[->|[->|[->|[]]]]].
Qed.

(** X25.  With tables closed under mirroring, as [_readNN] builds
    them, a duplex gets the same enthalpy read from either strand:
    [_get_dHdS] returns for "reverse(bottom)/reverse(top)" when it
    returns for "top/bottom", with the same dH, and with the same dS up
    to the symmetry correction, which is decided by the strand that
    comes first. *)
Theorem get_dHdS_strand_flip (nndH nndS : gmap string R)
    (pair top bottom : string) (dH dS : R) :
  mirror_closed nndH → mirror_closed nndS →
  Str.split "/" (Str.upper pair) !! 0%nat = Some top →
  Str.split "/" (Str.upper pair) !! 1%nat = Some bottom →
  _get_dHdS nndH nndS pair = Ok (dH, dS) →
  ∃ dH' dS',
    _get_dHdS nndH nndS (seqRev bottom +:+ "/" +:+ seqRev top)
    = Ok (dH', dS')
    ∧ dH' = dH
    ∧ dS' - symmetry_dS (seqRev bottom) = dS - symmetry_dS top.
Proof.
  intros Hm1 Hm2 Htop Hbot H.
  apply _get_dHdS_Ok in H
    as (top' & bottom' & t0 & b0 & tn & bn & hs & ss & Hdna & Htop' & Hbot'
        & Hlen & Ht0 & Hb0 & Htn & Hbn & HH & HS & -> & ->).
  rewrite Htop in Htop'. injection Htop' as <-.
  rewrite Hbot in Hbot'. injection Hbot' as <-.
  assert (Htc : ∀ c, c ∈ list_ascii_of_string top
                     → c ∈ ["A"; "C"; "G"; "T"]%char).
  { intros c. apply (split_piece_DNA _ top c Hdna).
    by eapply list_elem_of_lookup_2. }
  assert (Hbc : ∀ c, c ∈ list_ascii_of_string bottom
                     → c ∈ ["A"; "C"; "G"; "T"]%char).
  { intros c. apply (split_piece_DNA _ bottom c Hdna).
    by eapply list_elem_of_lookup_2. }
  unfold seqRev.
  set (pair' := Str.reversed bottom +:+ "/" +:+ Str.reversed top).
  assert (Hdna' : not_DNA pair' = false).
  { apply not_DNA_false. intros c. unfold pair'.
    rewrite !list_ascii_of_string_app, !reversed_chars. simpl.
    rewrite elem_of_app, elem_of_cons.
    intros [Hc|[->|Hc]].
    - apply list_elem_of_In, in_rev, list_elem_of_In, Hbc in Hc.
      rewrite !elem_of_cons in Hc. rewrite !elem_of_cons. tauto.
    - rewrite !elem_of_cons. tauto.
    - apply list_elem_of_In, in_rev, list_elem_of_In, Htc in Hc.
      rewrite !elem_of_cons in Hc. rewrite !elem_of_cons. tauto. }
  assert (Hup : Str.upper pair' = pair') by by apply upper_DNA.
  assert (Hsplit : Str.split "/" pair'
                   = [Str.reversed bottom; Str.reversed top]).
  { apply split_two; rewrite reversed_chars; apply DNA_no_slash;
      intros c Hc; [apply Hbc|apply Htc];
      by apply list_elem_of_In, in_rev, list_elem_of_In. }
  assert (Hlr : ∀ s, String.length (Str.reversed s) = String.length s).
  { intros s. by rewrite <- !length_chars, reversed_chars, length_rev. }
  destruct (_get_dHdS_value nndH nndS pair' (Str.reversed bottom)
              (Str.reversed top) bn tn b0 t0 (rev hs) (rev ss))
    as (dH' & dS' & Hret & EH & ES).
  - by rewrite Hup.
  - by rewrite Hup, Hsplit.
  - by rewrite Hup, Hsplit.
  - by rewrite !Hlr.
  - by rewrite reversed_chars, rev_head_last.
  - by rewrite reversed_chars, rev_head_last.
  - by rewrite reversed_chars, rev_last_head.
  - by rewrite reversed_chars, rev_last_head.
  - rewrite !reversed_chars, Hlr, <- Hlen. unfold range in *.
    rewrite Nat.sub_0_r in *. rewrite <- length_chars in *.
    apply nn_values_flip; [done|by rewrite Hlen, length_chars|done].
  - rewrite !reversed_chars, Hlr, <- Hlen. unfold range in *.
    rewrite Nat.sub_0_r in *. rewrite <- length_chars in *.
    apply nn_values_flip; [done|by rewrite Hlen, length_chars|done].
  - exists dH', dS'. split; [done|].
    rewrite EH, ES, !sum_R_rev.
    unfold terminal_dH, terminal_dS.
    rewrite (not_GC_CG_swap bn tn), (not_GC_CG_swap b0 t0).
    split; lra.
Qed.

Lemma sample_tables_mirror_closed :
  mirror_closed sample_nndH ∧ mirror_closed sample_nndS.
Proof.
  split.
  - apply (_readNN_while_mirror 0.0 decimal_float (length sample_nnSH)
             sample_nnSH (0%nat, ∅)); [apply mirror_closed_empty|by_vm].
  - apply (_readNN_while_mirror 0.0 decimal_float (length sample_nnSS)
             sample_nnSS (0%nat, ∅)); [apply mirror_closed_empty|by_vm].
Qed.

Lemma get_dHdS_strand_flip_witness :
  let r := value_of (0, 0) (_get_dHdS sample_nndH sample_nndS "GAA/CTT") in
  ∃ dH' dS',
    _get_dHdS sample_nndH sample_nndS "TTC/AAG" = Ok (dH', dS')
    ∧ dH' = r.1
    ∧ dS' - symmetry_dS "TTC" = r.2 - symmetry_dS "GAA".
Proof.
  intros r.
  assert (H : _get_dHdS sample_nndH sample_nndS "GAA/CTT" = Ok (r.1, r.2))
    by by_vm.
  destruct sample_tables_mirror_closed as [H1 H2].
  exact (get_dHdS_strand_flip sample_nndH sample_nndS "GAA/CTT" "GAA" "CTT"
           r.1 r.2 H1 H2 eq_refl eq_refl H).
Defined.

(** ** From a single strand to its thermodynamics *)








(** ** The melting temperature under valid conditions *)

Lemma _get_dHdS_fuel nndH nndS pair :
  _get_dHdS nndH nndS pair ≠ OutOfFuel.
Proof.
  unfold _get_dHdS. cbv zeta.
  destruct (not_DNA _); [done|].
  apply bind_fuel; [apply index_fuel|intros t].
  apply bind_fuel; [apply index_fuel|intros b].
  destruct (negb _); [done|].
  apply bind_fuel.
  { apply for_each_fuel. intros s i. unfold _get_dHdS_step.
    do 4 (apply bind_fuel; [apply index_fuel|intros ?]).
    cbv zeta.
    match goal with |- context [nndH !! ?k] =>
      by destruct (nndH !! k), (nndS !! k) end. }
  intros acc.
  do 2 (apply bind_fuel; [apply index_fuel|intros ?]).
  unfold index_last.
  do 2 (apply bind_fuel; [by destruct (last _)|intros ?]).
  done.
Qed.

(** X27.  For an object the constructor has built from a positive
    template concentration, a divalent salt concentration that is not
    negative and a positive monovalent one, [thermoCal0] fails on a
    duplex only as [_get_dHdS] does, or with a [ZeroDivisionError] when
    the denominator of the Tm is 0; otherwise it returns the Tm. *)
Theorem thermoCal0_valid_conditions (py_float : string → option R)
    (w : World) (temper cp ct na mg : R) (tr : list event) (self : Thermo)
    (pair : string) :
  __init__ py_float w temper cp ct na mg = (tr, Ok self) →
  0 < ct → 0 < na → 0 <= mg →
  let D dS :=
    dS + 0.368 * ((INR (String.length pair) - 1) / 2 - 1)
         * ln (_na self + 0.12 * sqrt (_mg self * 1000))
    - _R_ * ln (1 / (_cp self - _ct self / 2)) in
  match _get_dHdS (_nndH self) (_nndS self) pair with
  | Ok (dH, dS) =>
      (D dS = 0 → thermoCal0 self pair 0 = Raise ZeroDivisionError)
      ∧ (D dS ≠ 0 →
         thermoCal0 self pair 0 = Ok (pair, [dH * 1000 / D dS - 273.15]))
  | Raise x => thermoCal0 self pair 0 = Raise x
  | OutOfFuel => False
  end.
Proof.
  intros Hinit Hct Hna Hmg D.
  apply init_inv in Hinit
    as (_ & _ & Hle & _ & _ & Ecp & Ect & _ & Ena & Emg & _).
  assert (Hmg' : 0 <= _mg self * 1000) by (rewrite Emg; lra).
  assert (Hna' : 0 < _na self + 0.12 * sqrt (_mg self * 1000)).
  { pose proof (sqrt_pos (_mg self * 1000)). rewrite Ena. lra. }
  assert (Hc : _cp self - _ct self / 2 ≠ 0) by (rewrite Ecp, Ect; lra).
  assert (Hk : 0 < 1 / (_cp self - _ct self / 2)).
  { unfold Rdiv. rewrite Rmult_1_l. apply Rinv_0_lt_compat.
    rewrite Ecp, Ect. lra. }
  destruct (_get_dHdS (_nndH self) (_nndS self) pair)
    as [[dH dS]|x|] eqn:Hg.
  - split; intros HD.
    + unfold thermoCal0. rewrite Hg. simpl.
      rewrite math_sqrt_Ok by done. simpl.
      rewrite math_log_Ok by done. simpl.
      rewrite py_div_Ok by done. simpl.
      rewrite math_log_Ok by done. simpl.
      unfold py_div. fold (D dS).
      by destruct (Req_dec_T (D dS) 0).
    + by apply thermoCal0_returns.
  - unfold thermoCal0. by rewrite Hg.
  - by apply _get_dHdS_fuel in Hg.
Qed.

Lemma thermoCal0_valid_conditions_witness :
  thermoCal0 sample_self "GAATTC" 0 = Raise IndexError.
Proof.
  pose proof (thermoCal0_valid_conditions decimal_float sample_world
                _temper_ _cp_ _ct_ _na_ _mg_ _ sample_self "GAATTC"
                sample_self_init) as H.
  assert (E : _get_dHdS (_nndH sample_self) (_nndS sample_self) "GAATTC"
              = Raise IndexError) by reflexivity.
  cbv zeta in H. rewrite E in H.
  apply H; [unfold _ct_|unfold _na_|unfold _mg_]; lra.
Defined.

(** X28.  More monovalent salt gives a higher Tm: of two objects that
    differ in the monovalent salt concentration only, the one with more
    salt reports the higher Tm for a duplex with a negative enthalpy and
    more than one base pair, as long as that Tm is above absolute
    zero. *)
Theorem thermoCal0_salt_raises_Tm (self : Thermo) (na2 : R) (pair : string)
    (dH dS Tm1 Tm2 : R) :
  let self2 := {| _temper := _temper self; _cp := _cp self;
                  _ct := _ct self; _na := na2; _mg := _mg self;
                  _nndH := _nndH self; _nndS := _nndS self |} in
  _na self < na2 →
  (3 < String.length pair)%nat →
  _get_dHdS (_nndH self) (_nndS self) pair = Ok (dH, dS) → dH < 0 →
  thermoCal0 self pair 0 = Ok (pair, [Tm1]) →
  thermoCal0 self2 pair 0 = Ok (pair, [Tm2]) →
  -273.15 < Tm2 →
  Tm1 < Tm2.
Proof.
  intros self2 Hna Hlen Hg HdH H1 H2 Habs.
  apply thermoCal0_Tm_inv in H1
    as (dH1 & dS1 & r1 & Hg1 & _ & Hna1 & _ & _ & HD1 & E1).
  apply thermoCal0_Tm_inv in H2
    as (dH2 & dS2 & r2 & Hg2 & _ & Hna2 & _ & _ & HD2 & E2).
  simpl in Hg2, Hna2, HD2, E2.
  rewrite Hg in Hg1, Hg2.
  injection Hg1 as <- <-. injection Hg2 as <- <-.
  injection E1 as -> _. injection E2 as -> _.
  set (n := (INR (String.length pair) - 1) / 2 - 1) in *.
  set (L1 := ln (_na self + 0.12 * sqrt (_mg self * 1000))) in *.
  set (L2 := ln (na2 + 0.12 * sqrt (_mg self * 1000))) in *.
  set (K := _R_ * ln (1 / (_cp self - _ct self / 2))) in *.
  assert (Hn : 0 < n).
  { apply lt_INR in Hlen. simpl in Hlen. unfold n. lra. }
  assert (HL : L1 < L2) by (apply ln_increasing; lra).
  assert (HDlt : dS + 0.368 * n * L1 - K < dS + 0.368 * n * L2 - K) by nra.
  set (D1 := dS + 0.368 * n * L1 - K) in *.
  set (D2 := dS + 0.368 * n * L2 - K) in *.
  assert (HD2neg : D2 < 0).
  { destruct (Rtotal_order D2 0) as [?|[?|Hpos]]; [done|done|].
    exfalso. assert (0 < / D2) by by apply Rinv_0_lt_compat.
    unfold Rdiv in Habs. nra. }
  assert (Hi1 : 0 < / - D1) by (apply Rinv_0_lt_compat; lra).
  assert (Hi2 : 0 < / - D2) by (apply Rinv_0_lt_compat; lra).
  assert (Hinv : / - D2 > / - D1).
  { apply Rinv_lt_contravar; [nra|lra]. }
  replace (/ - D1) with (- / D1) in * by (field; lra).
  replace (/ - D2) with (- / D2) in * by (field; lra).
  unfold Rdiv. nra.
Qed.

Lemma thermoCal0_salt_raises_Tm_witness :
  ∃ Tm1 Tm2,
    thermoCal0 sample_self "GAATTC/CTTAAG" 0 = Ok ("GAATTC/CTTAAG", [Tm1])
    ∧ thermoCal0 molar_self "GAATTC/CTTAAG" 0
      = Ok ("GAATTC/CTTAAG", [Tm2])
    ∧ Tm1 < Tm2.
Proof.
  destruct sample_self_returns as [Tm1 H1].
  destruct molar_self_returns as (Tm2 & H2 & Habs).
  exists Tm1, Tm2. split; [exact H1|]. split; [exact H2|].
  apply (thermoCal0_salt_raises_Tm sample_self (1000 * 1e-3)
           "GAATTC/CTTAAG" (0.2 + -8.2 + -7.9 + -7.2 + -7.9 + -8.2)
           (-5.7 + -22.2 + -22.2 + -20.4 + -22.2 + -22.2 + -1.4) Tm1 Tm2);
    [simpl; unfold _na_; lra|simpl; lia|exact sample_GAATTC|lra
    |exact H1|exact H2|exact Habs].
Defined.

(** ** From a line of the input file to its duplex *)

Lemma split_join (l : list string) :
  l ≠ [] →
  Forall (fun p => forallb (fun c => negb (Ascii.eqb Str.tab c))
                     (list_ascii_of_string p) = true) l →
  Str.split Str.tab (Str.join (String Str.tab "") l) = l.
Proof.
  intros Hne Hl. induction Hl as [|a l Ha Hl IH]; [done|].
  destruct l as [|b l].
  - simpl. unfold Str.split. rewrite split_chars_no_sep by done.
    simpl. by rewrite string_of_list_ascii_of_string.
  - change (Str.join (String Str.tab "") (a :: b :: l))
      with (a +:+ String Str.tab "" +:+ Str.join (String Str.tab "") (b :: l)).
    change (String Str.tab "" +:+ Str.join (String Str.tab "") (b :: l))
      with (String Str.tab (Str.join (String Str.tab "") (b :: l))).
    unfold Str.split. rewrite list_ascii_of_string_app. simpl.
    rewrite split_chars_first by (done || apply Ascii.eqb_refl).
    simpl. rewrite string_of_list_ascii_of_string. f_equal.
    by apply IH.
Qed.

Lemma re_split_no_tab (line p : string) :
  p ∈ Str.re_split_tab_comma line →
  forallb (fun c => negb (Ascii.eqb Str.tab c)) (list_ascii_of_string p)
  = true.
Proof.
  intros Hp. apply forallb_forall. intros c Hc.
  apply list_elem_of_In in Hc.
  destruct (split_chars_elem _ _ _ _ _ Hp Hc) as [H|[_ H]];
    [by apply elem_of_nil in H|].
  apply orb_false_iff in H as [H _].
  by rewrite Ascii.eqb_sym, H.
Qed.

(** X29.  The columns of a line of the input file reach [getOligoPair]
    as they are: for a (stripped) line with the columns [name] and
    [strands], split at tabs and commas, [readFileToDict] stores under
    [name] a value that [getOligoPair] splits into [strands] again, so
    that one strand is paired with its complement, two strands are paired
    with each other, and three or more are left out.  A line with a name
    only gives the duplex "/", on which [thermoCal0] ends with an
    [IndexError]. *)
Theorem input_line_duplex (lso : gmap string string) (line name : string)
    (strands : list string) (r : bool) :
  Str.re_split_tab_comma line = name :: strands →
  ∃ v, readFileToDict_item lso line = Ok (<[name := v]> lso)
    ∧ entry_duplex r v
      = match strands with
        | [] => Some "/"
        | [top] => Some (top +:+ "/" +:+ seqComp top)
        | [top; bottom] =>
            Some (top +:+ "/" +:+ (if r then seqRev bottom else bottom))
        | _ => None
        end
    ∧ (strands = [] →
       ∀ self verbose, thermoCal0 self "/" verbose = Raise IndexError).
Proof.
  intros Hline. unfold readFileToDict_item. rewrite Hline. simpl.
  rewrite drop_0. eexists. split; [reflexivity|]. split.
  - destruct strands as [|s1 strands]; [done|].
    unfold entry_duplex. rewrite split_join; [|done|].
    + by destruct strands as [|s2 [|s3 strands]].
    + apply Forall_forall. intros p Hp.
      apply (re_split_no_tab line). rewrite Hline. by right.
  - intros _ self verbose. unfold thermoCal0.
    assert (E : _get_dHdS (_nndH self) (_nndS self) "/" = Raise IndexError)
      by reflexivity.
    by rewrite E.
Qed.

Lemma input_line_duplex_witness :
  ∃ v, readFileToDict_item ∅ "demo,CGATCG" = Ok (<["demo" := v]> ∅)
    ∧ entry_duplex false v = Some ("CGATCG" +:+ "/" +:+ seqComp "CGATCG")
    ∧ ∃ v', readFileToDict_item ∅ "demo" = Ok (<["demo" := v']> ∅)
        ∧ entry_duplex false v' = Some "/"
        ∧ thermoCal0 sample_self "/" 0 = Raise IndexError.
Proof.
  destruct (input_line_duplex ∅ "demo,CGATCG" "demo" ["CGATCG"] false
              eq_refl) as (v & H1 & H2 & _).
  exists v. split; [exact H1|]. split; [exact H2|].
  destruct (input_line_duplex ∅ "demo" "demo" [] false eq_refl)
    as (v' & H1' & H2' & H3').
  exists v'. split; [exact H1'|]. split; [exact H2'|].
  by apply H3'.
Defined.

(** ** The bound percentage at the melting temperature *)

(** At [dH*1000/(dS - R*ln(ktm))] kelvin the equilibrium constant is
    [ktm]. *)
Lemma melting_keq_at_Tm (dH dS ktm : R) :
  dH ≠ 0 → dS - _R_ * ln ktm ≠ 0 → 0 < ktm →
  melting_keq dH dS (dH * 1000 / (dS - _R_ * ln ktm)) = ktm.
Proof.
  intros HdH HD Hk. unfold melting_keq.
  set (D := dS - _R_ * ln ktm) in *.
  replace (- (dH - dH * 1000 / D * dS / 1000) * 1000 / _R_
           / (dH * 1000 / D))
    with (ln ktm); [by apply exp_ln|].
  unfold D, _R_. field. split; [|split]; [|lra|done].
  fold _R_. fold D. done.
Qed.

(** With verbosity 1 the call goes on to the bound fraction at the
    temperature of the object. *)
Lemma thermoCal0_verbose1 self pair Tm :
  0 < _ct self → _ct self <= _cp self → _temper self ≠ 0 →
  thermoCal0 self pair 0 = Ok (pair, [Tm]) →
  ∃ perB dH dS,
    thermoCal0 self pair 1
    = Ok (pair, [Tm; perB * 100.0; dH - _temper self * dS / 1000; dH; dS;
                 _temper self - 273.15; _cp self * 1e9; _ct self * 1e9;
                 _na self * 1e3; _mg self * 1e3])
    ∧ _perBcal (melting_keq dH dS (_temper self)) (_cp self) (_ct self)
      = Ok perB
    ∧ dS - _R_ * ln (1 / (_cp self - _ct self / 2)) ≠ 0
    ∧ Tm = dH * 1000 / (dS - _R_ * ln (1 / (_cp self - _ct self / 2)))
           - 273.15.
Proof.
  intros Hct Hle Htemp H0.
  apply thermoCal0_Tm_inv in H0
    as (dH & dS & rest & Hg & Hmg & Hna & Hc & Hk & Hd & E).
  injection E as -> <-.
  set (dSeff := dS + 0.368 * ((INR (String.length pair) - 1) / 2 - 1)
                     * ln (_na self + 0.12 * sqrt (_mg self * 1000))) in *.
  destruct (perBcal_root (melting_keq dH dSeff (_temper self))
              (_cp self) (_ct self)) as (p & Hp & _);
    [apply exp_pos|done..|].
  exists p, dH, dSeff. split; [|by split].
  unfold thermoCal0. rewrite Hg. simpl.
  rewrite math_sqrt_Ok by done. simpl.
  rewrite math_log_Ok by done. simpl.
  rewrite (py_div_Ok 1) by done. simpl.
  rewrite math_log_Ok by done. simpl.
  rewrite (py_div_Ok (dH * 1000)) by done. simpl.
  rewrite py_div_Ok by done. simpl.
  fold dSeff. unfold melting_keq in Hp. by rewrite Hp.
Qed.

(** X30.  The Tm and the bound percentage of a row agree: when the
    temperature of the object is the Tm that [thermoCal0] reports for a
    duplex, the bound percentage in the same row is 50. *)
Theorem thermoCal0_half_bound_at_Tm (self : Thermo) (pair : string)
    (Tm : R) (rest : list R) :
  0 < _ct self → _ct self <= _cp self →
  thermoCal0 self pair 1 = Ok (pair, Tm :: rest) →
  _temper self = Tm + 273.15 → Tm ≠ -273.15 →
  rest !! 0%nat = Some 50.
Proof.
  intros Hct Hle H Htemp HTm.
  pose proof H as H'.
  apply thermoCal0_Tm_inv in H'
    as (dH & dS & rest' & Hg & Hmg & Hna & Hc & Hk & Hd & E).
  injection E as -> _.
  pose proof (thermoCal0_returns self pair dH dS Hg Hmg Hna Hc Hk Hd) as H0.
  assert (Hnz : _temper self ≠ 0) by (rewrite Htemp; lra).
  destruct (thermoCal0_verbose1 self pair _ Hct Hle Hnz H0)
    as (p & dH' & dS' & H1 & Hp & Hd' & ETm).
  rewrite H in H1. injection H1 as ->. simpl. f_equal.
  assert (HdH : dH' ≠ 0).
  { intros ->. apply HTm. rewrite ETm. unfold Rdiv. lra. }
  rewrite Htemp, ETm in Hp.
  replace (dH' * 1000
           / (dS' - _R_ * ln (1 / (_cp self - _ct self / 2)))
           - 273.15 + 273.15)
    with (dH' * 1000 / (dS' - _R_ * ln (1 / (_cp self - _ct self / 2))))
    in Hp by lra.
  rewrite melting_keq_at_Tm in Hp by done.
  destruct (perBcal_root _ (_cp self) (_ct self) Hk Hct Hle)
    as (p' & Hp' & Hp01 & Hroot).
  rewrite Hp in Hp'. injection Hp' as <-.
  set (c := _cp self / _ct self) in *.
  assert (Hc1 : 1 <= c).
  { unfold c. apply Rmult_le_reg_r with (_ct self); [done|].
    unfold Rdiv. rewrite Rmult_assoc, Rinv_l; lra. }
  assert (He : 1 / (1 / (_cp self - _ct self / 2) * _ct self) = c - 1 / 2).
  { unfold c. field. split; lra. }
  rewrite He in Hroot.
  assert (p = 1 / 2) by (apply (binding_root_unique c (c - 1 / 2)); lra).
  lra.
Qed.

Lemma thermoCal0_half_bound_at_Tm_witness :
  ∃ self Tm rest,
    thermoCal0 self "GAATTC/CTTAAG" 1 = Ok ("GAATTC/CTTAAG", Tm :: rest)
    ∧ _temper self = Tm + 273.15
    ∧ rest !! 0%nat = Some 50.
Proof.
  destruct molar_self_returns as (Tm & H & Habs).
  set (self := {| _temper := Tm + 273.15; _cp := _cp molar_self;
                  _ct := _ct molar_self; _na := _na molar_self;
                  _mg := _mg molar_self; _nndH := _nndH molar_self;
                  _nndS := _nndS molar_self |}).
  assert (Hct : 0 < _ct self) by (simpl; unfold _ct_; lra).
  assert (Hle : _ct self <= _cp self) by (simpl; unfold _cp_, _ct_; lra).
  assert (H0 : thermoCal0 self "GAATTC/CTTAAG" 0
               = Ok ("GAATTC/CTTAAG", [Tm])).
  { apply thermoCal0_Tm_inv in H
      as (dH & dS & rest & Hg & Hmg & Hna & Hc & Hk & Hd & E).
    injection E as -> _.
    by apply (thermoCal0_returns self "GAATTC/CTTAAG" dH dS). }
  destruct (thermoCal0_verbose1 self "GAATTC/CTTAAG" Tm Hct Hle)
    as (p & dH & dS & H1 & _); [simpl; lra|exact H0|].
  eexists self, Tm, _. split; [exact H1|]. split; [reflexivity|].
  apply (thermoCal0_half_bound_at_Tm self "GAATTC/CTTAAG" Tm _ Hct Hle H1);
    [reflexivity|lra].
Defined.

(** ** The symmetry correction *)

(** On a strand of A, C, G and T, [seqRC] is the reverse complement of
    the specification. *)
Lemma seqRC_reverse_complement (top : string) :
  (∀ c, c ∈ list_ascii_of_string top → c ∈ ["A"; "C"; "G"; "T"]%char) →
  list_ascii_of_string (seqRC top)
  = reverse_complement (list_ascii_of_string top).
Proof.
  intros Hdna. rewrite seqRC_chars. unfold reverse_complement.
  apply map_ext_in. intros c Hc.
  apply in_rev, list_elem_of_In, Hdna in Hc.
  rewrite !elem_of_cons, elem_of_nil in Hc.
  by destruct Hc as [->|[->|[->|[->|[]]]]].
Qed.

(** C6.  [_get_dHdS] adds the symmetry correction -1.4 to dS exactly
    when the upper-cased top strand is its own reverse complement, that
    is, when it equals itself read backwards with A and T, and C and G,
    exchanged; a duplex whose top strand is not its own reverse
    complement gets no symmetry correction, and dH never gets one. *)
Theorem get_dHdS_symmetry (nndH nndS : gmap string R) (pair : string)
    (dH dS : R) :
  _get_dHdS nndH nndS pair = Ok (dH, dS) →
  ∃ top bottom t0 b0 tn bn hs ss,
    Str.split "/" (Str.upper pair) !! 0%nat = Some top
    ∧ Str.split "/" (Str.upper pair) !! 1%nat = Some bottom
    ∧ list_ascii_of_string top !! 0%nat = Some t0
    ∧ list_ascii_of_string bottom !! 0%nat = Some b0
    ∧ last (list_ascii_of_string top) = Some tn
    ∧ last (list_ascii_of_string bottom) = Some bn
    ∧ nn_values nndH (list_ascii_of_string top) (list_ascii_of_string bottom)
        (range 0 (String.length top - 1)) hs
    ∧ nn_values nndS (list_ascii_of_string top) (list_ascii_of_string bottom)
        (range 0 (String.length top - 1)) ss
    ∧ dH = 0.2 + sum_R hs + terminal_dH t0 b0 + terminal_dH tn bn
    ∧ (self_complementary top →
       dS = -5.7 + sum_R ss + -1.4 + terminal_dS t0 b0 + terminal_dS tn bn)
    ∧ (¬ self_complementary top →
       dS = -5.7 + sum_R ss + terminal_dS t0 b0 + terminal_dS tn bn).
Proof.
  intros H.
  apply _get_dHdS_Ok in H
    as (top & bottom & t0 & b0 & tn & bn & hs & ss & Hdna & Htop & Hbot & _
        & Ht0 & Hb0 & Htn & Hbn & HH & HS & -> & ->).
  exists top, bottom, t0, b0, tn, bn, hs, ss.
  repeat (split; [done|]).
  assert (Hrc : list_ascii_of_string (seqRC top)
                = reverse_complement (list_ascii_of_string top)).
  { apply seqRC_reverse_complement. intros c.
    apply (split_piece_DNA _ top c Hdna).
    by eapply list_elem_of_lookup_2. }
  unfold self_complementary, symmetry_dS. rewrite <- Hrc.
  destruct (String.eqb_spec top (seqRC top)) as [E|E]; split; intros E'.
  - lra.
  - exfalso. apply E'. by rewrite <- E.
  - exfalso. by apply E, chars_inj.
  - lra.
Qed.

(** The witness of [get_dHdS_symmetry], on the sample tables: the
    duplex GAATTC/CTTAAG, whose top strand is its own reverse complement,
    gets -1.4; the duplex GAA/CTT, whose top strand has the reverse
    complement TTC, gets no symmetry correction (its 6.9 is the terminal
    correction of the end A-T). *)
Lemma get_dHdS_symmetry_witness :
  (∃ dH dS, _get_dHdS sample_nndH sample_nndS "GAATTC/CTTAAG" = Ok (dH, dS)
     ∧ dH = 0.2 + (-8.2 + -7.9 + -7.2 + -7.9 + -8.2)
     ∧ dS = -5.7 + (-22.2 + -22.2 + -20.4 + -22.2 + -22.2) + -1.4)
  ∧ (∃ dH dS, _get_dHdS sample_nndH sample_nndS "GAA/CTT" = Ok (dH, dS)
       ∧ reverse_complement (list_ascii_of_string "GAA")
         = list_ascii_of_string "TTC"
       ∧ dS = -5.7 + (-22.2 + -22.2) + 6.9).
Proof.
  assert (E1 : sample_nndH !! "GA/CT" = Some (-8.2)) by by_vm.
  assert (E2 : sample_nndH !! "AA/TT" = Some (-7.9)) by by_vm.
  assert (E3 : sample_nndH !! "AT/TA" = Some (-7.2)) by by_vm.
  assert (E4 : sample_nndH !! "TT/AA" = Some (-7.9)) by by_vm.
  assert (E5 : sample_nndH !! "TC/AG" = Some (-8.2)) by by_vm.
  assert (F1 : sample_nndS !! "GA/CT" = Some (-22.2)) by by_vm.
  assert (F2 : sample_nndS !! "AA/TT" = Some (-22.2)) by by_vm.
  assert (F3 : sample_nndS !! "AT/TA" = Some (-20.4)) by by_vm.
  assert (F4 : sample_nndS !! "TT/AA" = Some (-22.2)) by by_vm.
  assert (F5 : sample_nndS !! "TC/AG" = Some (-22.2)) by by_vm.
  assert (T1 : terminal_dH "G" "C" = 0 ∧ terminal_dS "G" "C" = 0)
    by (apply terminal_correction; intros [? ?]; congruence).
  assert (T2 : terminal_dH "C" "G" = 0 ∧ terminal_dS "C" "G" = 0)
    by (apply terminal_correction; intros [? ?]; congruence).
  assert (T3 : terminal_dH "A" "T" = 2.2 ∧ terminal_dS "A" "T" = 6.9)
    by (apply terminal_correction; split; congruence).
  destruct T1 as [T1 T1'], T2 as [T2 T2'], T3 as [T3 T3'].
  split.
  - set (r := value_of (0, 0)
                (_get_dHdS sample_nndH sample_nndS "GAATTC/CTTAAG")).
    assert (H : _get_dHdS sample_nndH sample_nndS "GAATTC/CTTAAG"
                = Ok (r.1, r.2)) by by_vm.
    clearbody r. exists r.1, r.2. split; [exact H|].
    destruct (get_dHdS_symmetry _ _ _ _ _ H)
      as (top & bottom & t0 & b0 & tn & bn & hs & ss & Htop & Hbot
          & Ht0 & Hb0 & Htn & Hbn & HH & HS & HdH & Hsym & _).
    vm_compute in Htop. injection Htop as <-.
    vm_compute in Hbot. injection Hbot as <-.
    vm_compute in Ht0. injection Ht0 as <-.
    vm_compute in Hb0. injection Hb0 as <-.
    vm_compute in Htn. injection Htn as <-.
    vm_compute in Hbn. injection Hbn as <-.
    nn_values_inv HH. nn_values_inv HS.
    repeat match goal with
           | Hv : sample_nndH !! _ = Some _ |- _ =>
               first [rewrite E1 in Hv | rewrite E2 in Hv | rewrite E3 in Hv
                     | rewrite E4 in Hv | rewrite E5 in Hv];
               injection Hv as <-
           | Hv : sample_nndS !! _ = Some _ |- _ =>
               first [rewrite F1 in Hv | rewrite F2 in Hv | rewrite F3 in Hv
                     | rewrite F4 in Hv | rewrite F5 in Hv];
               injection Hv as <-
           end.
    rewrite T1, T2 in HdH. rewrite Hsym by reflexivity.
    rewrite T1', T2', HdH. unfold sum_R. simpl. lra.
  - set (r := value_of (0, 0)
                (_get_dHdS sample_nndH sample_nndS "GAA/CTT")).
    assert (H : _get_dHdS sample_nndH sample_nndS "GAA/CTT"
                = Ok (r.1, r.2)) by by_vm.
    clearbody r. exists r.1, r.2. split; [exact H|].
    split; [reflexivity|].
    destruct (get_dHdS_symmetry _ _ _ _ _ H)
      as (top & bottom & t0 & b0 & tn & bn & hs & ss & Htop & Hbot
          & Ht0 & Hb0 & Htn & Hbn & HH & HS & _ & _ & Hnot).
    vm_compute in Htop. injection Htop as <-.
    vm_compute in Hbot. injection Hbot as <-.
    vm_compute in Ht0. injection Ht0 as <-.
    vm_compute in Hb0. injection Hb0 as <-.
    vm_compute in Htn. injection Htn as <-.
    vm_compute in Hbn. injection Hbn as <-.
    nn_values_inv HS. clear HH.
    repeat match goal with
           | Hv : sample_nndS !! _ = Some _ |- _ =>
               first [rewrite F1 in Hv | rewrite F2 in Hv | rewrite F3 in Hv
                     | rewrite F4 in Hv | rewrite F5 in Hv];
               injection Hv as <-
           end.
    rewrite Hnot by (intros E; vm_compute in E; discriminate E).
    rewrite T1', T3'. unfold sum_R. simpl. lra.
Defined.

(** The witness of [thermoCal0_verbosity]: the sample duplex at
    verbosity 1, whose ten numbers start with the Tm of verbosity 0. *)
Lemma thermoCal0_verbosity_witness :
  ∃ Tm rest,
    thermoCal0 sample_self "GAATTC/CTTAAG" 1
    = Ok ("GAATTC/CTTAAG", Tm :: rest)
    ∧ length rest = 9%nat
    ∧ thermoCal0 sample_self "GAATTC/CTTAAG" 0
      = Ok ("GAATTC/CTTAAG", [Tm]).
Proof.
  destruct sample_self_returns as [Tm0 H0].
  destruct (thermoCal0_verbose1 sample_self "GAATTC/CTTAAG" Tm0)
    as (p & dH & dS & H1 & _);
    [simpl; unfold _ct_; lra|simpl; unfold _cp_, _ct_; lra
    |simpl; unfold _temper_; lra|exact H0|].
  destruct (thermoCal0_verbosity sample_self "GAATTC/CTTAAG" 1 _ H1)
    as (Tm & rest & E & Hv0).
  exists Tm, rest. injection E as -> <-.
  split; [exact H1|]. split; [reflexivity|exact Hv0].
Defined.
